(** * Kimi-API: the session/request engine and the event-stream decoder

    A shallow embedding of [kimiai/engine.py], [kimiai/chat.py],
    [kimiai/exceptions.py] and [kimiai/models.py].

    Conventions.
    - A Python [bytes] value is a [string] (a sequence of 8-bit characters).
    - A Python [str] is represented by its UTF-8 encoding, again a [string];
      [bytes.decode('utf-8')] is therefore a validity check.
    - Python values obtained from [json.loads] are terms of type [json];
      [JNull] is Python's [None].
    - Everything the program does not define itself and that depends on the
      outside (the file system, the lines of the cookie file, the network and
      the remote side, the random generator) is a field of a [World] record,
      over which every general statement is quantified.
    - What the program relies on of its two libraries is written out: the
      cookie jar of [http.cookiejar], and of [curl_cffi] the cookie lookup,
      the closed check of a session, the status test of a response and the
      unread body of a streamed response. *)

From stdpp Require Import gmap strings list fin_maps.
From Stdlib Require Import ZArith String Ascii DecimalString.


(* ===================================================================== *)
(** * Python strings *)
(* ===================================================================== *)

Module Py.

Definition byte_of (n : N) : ascii := ascii_of_N n.

Definition bytes_of (l : list N) : string :=
  fold_right (fun n s => String (byte_of n) s) EmptyString l.

Fixpoint codes (s : string) : list N :=
  match s with
  | EmptyString => []
  | String c r => N_of_ascii c :: codes r
  end.

(** The quotation mark, and a helper to write text that contains quotation
    marks: [dq] turns every apostrophe of a literal into a quotation mark. *)
Definition quote : ascii := byte_of 34.

Fixpoint dq (s : string) : string :=
  match s with
  | EmptyString => EmptyString
  | String c r => String (if Ascii.eqb c (byte_of 39) then quote else c) (dq r)
  end.

(** [s[n:]] *)
Fixpoint slice_from (n : nat) (s : string) : string :=
  match n, s with
  | O, _ => s
  | S _, EmptyString => EmptyString
  | S n', String _ r => slice_from n' r
  end.

(** [s.startswith(p)] *)
Definition startswith (s p : string) : bool := String.prefix p s.

Fixpoint rev_onto (s acc : string) : string :=
  match s with
  | EmptyString => acc
  | String c r => rev_onto r (String c acc)
  end.

Definition reverse (s : string) : string := rev_onto s EmptyString.

(** [s.endswith(p)] *)
Definition endswith (s p : string) : bool :=
  String.prefix (reverse p) (reverse s).

(** The characters for which [str.isspace] holds, in UTF-8:
    U+0009..U+000D, U+001C..U+0020, U+0085, U+00A0, U+1680,
    U+2000..U+200A, U+2028, U+2029, U+202F, U+205F, U+3000. *)
Definition whitespace : list string :=
  map bytes_of
    [ [9]; [10]; [11]; [12]; [13]; [28]; [29]; [30]; [31]; [32];
      [194; 133]; [194; 160]; [225; 154; 128];
      [226; 128; 128]; [226; 128; 129]; [226; 128; 130]; [226; 128; 131];
      [226; 128; 132]; [226; 128; 133]; [226; 128; 134]; [226; 128; 135];
      [226; 128; 136]; [226; 128; 137]; [226; 128; 138];
      [226; 128; 168]; [226; 128; 169]; [226; 128; 175];
      [226; 129; 159]; [227; 128; 128] ]%N.

Fixpoint drop_first (ws : list string) (s : string) : option string :=
  match ws with
  | [] => None
  | w :: ws' =>
      if String.prefix w s then Some (slice_from (String.length w) s)
      else drop_first ws' s
  end.

Fixpoint lstrip_with (ws : list string) (fuel : nat) (s : string) : string :=
  match fuel with
  | O => s
  | S fuel' =>
      match drop_first ws s with
      | Some s' => lstrip_with ws fuel' s'
      | None => s
      end
  end.

Definition lstrip (s : string) : string :=
  lstrip_with whitespace (String.length s) s.

Definition rstrip (s : string) : string :=
  reverse (lstrip_with (map reverse whitespace) (String.length s) (reverse s)).

(** [s.strip()] *)
Definition strip (s : string) : string := rstrip (lstrip s).

(** [s.lower()], on the ASCII letters.  No other character lowercases to a
    string made of ASCII letters among p n g j e w b i f only, so membership
    of [s.lower()] in the image-extension list is decided by this function. *)
Definition lower_char (c : ascii) : ascii :=
  let n := N_of_ascii c in
  if ((65 <=? n) && (n <=? 90))%N then byte_of (n + 32) else c.

Fixpoint lower (s : string) : string :=
  match s with
  | EmptyString => EmptyString
  | String c r => String (lower_char c) (lower r)
  end.

(** [s.split(sep)] for a one-character separator. *)
Fixpoint split (sep : ascii) (s : string) : list string :=
  match s with
  | EmptyString => [EmptyString]
  | String c r =>
      if Ascii.eqb c sep then EmptyString :: split sep r
      else
        match split sep r with
        | [] => [String c EmptyString]
        | w :: ws => String c w :: ws
        end
  end.

(** [os.path.basename] of [posixpath]: the text after the last slash. *)
Definition basename (p : string) : string := List.last (split "/" p) EmptyString.

(** [bytes.decode('utf-8')] in strict mode accepts exactly the well-formed
    UTF-8 sequences (no overlong forms, no surrogates, nothing above
    U+10FFFF). *)
Definition cont (n : N) : bool := ((128 <=? n) && (n <=? 191))%N.

Fixpoint utf8_valid (l : list N) : bool :=
  match l with
  | [] => true
  | b0 :: r0 =>
      if (b0 <=? 127)%N then utf8_valid r0
      else
        match r0 with
        | [] => false
        | b1 :: r1 =>
            if ((194 <=? b0) && (b0 <=? 223))%N then cont b1 && utf8_valid r1
            else
              match r1 with
              | [] => false
              | b2 :: r2 =>
                  if (b0 =? 224)%N then
                    ((160 <=? b1) && (b1 <=? 191))%N && cont b2 && utf8_valid r2
                  else if (b0 =? 237)%N then
                    ((128 <=? b1) && (b1 <=? 159))%N && cont b2 && utf8_valid r2
                  else if ((225 <=? b0) && (b0 <=? 239))%N then
                    cont b1 && cont b2 && utf8_valid r2
                  else
                    match r2 with
                    | [] => false
                    | b3 :: r3 =>
                        if (b0 =? 240)%N then
                          ((144 <=? b1) && (b1 <=? 191))%N
                          && cont b2 && cont b3 && utf8_valid r3
                        else if (b0 =? 244)%N then
                          ((128 <=? b1) && (b1 <=? 143))%N
                          && cont b2 && cont b3 && utf8_valid r3
                        else if ((241 <=? b0) && (b0 <=? 243))%N then
                          cont b1 && cont b2 && cont b3 && utf8_valid r3
                        else false
                    end
              end
        end
  end.

(** [b.decode('utf-8')]: [None] stands for [UnicodeDecodeError]. *)
Definition decode_utf8 (b : string) : option string :=
  if utf8_valid (codes b) then Some b else None.

(** [str(n)] of an integer. *)
Definition str_of_Z (z : Z) : string := NilZero.string_of_int (Z.to_int z).

End Py.

(* ===================================================================== *)
(** * JSON values and [json.loads] *)
(* ===================================================================== *)

Module Json.

(** The Python value [json.loads] builds.  A number keeps its lexeme; an
    object keeps its members in source order, and a later member shadows an
    earlier one with the same key, as in the [dict] Python builds. *)
#[warnings="-register-all"] Inductive json : Type :=
| JNull
| JBool (b : bool)
| JNum (lexeme : string)
| JStr (s : string)
| JArr (items : list json)
| JObj (members : list (string * json)).

(** [d[k]] on the member list of a dict: the last binding wins. *)
Fixpoint lookup_member (k : string) (ms : list (string * json)) : option json :=
  match ms with
  | [] => None
  | (k', v) :: rest =>
      match lookup_member k rest with
      | Some v' => Some v'
      | None => if String.eqb k k' then Some v else None
      end
  end.

(** [v == s] for a Python value [v] and a [str] literal [s]. *)
Definition eq_str (v : json) (s : string) : bool :=
  match v with
  | JStr s' => String.eqb s' s
  | _ => false
  end.

(** ** The scanner of [json.loads], default settings *)

Definition is_ws (c : ascii) : bool :=
  let n := N_of_ascii c in ((n =? 32) || (n =? 9) || (n =? 10) || (n =? 13))%N.

Fixpoint skip_ws (s : string) : string :=
  match s with
  | String c r => if is_ws c then skip_ws r else s
  | EmptyString => s
  end.

Definition is_digit (c : ascii) : bool :=
  let n := N_of_ascii c in ((48 <=? n) && (n <=? 57))%N.

Definition hex_val (c : ascii) : option N :=
  let n := N_of_ascii c in
  if ((48 <=? n) && (n <=? 57))%N then Some (n - 48)%N
  else if ((65 <=? n) && (n <=? 70))%N then Some (n - 55)%N
  else if ((97 <=? n) && (n <=? 102))%N then Some (n - 87)%N
  else None.

Definition hex4 (a b c d : ascii) : option N :=
  match hex_val a, hex_val b, hex_val c, hex_val d with
  | Some x, Some y, Some z, Some w => Some (((x * 16 + y) * 16 + z) * 16 + w)%N
  | _, _, _, _ => None
  end.

(** The UTF-8 form of a code point (a lone surrogate, which a Python [str]
    may hold, gets the three-byte form). *)
Definition utf8_encode (u : N) : string :=
  if (u <? 128)%N then Py.bytes_of [u]
  else if (u <? 2048)%N then
    Py.bytes_of [192 + u / 64; 128 + u mod 64]%N
  else if (u <? 65536)%N then
    Py.bytes_of [224 + u / 4096; 128 + (u / 64) mod 64; 128 + u mod 64]%N
  else
    Py.bytes_of [240 + u / 262144; 128 + (u / 4096) mod 64;
                 128 + (u / 64) mod 64; 128 + u mod 64]%N.

Definition simple_escape (c : ascii) : option N :=
  let n := N_of_ascii c in
  if (n =? 34)%N then Some 34%N          (* quotation mark *)
  else if (n =? 92)%N then Some 92%N     (* backslash *)
  else if (n =? 47)%N then Some 47%N     (* slash *)
  else if (n =? 98)%N then Some 8%N      (* b *)
  else if (n =? 102)%N then Some 12%N    (* f *)
  else if (n =? 110)%N then Some 10%N    (* n *)
  else if (n =? 114)%N then Some 13%N    (* r *)
  else if (n =? 116)%N then Some 9%N     (* t *)
  else None.

(** The body of a string literal, after the opening quotation mark: the
    decoded text and the input after the closing quotation mark. *)
Fixpoint scan_string (s : string) : option (string * string) :=
  match s with
  | EmptyString => None
  | String c r =>
      let n := N_of_ascii c in
      if (n =? 34)%N then Some (EmptyString, r)
      else if (n <? 32)%N then None
      else if (n =? 92)%N then
        match r with
        | String e r1 =>
            if (N_of_ascii e =? 117)%N then
              match r1 with
              | String h1 (String h2 (String h3 (String h4 r2))) =>
                  match hex4 h1 h2 h3 h4 with
                  | None => None
                  | Some u =>
                      let single :=
                        match scan_string r2 with
                        | Some (t, rest) => Some (utf8_encode u +:+ t, rest)
                        | None => None
                        end in
                      if ((55296 <=? u) && (u <=? 56319))%N then
                        match r2 with
                        | String b (String v (String l1 (String l2
                            (String l3 (String l4 r3))))) =>
                            if ((N_of_ascii b =? 92) && (N_of_ascii v =? 117))%N
                            then
                              match hex4 l1 l2 l3 l4 with
                              | Some u2 =>
                                  if ((56320 <=? u2) && (u2 <=? 57343))%N then
                                    match scan_string r3 with
                                    | Some (t, rest) =>
                                        Some (utf8_encode
                                                (65536 + (u - 55296) * 1024
                                                 + (u2 - 56320))%N +:+ t, rest)
                                    | None => None
                                    end
                                  else single
                              | None => single
                              end
                            else single
                        | _ => single
                        end
                      else single
                  end
              | _ => None
              end
            else
              match simple_escape e with
              | Some u =>
                  match scan_string r1 with
                  | Some (t, rest) => Some (String (Py.byte_of u) t, rest)
                  | None => None
                  end
              | None => None
              end
        | EmptyString => None
        end
      else
        match scan_string r with
        | Some (t, rest) => Some (String c t, rest)
        | None => None
        end
  end.

Fixpoint span_digits (s : string) : string * string :=
  match s with
  | String c r =>
      if is_digit c then let (d, rest) := span_digits r in (String c d, rest)
      else (EmptyString, s)
  | EmptyString => (EmptyString, s)
  end.

(** The integer part: a single zero, or a non-zero digit and more digits. *)
Definition scan_int (s : string) : option (string * string) :=
  match s with
  | String c r =>
      if (N_of_ascii c =? 48)%N then Some (String c EmptyString, r)
      else if is_digit c then
        let (d, rest) := span_digits r in Some (String c d, rest)
      else None
  | EmptyString => None
  end.

Definition scan_frac (s : string) : string * string :=
  match s with
  | String c r =>
      if (N_of_ascii c =? 46)%N then
        match span_digits r with
        | (EmptyString, _) => (EmptyString, s)
        | (d, rest) => (String c d, rest)
        end
      else (EmptyString, s)
  | EmptyString => (EmptyString, s)
  end.

Definition scan_exp (s : string) : string * string :=
  match s with
  | String c r =>
      if ((N_of_ascii c =? 101) || (N_of_ascii c =? 69))%N then
        let '(sign, r1) :=
          match r with
          | String g r' =>
              if ((N_of_ascii g =? 43) || (N_of_ascii g =? 45))%N
              then (String g EmptyString, r') else (EmptyString, r)
          | EmptyString => (EmptyString, r)
          end in
        match span_digits r1 with
        | (EmptyString, _) => (EmptyString, s)
        | (d, rest) => (String c (sign +:+ d), rest)
        end
      else (EmptyString, s)
  | EmptyString => (EmptyString, s)
  end.

(** A number: optional minus, integer part, optional fraction and exponent. *)
Definition scan_number (s : string) : option (string * string) :=
  let '(minus, r0) :=
    match s with
    | String c r =>
        if (N_of_ascii c =? 45)%N then (String c EmptyString, r)
        else (EmptyString, s)
    | EmptyString => (EmptyString, s)
    end in
  match scan_int r0 with
  | None => None
  | Some (i, r1) =>
      let (f, r2) := scan_frac r1 in
      let (e, r3) := scan_exp r2 in
      Some (minus +:+ i +:+ f +:+ e, r3)
  end.

Definition scan_literal (s : string) : option (json * string) :=
  if String.prefix "null" s then Some (JNull, Py.slice_from 4 s)
  else if String.prefix "true" s then Some (JBool true, Py.slice_from 4 s)
  else if String.prefix "false" s then Some (JBool false, Py.slice_from 5 s)
  else
    match scan_number s with
    | Some (lex, rest) => Some (JNum lex, rest)
    | None =>
        if String.prefix "NaN" s then Some (JNum "NaN", Py.slice_from 3 s)
        else if String.prefix "Infinity" s
        then Some (JNum "Infinity", Py.slice_from 8 s)
        else if String.prefix "-Infinity" s
        then Some (JNum "-Infinity", Py.slice_from 9 s)
        else None
    end.

Section Containers.
(** The value scanner one nesting level down. *)
Variable scan_once : string -> option (json * string).

(** The elements of an array, the input standing at the first of them. *)
Fixpoint scan_elements (fuel : nat) (s : string) : option (list json * string) :=
  match fuel with
  | O => None
  | S fuel' =>
      match scan_once s with
      | None => None
      | Some (v, r) =>
          match skip_ws r with
          | String c r' =>
              if (N_of_ascii c =? 93)%N then Some ([v], r')
              else if (N_of_ascii c =? 44)%N then
                match scan_elements fuel' (skip_ws r') with
                | Some (vs, rest) => Some (v :: vs, rest)
                | None => None
                end
              else None
          | EmptyString => None
          end
      end
  end.

(** The members of an object, the input standing at the quotation mark
    that opens the first key. *)
Fixpoint scan_members (fuel : nat) (s : string)
  : option (list (string * json) * string) :=
  match fuel with
  | O => None
  | S fuel' =>
      match s with
      | String q r0 =>
          if (N_of_ascii q =? 34)%N then
            match scan_string r0 with
            | None => None
            | Some (key, r1) =>
                match skip_ws r1 with
                | String c r2 =>
                    if (N_of_ascii c =? 58)%N then
                      match scan_once (skip_ws r2) with
                      | None => None
                      | Some (v, r3) =>
                          match skip_ws r3 with
                          | String d r4 =>
                              if (N_of_ascii d =? 125)%N
                              then Some ([(key, v)], r4)
                              else if (N_of_ascii d =? 44)%N then
                                match scan_members fuel' (skip_ws r4) with
                                | Some (ms, rest) => Some ((key, v) :: ms, rest)
                                | None => None
                                end
                              else None
                          | EmptyString => None
                          end
                      end
                    else None
                | EmptyString => None
                end
            end
          else None
      | EmptyString => None
      end
  end.
End Containers.

(** One JSON value at the head of the input.  Every recursive call is on a
    shorter input, so a fuel of the input's length is never used up. *)
Fixpoint scan_value (fuel : nat) (s : string) : option (json * string) :=
  match fuel with
  | O => None
  | S fuel' =>
      match s with
      | EmptyString => None
      | String c r =>
          let n := N_of_ascii c in
          if (n =? 34)%N then
            match scan_string r with
            | Some (t, rest) => Some (JStr t, rest)
            | None => None
            end
          else if (n =? 123)%N then
            match skip_ws r with
            | String d r' =>
                if (N_of_ascii d =? 125)%N then Some (JObj [], r')
                else
                  match scan_members (scan_value fuel') (String.length r)
                          (skip_ws r) with
                  | Some (ms, rest) => Some (JObj ms, rest)
                  | None => None
                  end
            | EmptyString => None
            end
          else if (n =? 91)%N then
            match skip_ws r with
            | String d r' =>
                if (N_of_ascii d =? 93)%N then Some (JArr [], r')
                else
                  match scan_elements (scan_value fuel') (String.length r)
                          (skip_ws r) with
                  | Some (vs, rest) => Some (JArr vs, rest)
                  | None => None
                  end
            | EmptyString => None
            end
          else scan_literal s
      end
  end.

(** [json.loads(s)]: [None] stands for [json.JSONDecodeError]. *)
Definition loads (s : string) : option json :=
  let s0 := skip_ws s in
  match scan_value (S (String.length s0)) s0 with
  | Some (v, rest) =>
      match skip_ws rest with
      | EmptyString => Some v
      | String _ _ => None
      end
  | None => None
  end.

End Json.


(* ===================================================================== *)
(** * Requests, responses and exceptions *)
(* ===================================================================== *)

Module Http.

(** What a request carries: [json=...] or [data=...]. *)
Inductive body : Type :=
| NoBody
| JsonBody (payload : Json.json)
| DataBody (data : string).

(** One call of [session.request] / [session.post] / [session.put];
    [via] is the session object the call is made on. *)
Record Request : Type := mkRequest {
  method : string;
  url : string;
  payload : body;
  stream : bool;
  via : nat
}.

(** What happens to a streamed body after its last line: it is complete,
    the connection fails (the transport's own error), or the iterator fails
    with some other exception. *)
Inductive closing : Type :=
| Complete
| TransportDrop (msg : string)
| IterationFailure (cls msg : string).

(** A response as the remote side gives it: [text] is its body, [lines] the
    lines the body is cut into when it is streamed. *)
Record Response : Type := mkResponse {
  status_code : Z;
  reason : string;
  text : string;
  lines : list string;
  ending : closing
}.

(** [Response.ok] of the transport library: the status is in [200, 400).
    [raise_for_status] raises exactly when it is false, so a 3xx response
    that the transport hands over is not an error. *)
Definition status_ok (r : Response) : bool :=
  ((200 <=? status_code r) && (status_code r <? 400))%Z.

(** The response object of a call made with [stream=True]: the body has not
    been read, so [response.text] is the empty string; the lines come from
    the iterator. *)
Definition unread (r : Response) : Response :=
  mkResponse (status_code r) (reason r) "" (lines r) (ending r).

End Http.

(** The cookie jar of [http.cookiejar]: three nested dicts, by domain, by
    path and by name, each in insertion order. *)
Module Cookiejar.

Record Cookie : Type := mkCookie {
  name : string;
  value : option string;
  domain : string;
  path : string
}.

(** A dict with [str] keys, in insertion order. *)
Definition dict (A : Type) : Type := list (string * A).

(** [d[k] = f(d.get(k))]: an existing key keeps its place. *)
Fixpoint upsert {A : Type} (k : string) (f : option A -> A) (d : dict A) : dict A :=
  match d with
  | [] => [(k, f None)]
  | (k', v) :: rest =>
      if String.eqb k' k then (k', f (Some v)) :: rest
      else (k', v) :: upsert k f rest
  end.

Definition CookieJar : Type := dict (dict (dict Cookie)).

Definition empty : CookieJar := [].

(** [CookieJar.set_cookie] *)
Definition set_cookie (jar : CookieJar) (c : Cookie) : CookieJar :=
  upsert (domain c)
    (λ by_path,
       upsert (path c)
         (λ by_name, upsert (name c) (λ _, c) (default [] by_name))
         (default [] by_path))
    jar.

(** [iter(jar)]: the cookies, domain by domain, path by path. *)
Definition deepvalues (jar : CookieJar) : list Cookie :=
  by_path ← jar; by_name ← by_path.2; by_name.2.*2.

(** [MozillaCookieJar.load]: the cookies of the lines of the file are set one
    after the other. *)
Definition load (entries : list Cookie) : CookieJar :=
  foldl set_cookie empty entries.

End Cookiejar.

Module Exceptions.
Import Http.

(** [kimiai/exceptions.py], with the two foreign families the program
    handles: the transport's [RequestsError] and the built-in exceptions
    ([cls] is the class name).  [cause] is [__cause__], set by
    [raise ... from e].  The message of a built-in exception is indicative
    only. *)
#[warnings="-register-all"] Inductive exn : Type :=
| KimiException (msg : string) (cause : option exn)
| AuthenticationError (msg : string) (cause : option exn)
| APIError (msg : string) (status_code : Z) (response_text : string)
           (cause : option exn)
| FileUploadError (msg : string) (cause : option exn)
| RequestsError (msg : string) (response : option Response)
| Builtin (cls msg : string).

(** [str(e)] *)
Definition str (e : exn) : string :=
  match e with
  | KimiException m _ | AuthenticationError m _ | APIError m _ _ _
  | FileUploadError m _ | RequestsError m _ | Builtin _ m => m
  end.

(** [APIError.__init__]: the message gets the status appended. *)
Definition APIError_init (message : string) (status_code : Z)
    (response_text : string) (cause : option exn) : exn :=
  APIError (message +:+ " (Status: " +:+ Py.str_of_Z status_code +:+ ")")
           status_code response_text cause.

(** [isinstance(e, json.JSONDecodeError)] *)
Definition is_JSONDecodeError (e : exn) : bool :=
  match e with Builtin c _ => String.eqb c "JSONDecodeError" | _ => false end.

Inductive result (A : Type) : Type :=
| Ok (a : A)
| Raise (e : exn).
Arguments Ok {A} a.
Arguments Raise {A} e.

End Exceptions.

(** The cookie store of a session ([curl_cffi.requests.Cookies]), a wrapper
    around a cookie jar. *)
Module Cookies.
Import Cookiejar Exceptions.

(** [Cookies.update(jar)]: every cookie of [jar] is set in the store. *)
Definition update (store jar : CookieJar) : CookieJar :=
  foldl set_cookie store (deepvalues jar).

(** [CookieConflict], a [RequestsError]. *)
Definition CookieConflict (name matched_domain domain : string) : exn :=
  RequestsError
    ("Multiple cookies exist with name=" +:+ name +:+ " on " +:+ matched_domain
     +:+ " and " +:+ domain +:+ ", add domain parameter to suppress this error.")
    None.

(** The loop of [Cookies.get(name)] over the cookies still to visit;
    [value] and [matched_domain] are its two variables.  Two cookies of the
    name on domains of which neither ends with the other, with different
    values, are a conflict. *)
Fixpoint scan (name : string) (cs : list Cookie) (value : option string)
    (matched_domain : string) : result (option string) :=
  match cs with
  | [] => Ok value
  | c :: rest =>
      if String.eqb (Cookiejar.name c) name then
        if bool_decide (value ≠ None)
           && negb (Py.endswith matched_domain (domain c))
           && negb (Py.endswith (domain c) matched_domain)
           && bool_decide (value ≠ Cookiejar.value c)
        then Raise (CookieConflict name matched_domain (domain c))
        else scan name rest (Cookiejar.value c) (domain c)
      else scan name rest value matched_domain
  end.

(** [Cookies.get(name)]: the value of the cookie, [None] when there is none
    (or when its value is [None]). *)
Definition get (store : CookieJar) (name : string) : result (option string) :=
  scan name (deepvalues store) None "".

End Cookies.

(** Python values at run time: [dict.get], subscripting, formatting. *)
Module Value.
Import Json Exceptions.

(** [type(v).__name__] *)
Definition is_float_lexeme (lex : string) : bool :=
  existsb (fun c => match String.index 0 c lex with Some _ => true | None => false end)
          ["."; "e"; "E"; "N"; "I"].

Definition type_name (v : json) : string :=
  match v with
  | JNull => "NoneType"
  | JBool _ => "bool"
  | JNum lex => if is_float_lexeme lex then "float" else "int"
  | JStr _ => "str"
  | JArr _ => "list"
  | JObj _ => "dict"
  end.

(** [v.get(k, default)]: only a dict has the method. *)
Definition get (v : json) (k : string) (default : json) : result json :=
  match v with
  | JObj ms =>
      match lookup_member k ms with
      | Some x => Ok x
      | None => Ok default
      end
  | _ => Raise (Builtin "AttributeError"
                  ("'" +:+ type_name v +:+ "' object has no attribute 'get'"))
  end.

(** [v[k]] for a [str] key [k]. *)
Definition getitem (v : json) (k : string) : result json :=
  match v with
  | JObj ms =>
      match lookup_member k ms with
      | Some x => Ok x
      | None => Raise (Builtin "KeyError" ("'" +:+ k +:+ "'"))
      end
  | JArr _ =>
      Raise (Builtin "TypeError" "list indices must be integers or slices, not str")
  | JStr _ =>
      Raise (Builtin "TypeError" "string indices must be integers, not 'str'")
  | _ =>
      Raise (Builtin "TypeError"
               ("'" +:+ type_name v +:+ "' object is not subscriptable"))
  end.

(** [f"{v}"]: the text of [None], of a bool and of a [str]; the text of a
    number, a list or a dict is left to [other]. *)
Definition format (other : json -> string) (v : json) : string :=
  match v with
  | JNull => "None"
  | JBool true => "True"
  | JBool false => "False"
  | JStr s => s
  | _ => other v
  end.

End Value.

Module Models.
Import Json.

(** [kimiai/models.py].  The dataclasses do not check field types, so a
    field filled from a decoded payload holds whatever value was there. *)
Record KimiMessage : Type := mkKimiMessage {
  role : string;
  content : string
}.

(** [vars(msg)] *)
Definition vars (m : KimiMessage) : json :=
  JObj [("role", JStr (role m)); ("content", JStr (content m))].

Record UploadedFile : Type := mkUploadedFile {
  id : json;
  name : json;
  object_name : json;
  file_type : json;
  meta : json
}.

Inductive StreamEvent : Type :=
| CompletionChunk (event : string) (text : json)
| SearchInfo (event : string) (hallucination : json) (search_type : json)
| StatusUpdate (event : string).

End Models.

(* ===================================================================== *)
(** * The environment, the object store and the monad of effects *)
(* ===================================================================== *)

Module Runtime.
Import Json Http Exceptions.
Import Cookiejar (Cookie, CookieJar).

(** The transport's session object ([curl_cffi.requests.AsyncSession]), as
    far as the program reads and writes it. *)
Record AsyncSession : Type := mkAsyncSession {
  impersonate : string;
  timeout : Z;
  proxies : gmap string string;
  headers : gmap string string;
  cookies : CookieJar;
  closed : bool
}.

Definition with_cookies (c : CookieJar) (s : AsyncSession) : AsyncSession :=
  mkAsyncSession (impersonate s) (timeout s) (proxies s) (headers s) c (closed s).

Definition with_headers (h : gmap string string) (s : AsyncSession) : AsyncSession :=
  mkAsyncSession (impersonate s) (timeout s) (proxies s) h (cookies s) (closed s).

Definition with_closed (b : bool) (s : AsyncSession) : AsyncSession :=
  mkAsyncSession (impersonate s) (timeout s) (proxies s) (headers s) (cookies s) b.

(** What the transport does with a call. *)
Inductive outcome : Type :=
| Replied (r : Response)
| Failed (e : exn).

(** Everything outside the program.
    - [path_exists]: [os.path.exists].
    - [cookie_file]: what [MozillaCookieJar(path).load(ignore_discard=True,
      ignore_expires=True)] reads: the cookies of the lines of the file, in
      the order of the lines, or the exception the loader raises.
    - [open_rb]: [open(path, 'rb')]: the exception it raises, or the file,
      which is what its [read()] does: raise, or return the bytes.
    - [network]: the network and the remote side, for a call made on an open
      session: the answer, and the cookie store of the session once the
      call is over (the transport stores the cookies the responses set and
      drops those that have expired).  Both may depend on the session object
      and on the calls made so far.
    - [json_loads]: [json.loads] of a text, and of the bytes of a body.
    - [random_ids]: the device, session and traffic identifiers drawn for the
      n-th session object.
    - [text_of]: [str()] of a number, a list or a dict. *)
Record World : Type := mkWorld {
  path_exists : string -> bool;
  cookie_file : string -> exn + list Cookie;
  open_rb : string -> exn + (exn + string);
  network : AsyncSession -> list Request -> Request -> outcome * CookieJar;
  json_loads : string -> exn + json;
  random_ids : nat -> string * string * string;
  text_of : json -> string
}.

(** The fields of a [KimiAIEngine] object; [session] is a reference into the
    store of session objects. *)
Record KimiAIEngine : Type := mkKimiAIEngine {
  base_url : string;
  cookies_path : string;
  _impersonate : string;
  _timeout : Z;
  _proxies : gmap string string;
  session : option nat;
  _is_initialized : bool
}.

Definition with_session (o : option nat) (e : KimiAIEngine) : KimiAIEngine :=
  mkKimiAIEngine (base_url e) (cookies_path e) (_impersonate e) (_timeout e)
                 (_proxies e) o (_is_initialized e).

Definition with_initialized (b : bool) (e : KimiAIEngine) : KimiAIEngine :=
  mkKimiAIEngine (base_url e) (cookies_path e) (_impersonate e) (_timeout e)
                 (_proxies e) (session e) b.

(** The engine object, the session objects ever created (a session object is
    named by its position), and the calls made on session objects, oldest
    first. *)
Record State : Type := mkState {
  engine : KimiAIEngine;
  heap : list AsyncSession;
  trace : list Request
}.

Definition blank_session : AsyncSession :=
  mkAsyncSession "" 0 ∅ ∅ [] true.

Definition session_at (st : State) (sid : nat) : AsyncSession :=
  default blank_session (heap st !! sid).

(** A computation: it reads and writes the state and returns or raises. *)
Definition M (A : Type) : Type := State -> result A * State.

#[global] Instance M_ret : MRet M := λ A a st, (Ok a, st).

#[global] Instance M_bind : MBind M := λ A B f m st,
  match m st with
  | (Ok a, st') => f a st'
  | (Raise e, st') => (Raise e, st')
  end.

Definition raise {A : Type} (e : exn) : M A := λ st, (Raise e, st).

(** [try: body except Exception as e: handler e] *)
Definition try_except {A : Type} (body : M A) (handler : exn -> M A) : M A :=
  λ st,
    match body st with
    | (Ok a, st') => (Ok a, st')
    | (Raise e, st') => handler e st'
    end.

Definition of_result {A : Type} (r : result A) : M A := λ st, (r, st).

Definition of_sum {A : Type} (r : exn + A) : M A :=
  match r with
  | inl e => raise e
  | inr a => mret a
  end.

Definition get_engine : M KimiAIEngine := λ st, (Ok (engine st), st).

Definition set_engine (f : KimiAIEngine -> KimiAIEngine) : M unit :=
  λ st, (Ok tt, mkState (f (engine st)) (heap st) (trace st)).

(** The number of session objects created so far. *)
Definition session_count : M nat := λ st, (Ok (List.length (heap st)), st).

(** [AsyncSession(...)]: a new object in the store. *)
Definition new_session (s : AsyncSession) : M nat :=
  λ st, (Ok (List.length (heap st)), mkState (engine st) (heap st ++ [s]) (trace st)).

Definition read_session (sid : nat) : M AsyncSession :=
  λ st, (Ok (session_at st sid), st).

Definition update_session (sid : nat) (f : AsyncSession -> AsyncSession) : M unit :=
  λ st, (Ok tt, mkState (engine st) (alter f sid (heap st)) (trace st)).

(** An attribute or method of an object reference that may be [None]. *)
Definition deref (o : option nat) (attr : string) : M nat :=
  match o with
  | Some sid => mret sid
  | None => raise (Builtin "AttributeError"
                     ("'NoneType' object has no attribute '" +:+ attr +:+ "'"))
  end.

(** [SessionClosed], a [RequestsError] without a response: what a closed
    session raises when a request is made on it.  The message is
    indicative. *)
Definition session_closed : exn :=
  RequestsError "Session is closed, cannot send request." None.

Section Transport.
Context (W : World).

(** What a call on the session object [s] gives, [tr] being the calls made
    before it: a closed session refuses the call before anything leaves,
    an open one hands it to the network. *)
Definition send (s : AsyncSession) (tr : list Request) (rq : Request) : outcome :=
  if closed s then Failed session_closed else (network W s tr rq).1.

(** The cookie store of [s] once the call is over. *)
Definition stored (s : AsyncSession) (tr : list Request) (rq : Request)
  : CookieJar :=
  if closed s then cookies s else (network W s tr rq).2.

(** The state once the call [rq] is over: the call is on record, and the
    session object it was made on has the cookie store the call left. *)
Definition sent (st : State) (rq : Request) : State :=
  mkState (engine st)
          (alter (with_cookies (stored (session_at st (via rq)) (trace st) rq))
                 (via rq) (heap st))
          (trace st ++ [rq]).

(** [await session.request(...)], [session.post(...)], [session.put(...)].
    With [stream=True] the body of the response has not been read. *)
Definition session_request (rq : Request) : M Response :=
  λ st,
    match send (session_at st (via rq)) (trace st) rq with
    | Replied r => (Ok (if stream rq then unread r else r), sent st rq)
    | Failed e => (Raise e, sent st rq)
    end.

(** [response.raise_for_status()]: the error carries the response, which
    the handlers of the program read back as [e.response]. *)
Definition raise_for_status (r : Response) : M unit :=
  if status_ok r then mret tt
  else raise (RequestsError
                ("HTTP Error " +:+ Py.str_of_Z (status_code r) +:+ ": "
                 +:+ reason r) (Some r)).

(** [response.json()] *)
Definition response_json (r : Response) : M json :=
  of_sum (json_loads W (text r)).
End Transport.

End Runtime.

(* ===================================================================== *)
(** * kimiai/chat.py *)
(* ===================================================================== *)

Module Chat.
Import Json Http Exceptions Models Runtime.

(** [KimiChat.__init__]: the conversation id as the backend gave it, a
    reference to the engine's session object, the base URL. *)
Record KimiChat : Type := mkKimiChat {
  chat_id : json;
  _session : option nat;
  _base_url : string
}.

(** How the line iterator ends: it is exhausted, or it raises. *)
Inductive stream_end : Type :=
| EndOfStream
| Interrupted (x : exn).

(** The end of the iterator of the response [r].  The error the transport
    raises in the middle of a stream carries the response it interrupts. *)
Definition stream_end_of (r : Response) : stream_end :=
  match ending r with
  | Complete => EndOfStream
  | TransportDrop m => Interrupted (RequestsError m (Some r))
  | IterationFailure c m => Interrupted (Builtin c m)
  end.

(** What one iteration of the loop over the lines does. *)
Inductive step : Type :=
| Skip
| Yield (ev : StreamEvent)
| Throw (e : exn).

Definition step_of (r : result StreamEvent) : step :=
  match r with
  | Ok ev => Yield ev
  | Raise e => Throw e
  end.

Section Decoder.
Context (W : World).

(** The [try] block of the loop body, for the decoded payload [data]. *)
Definition dispatch (data : json) : step :=
  match Value.get data "event" JNull with
  | Raise e => Throw e
  | Ok event_type =>
      if eq_str event_type "cmpl" then
        match Value.get data "text" (JStr "") with
        | Ok t => Yield (CompletionChunk "cmpl" t)
        | Raise e => Throw e
        end
      else if eq_str event_type "search_info" then
        match Value.get data "hallucination" (JObj []) with
        | Ok h =>
            match Value.get data "search_type" (JStr "") with
            | Ok t => Yield (SearchInfo "search_info" h t)
            | Raise e => Throw e
            end
        | Raise e => Throw e
        end
      else if eq_str event_type "status" then Yield (StatusUpdate "status")
      else Skip
  end.

(** The body of [async for line_bytes in response.aiter_lines()]. *)
Definition decode_line (line_bytes : string) : step :=
  match Py.decode_utf8 line_bytes with
  | None =>
      Throw (Builtin "UnicodeDecodeError" "'utf-8' codec can't decode bytes")
  | Some decoded =>
      let line := Py.strip decoded in
      if negb (Py.startswith line "data:") then Skip
      else
        let data_str := Py.strip (Py.slice_from 5 line) in
        if String.eqb data_str "" then Skip
        else
          match json_loads W data_str with
          | inl e => if is_JSONDecodeError e then Skip else Throw e
          | inr data => dispatch data
          end
  end.

(** The exception the line iterator itself ends with, if any. *)
Definition end_exn (e : stream_end) : option exn :=
  match e with
  | EndOfStream => None
  | Interrupted x => Some x
  end.

(** The loop: the events yielded, in the order they are yielded, and the
    exception that ends the loop, if one does. *)
Fixpoint decode_lines (ls : list string) (e : stream_end)
  : list StreamEvent * option exn :=
  match ls with
  | [] => ([], end_exn e)
  | l :: rest =>
      match decode_line l with
      | Skip => decode_lines rest e
      | Yield ev =>
          let (evs, x) := decode_lines rest e in (ev :: evs, x)
      | Throw x => ([], Some x)
      end
  end.

(** The two handlers around the whole body. *)
Definition translate (e : exn) : exn :=
  match e with
  | RequestsError _ response =>
      let status := match response with Some r => status_code r | None => 0%Z end in
      let text := match response with Some r => text r | None => "No response" end in
      APIError_init ("Stream API request failed: " +:+ str e) status text (Some e)
  | _ => KimiException ("Stream processing failed: " +:+ str e) (Some e)
  end.

Definition stream_payload (prompt : string) (history : list KimiMessage)
    (use_search : bool) (file_ids : list string) : json :=
  JObj [ ("messages", JArr [JObj [("role", JStr "user"); ("content", JStr prompt)]]);
         ("history", JArr (map vars history));
         ("kimiplus_id", JStr "kimi");
         ("model", JStr "k2");
         ("use_search", JBool use_search);
         ("refs", JArr (map JStr file_ids));
         ("extend", JObj [("sidebar", JBool true)]);
         ("scene_labels", JArr []);
         ("use_deep_research", JBool false);
         ("use_semantic_memory", JBool false) ].

Definition stream_url (c : KimiChat) : string :=
  _base_url c +:+ "/chat/" +:+ Value.format (text_of W) (chat_id c)
    +:+ "/completion/stream".

(** [KimiChat.send_message_stream].  A missing [history] or [file_ids]
    ([None]) and an empty list give the same payload, so both are lists
    here.  The result is what the consumer of the generator sees: the
    events in order, then normal exhaustion or an exception. *)
Definition send_message_stream (c : KimiChat) (prompt : string)
    (history : list KimiMessage) (use_search : bool) (file_ids : list string)
  : State -> (list StreamEvent * option exn) * State :=
  λ st,
    let opened : M Response :=
      sid ← deref (_session c) "post";
      response ← session_request W
        (mkRequest "POST" (stream_url c)
           (JsonBody (stream_payload prompt history use_search file_ids))
           true sid);
      raise_for_status response;;
      mret response in
    match opened st with
    | (Raise e, st') => (([], Some (translate e)), st')
    | (Ok response, st') =>
        let (evs, x) := decode_lines (lines response) (stream_end_of response) in
        ((evs, translate <$> x), st')
    end.
End Decoder.

End Chat.

(* ===================================================================== *)
(** * kimiai/engine.py *)
(* ===================================================================== *)

Module Engine.
Import Json Http Exceptions Models Runtime Chat.
Import Cookiejar (Cookie, CookieJar).

(** [KimiAIEngine.__init__] *)
Definition init (cookies_path impersonate : string) (timeout : Z)
    (proxies : gmap string string) : KimiAIEngine :=
  mkKimiAIEngine "https://www.kimi.com/api" cookies_path impersonate timeout
                 proxies None false.

Definition default_headers (device_id session_id traffic_id : string)
  : gmap string string :=
  list_to_map
    [ ("Accept", "application/json, text/plain, */*");
      ("Accept-Language", "ru-RU,ru;q=0.9,en-US;q=0.8");
      ("Content-Type", "application/json");
      ("Origin", "https://www.kimi.com");
      ("Referer", "https://www.kimi.com/");
      ("User-Agent", "Mozilla/5.0 (Windows NT 10.0; Win64; x64) AppleWebKit/537.36 (KHTML, like Gecko) Chrome/124.0.0.0 Safari/537.36");
      ("X-Language", "en-US");
      ("X-Msh-Platform", "web");
      ("x-msh-device-id", device_id);
      ("x-msh-session-id", session_id);
      ("x-traffic-id", traffic_id) ].

(** [not auth_token]: [None] and the empty string are falsy. *)
Definition falsy (v : option string) : bool :=
  match v with
  | None => true
  | Some s => String.eqb s ""
  end.

Definition image_extensions : list string := ["png"; "jpg"; "jpeg"; "webp"; "gif"].

(** [file_name.split('.')[-1].lower()] *)
Definition file_ext_of (file_name : string) : string :=
  Py.lower (List.last (Py.split "." file_name) "").

(** ['image' if file_ext in [...] else 'file'] *)
Definition file_type_of (file_name : string) : string :=
  if existsb (String.eqb (file_ext_of file_name)) image_extensions
  then "image" else "file".

Definition chat_payload (name : string) : json :=
  JObj [ ("name", JStr name); ("born_from", JStr "home");
         ("kimiplus_id", JStr "kimi"); ("is_example", JBool false);
         ("source", JStr "web"); ("tags", JArr []) ].

Section Methods.
Context (W : World).

(** [KimiAIEngine._load_cookies] *)
Definition _load_cookies : M unit :=
  self ← get_engine;
  if negb (path_exists W (cookies_path self)) then
    raise (AuthenticationError
             ("Cookie file not found at: " +:+ cookies_path self) None)
  else
    try_except
      (entries ← of_sum (cookie_file W (cookies_path self));
       let cookie_jar := Cookiejar.load entries in
       sid ← deref (session self) "cookies";
       update_session sid (λ s, with_cookies (Cookies.update (cookies s) cookie_jar) s);;
       s ← read_session sid;
       auth_token ← of_result (Cookies.get (cookies s) "kimi-auth");
       if falsy auth_token then
         raise (AuthenticationError
                  "Authentication token 'kimi-auth' not found in cookies file."
                  None)
       else
         update_session sid
           (λ s, with_headers
                   (<["Authorization" := "Bearer " +:+ default "" auth_token]>
                      (headers s)) s))
      (λ e, raise (AuthenticationError
                     ("Failed to load or process cookies: " +:+ str e)
                     (Some e))).

(** [KimiAIEngine._initialize_session] *)
Definition _initialize_session : M unit :=
  self ← get_engine;
  if _is_initialized self then mret tt
  else
    n ← session_count;
    let '(device_id, session_id, traffic_id) := random_ids W n in
    sid ← new_session
            (mkAsyncSession (_impersonate self) (_timeout self) (_proxies self)
               (default_headers device_id session_id traffic_id)
               Cookiejar.empty false);
    set_engine (with_session (Some sid));;
    _load_cookies;;
    set_engine (with_initialized true).

(** [KimiAIEngine._make_request] *)
Definition _make_request (method url : string) (kwargs : body) : M Response :=
  self ← get_engine;
  (if session self is None then _initialize_session else mret tt);;
  try_except
    (self ← get_engine;
     sid ← deref (session self) "request";
     response ← session_request W (mkRequest method url kwargs false sid);
     raise_for_status response;;
     mret response)
    (λ e,
       match e with
       | RequestsError _ response =>
           let status_code :=
             match response with Some r => status_code r | None => 0%Z end in
           let response_text :=
             match response with Some r => text r | None => "No response" end in
           raise (APIError_init ("API request failed: " +:+ str e)
                    status_code response_text (Some e))
       | _ =>
           raise (KimiException ("An unexpected error occurred: " +:+ str e)
                    (Some e))
       end).

(** [KimiAIEngine.create_chat] *)
Definition create_chat (name : string) : M KimiChat :=
  self ← get_engine;
  response ← _make_request "POST" (base_url self +:+ "/chat")
               (JsonBody (chat_payload name));
  data ← response_json W response;
  chat_id ← of_result (Value.get data "id" JNull);
  self ← get_engine;
  mret (mkKimiChat chat_id (session self) (base_url self)).

(** [self.session.put(target, data=data)].  The transport takes the URL
    for a [str] and fails on anything else before the call becomes a
    request, with a built-in exception, unless the session is closed. *)
Definition session_put (sid : nat) (target : json) (data : string) : M Response :=
  match target with
  | JStr u => session_request W (mkRequest "PUT" u (DataBody data) false sid)
  | _ =>
      s ← read_session sid;
      if closed s then raise session_closed
      else raise (Builtin "AttributeError"
                    ("'" +:+ Value.type_name target
                     +:+ "' object has no attribute 'encode'"))
  end.

(** The [try] block of [upload_file]. *)
Definition upload_steps (file_path file_name file_type : string)
  : M UploadedFile :=
  self ← get_engine;
  (* 1. Get pre-signed URL *)
  r1 ← _make_request "POST" (base_url self +:+ "/pre-sign-url")
         (JsonBody (JObj [("name", JStr file_name); ("action", JStr file_type)]));
  pre_sign_data ← response_json W r1;
  (* 2. Upload file content *)
  f ← of_sum (open_rb W file_path);
  self ← get_engine;
  sid ← deref (session self) "put";
  target ← of_result (Value.getitem pre_sign_data "url");
  data ← of_sum f;
  upload_response ← session_put sid target data;
  raise_for_status upload_response;;
  (* 3. Register file with Kimi API *)
  object_name ← of_result (Value.getitem pre_sign_data "object_name");
  file_id ← of_result (Value.get pre_sign_data "file_id" (JStr ""));
  self ← get_engine;
  r3 ← _make_request "POST" (base_url self +:+ "/file")
         (JsonBody (JObj [ ("name", JStr file_name);
                           ("object_name", object_name);
                           ("type", JStr file_type);
                           ("file_id", file_id) ]));
  file_data ← response_json W r3;
  logged_id ← of_result (Value.getitem file_data "id");
  (* 4. Wait for processing (if it's a document) *)
  (if String.eqb file_type "file" then
     self ← get_engine;
     sid ← deref (session self) "post";
     ids ← of_result (Value.getitem file_data "id");
     parse_resp ← session_request W
                    (mkRequest "POST" (base_url self +:+ "/file/parse_process")
                       (JsonBody (JObj [("ids", JArr [ids])])) false sid);
     raise_for_status parse_resp
   else mret tt);;
  id ← of_result (Value.getitem file_data "id");
  name ← of_result (Value.getitem file_data "name");
  object_name ← of_result (Value.getitem file_data "object_name");
  file_type ← of_result (Value.getitem file_data "type");
  meta ← of_result (Value.get file_data "meta" (JObj []));
  mret (mkUploadedFile id name object_name file_type meta).

(** [KimiAIEngine.upload_file] *)
Definition upload_file (file_path : string) : M UploadedFile :=
  if negb (path_exists W file_path) then
    raise (Builtin "FileNotFoundError" ("File not found at path: " +:+ file_path))
  else
    let file_name := Py.basename file_path in
    let file_type := file_type_of file_name in
    try_except
      (upload_steps file_path file_name file_type)
      (λ e, raise (FileUploadError
                     ("Failed to upload file '" +:+ file_path +:+ "': " +:+ str e)
                     (Some e))).

(** [KimiAIEngine.close] *)
Definition close : M unit :=
  self ← get_engine;
  match session self with
  | Some sid =>
      update_session sid (with_closed true);;
      set_engine (with_session None);;
      set_engine (with_initialized false)
  | None => mret tt
  end.

(** [KimiAIEngine.__aenter__] and [__aexit__] *)
Definition __aenter__ : M unit := _initialize_session.
Definition __aexit__ : M unit := close.
End Methods.

End Engine.

(* ===================================================================== *)
(** * The terms of the statements, and a concrete environment *)
(* ===================================================================== *)

Module Spec.
Import Json Http Exceptions Models Runtime Chat Engine.

(** The events one line contributes, and whether the loop dies on it. *)
Definition line_events (W : World) (l : string) : list StreamEvent :=
  match decode_line W l with
  | Yield ev => [ev]
  | Skip | Throw _ => []
  end.

Definition line_aborts (W : World) (l : string) : bool :=
  match decode_line W l with
  | Throw _ => true
  | Skip | Yield _ => false
  end.

(** The lines the loop gets through: those before the first one it dies on. *)
Fixpoint consumed (W : World) (ls : list string) : list string :=
  match ls with
  | [] => []
  | l :: rest => if line_aborts W l then [] else l :: consumed W rest
  end.



(** The request [send_message_stream] makes. *)
Definition stream_request (W : World) (c : KimiChat) (prompt : string)
    (history : list KimiMessage) (use_search : bool) (file_ids : list string)
    (sid : nat) : Request :=
  mkRequest "POST" (stream_url W c)
    (JsonBody (stream_payload prompt history use_search file_ids)) true sid.

(** The request [_make_request] makes on session object [sid]. *)
Definition plain_request (method url : string) (kwargs : body) (sid : nat)
  : Request :=
  mkRequest method url kwargs false sid.

(** The lazy initialization [_make_request] starts with. *)
Definition prepared (W : World) : M unit :=
  λ st, (if session (engine st) is None then _initialize_session W else mret tt) st.

(** What [raise_for_status] raises for the response [r]. *)
Definition http_error (r : Response) : exn :=
  RequestsError ("HTTP Error " +:+ Py.str_of_Z (status_code r) +:+ ": " +:+ reason r)
                (Some r).

(** What the two handlers of [_make_request] make of an exception. *)
Definition request_error (e : exn) : exn :=
  match e with
  | RequestsError _ response =>
      APIError_init ("API request failed: " +:+ str e)
        (match response with Some r => status_code r | None => 0%Z end)
        (match response with Some r => text r | None => "No response" end)
        (Some e)
  | _ => KimiException ("An unexpected error occurred: " +:+ str e) (Some e)
  end.

(** What the handler of [upload_file] makes of an exception. *)
Definition upload_error (file_path : string) (e : exn) : exn :=
  FileUploadError ("Failed to upload file '" +:+ file_path +:+ "': " +:+ str e)
                  (Some e).

(** The cookie store of a new session once the cookie file whose lines hold
    [entries] has been loaded into it. *)
Definition loaded (entries : list Cookiejar.Cookie) : Cookiejar.CookieJar :=
  Cookies.update Cookiejar.empty (Cookiejar.load entries).

(** The cookie [c] is stored in [jar] under the name [k]; every cookie of
    [jar] is stored under its own name. *)
Definition stored_as (jar : Cookiejar.CookieJar) (k : string)
    (c : Cookiejar.Cookie) : Prop :=
  ∃ d by_path p by_name,
    (d, by_path) ∈ jar ∧ (p, by_name) ∈ by_path ∧ (k, c) ∈ by_name.

Definition filed_by_name (jar : Cookiejar.CookieJar) : Prop :=
  ∀ k c, stored_as jar k c → Cookiejar.name c = k.

(** What [_load_cookies] raises when the cookies hold no token. *)
Definition token_missing : exn :=
  AuthenticationError
    "Failed to load or process cookies: Authentication token 'kimi-auth' not found in cookies file."
    (Some (AuthenticationError
             "Authentication token 'kimi-auth' not found in cookies file." None)).

(** A call is a file registration: [POST {base}/file]. *)
Definition is_registration (base : string) (rq : Request) : Prop :=
  method rq = "POST" ∧ url rq = base +:+ "/file".

End Spec.

Module Demo.
Import Json Http Exceptions Models Runtime Chat Engine.
Import Cookiejar (Cookie, mkCookie).

(** The cookies of a cookie file, line by line. *)
Definition jar : list Cookie :=
  [ mkCookie "kimi-auth" (Some "tok123") ".kimi.com" "/";
    mkCookie "lang" (Some "en") ".kimi.com" "/" ].

Definition jar_without_token : list Cookie :=
  [ mkCookie "lang" (Some "en") ".kimi.com" "/" ].

(** A cookie file that holds [kimi-auth] for two sites. *)
Definition jar_of_two_sites : list Cookie :=
  [ mkCookie "kimi-auth" (Some "tok123") ".kimi.com" "/";
    mkCookie "kimi-auth" (Some "old456") ".moonshot.cn" "/" ].

Definition ok_response (body : string) (ls : list string) : Response :=
  mkResponse 200 "OK" body ls Complete.

(** A remote side: it answers by method and URL; the raw upload gets status
    [put_status], the completion stream carries [stream_lines], and chat
    creation answers [chat_body]. *)
Definition backend (put_status : Z) (chat_body : string)
    (stream_lines : list string) (rq : Request) : outcome :=
  if String.eqb (method rq) "PUT" then
    Replied (mkResponse put_status "" "denied" [] Complete)
  else if String.eqb (url rq) "https://www.kimi.com/api/chat" then
    Replied (ok_response chat_body [])
  else if String.eqb (url rq) "https://www.kimi.com/api/pre-sign-url" then
    Replied (ok_response
      (Py.dq "{'url':'https://store.example/put','object_name':'obj/1','file_id':'f0'}") [])
  else if String.eqb (url rq) "https://www.kimi.com/api/file" then
    Replied (ok_response
      (Py.dq "{'id':'f1','name':'photo.JPG','object_name':'obj/1','type':'image'}") [])
  else if String.eqb (url rq) "https://www.kimi.com/api/file/parse_process" then
    Replied (ok_response (Py.dq "{'status':'parsed'}") [])
  else Replied (ok_response "" stream_lines).

Definition loads (s : string) : exn + json :=
  match Json.loads s with
  | Some v => inr v
  | None => inl (Builtin "JSONDecodeError" "Expecting value")
  end.

(** An environment with the files [files], a cookie file [cookies.txt]
    holding [entries], and the remote side [remote], which sets no cookie. *)
Definition world (files : list string) (entries : exn + list Cookie)
    (remote : Request -> outcome) : World :=
  mkWorld (λ p, existsb (String.eqb p) files)
          (λ _, entries)
          (λ _, inr (inr "bytes of the file"))
          (λ s _ rq, (remote rq, cookies s))
          loads
          (λ n, ("1000000000000000000", "1000000000000000001",
                 "abcdefghij0123456789"))
          (λ _, "").

Definition files : list string :=
  ["cookies.txt"; "/tmp/photo.JPG"; "/tmp/report.pdf"].

Definition three_lines : list string :=
  [ Py.dq "data:{'event':'cmpl','text':'A'}";
    Py.dq "data:{'event':'cmpl','text':'B'}";
    Py.dq "data:{'event':'status'}" ].

Definition happy : World :=
  world files (inr jar) (backend 200 (Py.dq "{'id':'abc123'}") three_lines).

Definition interrupted_lines : list string :=
  [ Py.dq "data:{'event':'cmpl','text':'A'}";
    "data:null";
    Py.dq "data:{'event':'cmpl','text':'B'}" ].

(** The same remote side, streaming a payload that is valid JSON but not an
    object between two text chunks. *)
Definition interrupted : World :=
  world files (inr jar) (backend 200 (Py.dq "{'id':'abc123'}") interrupted_lines).

(** The cookie file holds no [kimi-auth] cookie; there is no cookie file. *)
Definition no_token : World :=
  world files (inr jar_without_token)
        (backend 200 (Py.dq "{'id':'abc123'}") three_lines).

Definition no_cookie_file : World :=
  world ["/tmp/photo.JPG"] (inr jar)
        (backend 200 (Py.dq "{'id':'abc123'}") three_lines).

(** The storage answers the raw upload with 401. *)
Definition rejecting : World :=
  world files (inr jar) (backend 401 (Py.dq "{'id':'abc123'}") three_lines).

(** The storage answers the raw upload with 300. *)
Definition undecided : World :=
  world files (inr jar) (backend 300 (Py.dq "{'id':'abc123'}") three_lines).

(** The cookie file holds [kimi-auth] for two sites. *)
Definition two_sites : World :=
  world files (inr jar_of_two_sites)
        (backend 200 (Py.dq "{'id':'abc123'}") three_lines).

Definition denied : Response := mkResponse 401 "" "denied" [] Complete.

(** Every call is answered 401. *)
Definition refused : Response :=
  mkResponse 401 "Unauthorized" (Py.dq "{'error':'invalid token'}") [] Complete.

Definition unauthorized : World :=
  world files (inr jar) (λ _, Replied refused).

(** The transport fails before any response arrives. *)
Definition unreachable : World :=
  world files (inr jar) (λ _, Failed (RequestsError "Connection refused" None)).

(** The remote side of [happy], except that the call to [u] is answered
    500. *)
Definition broken : Response :=
  mkResponse 500 "Internal Server Error" "oops" [] Complete.

Definition failing_at (u : string) : World :=
  world files (inr jar)
        (λ rq, if String.eqb (url rq) u then Replied broken
               else backend 200 (Py.dq "{'id':'abc123'}") three_lines rq).

(** Chat creation answers an object without [id]. *)
Definition no_id : World :=
  world files (inr jar) (backend 200 (Py.dq "{'name':'x'}") three_lines).

(** A freshly constructed engine, nothing created, nothing sent. *)
Definition fresh : State :=
  mkState (Engine.init "cookies.txt" "chrome110" 45 ∅) [] [].


(** The engine once [__aenter__] has run, and a chat created on it. *)
Definition started : State := (_initialize_session happy fresh).2.

Definition chat : KimiChat :=
  mkKimiChat (JStr "abc123") (Some 0%nat) "https://www.kimi.com/api".

End Demo.

(* ===================================================================== *)
(** * Further terms: what an operation may raise, send and change *)
(* ===================================================================== *)

Module Laws.
Import Json Http Exceptions Models Runtime Chat Engine Spec.



(** The computation makes at most [n] calls on session objects, and takes
    none back. *)
Definition calls_at_most {A : Type} (n : nat) (m : M A) : Prop :=
  ∀ st, ∃ extra, trace (m st).2 = trace st ++ extra ∧ List.length extra ≤ n.

(** Every run of the computation takes the state to one related to it. *)
Definition respects {A : Type} (R : State -> State -> Prop) (m : M A) : Prop :=
  ∀ st, R st (m st).2.

(** From [st] to [st'] no session object is created or lost, and none has
    changed but, at most, the session object [sid0] in its cookie store. *)
Definition only_cookies_of (sid0 : nat) (st st' : State) : Prop :=
  List.length (heap st') = List.length (heap st)
  ∧ ∀ sid s, heap st !! sid = Some s →
      ∃ jar, heap st' !! sid = Some (with_cookies jar s)
             ∧ (sid ≠ sid0 → jar = cookies s).

(** From [st] to [st'], if the engine of [st] holds the session object
    [sid0], the engine object has not changed and the session objects are
    as they were but for the cookie store of [sid0]. *)
Definition unchanged_for (sid0 : nat) (st st' : State) : Prop :=
  session (engine st) = Some sid0 →
  engine st' = engine st ∧ only_cookies_of sid0 st st'.

(** The same for whichever session object the engine holds. *)
Definition unchanged (st st' : State) : Prop :=
  ∀ sid0, unchanged_for sid0 st st'.

(** From [st] to [st'] no session object is lost and none that was closed
    is open again. *)
Definition keeps_closed (st st' : State) : Prop :=
  ∀ sid s, heap st !! sid = Some s →
           ∃ s', heap st' !! sid = Some s' ∧ (closed s = true → closed s' = true).

(** The session object [_initialize_session] builds for the engine [self]
    when it is the [n]-th one, before the cookies are loaded. *)
Definition built_session (W : World) (self : KimiAIEngine) (n : nat) : AsyncSession :=
  let '(device_id, session_id, traffic_id) := random_ids W n in
  mkAsyncSession (_impersonate self) (_timeout self) (_proxies self)
                 (default_headers device_id session_id traffic_id)
                 Cookiejar.empty false.

(** The three calls of an upload that come before the parse trigger, and
    the parse trigger. *)
Definition presign_request (base file_name : string) (sid : nat) : Request :=
  plain_request "POST" (base +:+ "/pre-sign-url")
    (JsonBody (JObj [("name", JStr file_name);
                     ("action", JStr (file_type_of file_name))])) sid.

Definition put_request (u content : string) (sid : nat) : Request :=
  plain_request "PUT" u (DataBody content) sid.

Definition register_request (base file_name : string) (object_name file_id : json)
    (sid : nat) : Request :=
  plain_request "POST" (base +:+ "/file")
    (JsonBody (JObj [ ("name", JStr file_name);
                      ("object_name", object_name);
                      ("type", JStr (file_type_of file_name));
                      ("file_id", file_id) ])) sid.

Definition parse_request (base : string) (file_id : json) (sid : nat) : Request :=
  plain_request "POST" (base +:+ "/file/parse_process")
    (JsonBody (JObj [("ids", JArr [file_id])])) sid.

(** What [upload_file] still does once the registration has answered
    [file_data]: the rest of its [try] block. *)
Definition after_registration (W : World) (file_type : string)
    (file_data : json) : M UploadedFile :=
  logged_id ← of_result (Value.getitem file_data "id");
  (if String.eqb file_type "file" then
     self ← get_engine;
     sid ← deref (session self) "post";
     ids ← of_result (Value.getitem file_data "id");
     parse_resp ← session_request W
                    (mkRequest "POST" (base_url self +:+ "/file/parse_process")
                       (JsonBody (JObj [("ids", JArr [ids])])) false sid);
     raise_for_status parse_resp
   else mret tt);;
  id ← of_result (Value.getitem file_data "id");
  name ← of_result (Value.getitem file_data "name");
  object_name ← of_result (Value.getitem file_data "object_name");
  file_type ← of_result (Value.getitem file_data "type");
  meta ← of_result (Value.get file_data "meta" (JObj []));
  mret (mkUploadedFile id name object_name file_type meta).

End Laws.

Module Cases.
Import Json Http Exceptions Models Runtime Chat Engine Spec.

(** The remote side of [Demo.happy], except that the call to [u] is answered
    with [r]. *)
Definition answering (u : string) (r : Response) : World :=
  Demo.world Demo.files (inr Demo.jar)
    (λ rq, if String.eqb (url rq) u then Replied r
           else Demo.backend 200 (Py.dq "{'id':'abc123'}") Demo.three_lines rq).

(** The cookie file holds an empty [kimi-auth] cookie; the cookie file
    cannot be read as a cookie jar. *)
Definition empty_token : World :=
  Demo.world Demo.files
    (inr [Cookiejar.mkCookie "kimi-auth" (Some "") ".kimi.com" "/"])
    (Demo.backend 200 (Py.dq "{'id':'abc123'}") Demo.three_lines).

Definition not_a_jar : exn :=
  Builtin "LoadError" "'cookies.txt' does not look like a Netscape format cookies file".

Definition unreadable_cookies : World :=
  Demo.world Demo.files (inl not_a_jar)
    (Demo.backend 200 (Py.dq "{'id':'abc123'}") Demo.three_lines).

(** The remote side of [Demo.happy], except that every response sets the
    cookie [visit]. *)
Definition tracking : World :=
  mkWorld (path_exists Demo.happy) (cookie_file Demo.happy) (open_rb Demo.happy)
          (λ s tr rq,
             ((network Demo.happy s tr rq).1,
              Cookiejar.set_cookie (cookies s)
                (Cookiejar.mkCookie "visit" (Some "1") "www.kimi.com" "/")))
          (json_loads Demo.happy) (random_ids Demo.happy) (text_of Demo.happy).

(** Every call is answered 304. *)
Definition not_modified : Response :=
  mkResponse 304 "Not Modified" "" [] Complete.

Definition unmoved : World :=
  Demo.world Demo.files (inr Demo.jar) (λ _, Replied not_modified).




End Cases.

(* ===================================================================== *)
(** * Proofs *)
(* ===================================================================== *)

Import Json Http Exceptions Models Runtime Chat Engine Spec.

(** Unfolds the monad, leaving the calls on the environment in place. *)
Ltac run :=
  unfold deref, of_sum, of_result, mbind, M_bind, mret, M_ret, raise,
    try_except, get_engine, set_engine, session_count, new_session,
    read_session, update_session;
  cbn [engine heap trace session _is_initialized cookies_path base_url
       with_session with_initialized fst snd].

(** ** The stream decoder *)

Section DecoderFacts.
Context (W : World).

Lemma decode_lines_events (ls : list string) (e : stream_end) :
  (decode_lines W ls e).1 = flat_map (line_events W) (consumed W ls).
Proof.
  induction ls as [|l rest IH]; [reflexivity|].
  cbn [decode_lines consumed]. unfold line_aborts.
  destruct (decode_line W l) as [|ev|x] eqn:Hl.
  - cbn [flat_map]. unfold line_events at 1. rewrite Hl. exact IH.
  - destruct (decode_lines W rest e) as [evs x] eqn:Hrest.
    cbn [flat_map]. unfold line_events at 1. rewrite Hl.
    cbn in IH |- *. by rewrite IH.
  - reflexivity.
Qed.

(** What a prefix of the lines yields is yielded first, whatever follows. *)
Lemma decode_lines_prefix (l1 l2 : list string) (e : stream_end) :
  ∃ later, (decode_lines W (l1 ++ l2) e).1
           = (decode_lines W l1 EndOfStream).1 ++ later.
Proof.
  induction l1 as [|l rest IH].
  - by eexists.
  - cbn [app decode_lines]. destruct (decode_line W l) as [|ev|x].
    + exact IH.
    + destruct IH as [later IH].
      destruct (decode_lines W (rest ++ l2) e) as [evs x].
      destruct (decode_lines W rest EndOfStream) as [evs' x'].
      cbn in IH |- *. exists later. by rewrite IH.
    + by exists [].
Qed.

(** A line that yields an event yields it every time it comes. *)
Lemma decode_lines_repeated (l : string) (ev : StreamEvent) (n : nat) :
  decode_line W l = Yield ev →
  decode_lines W (replicate n l) EndOfStream = (replicate n ev, None).
Proof.
  intros Hl. induction n as [|n IH]; [reflexivity|].
  cbn [replicate decode_lines]. by rewrite Hl, IH.
Qed.

(** The events of [send_message_stream] are those of the loop over the lines
    of the response, when there is a response that [raise_for_status] lets
    through, and none otherwise. *)
Lemma send_message_stream_events (c : KimiChat) (prompt : string)
    (history : list KimiMessage) (use_search : bool) (file_ids : list string)
    (st : State) :
  (send_message_stream W c prompt history use_search file_ids st).1.1 =
    match _session c with
    | Some sid =>
        match send W (session_at st sid) (trace st)
                (stream_request W c prompt history use_search file_ids sid) with
        | Replied r =>
            if status_ok r
            then (decode_lines W (lines r) (stream_end_of (unread r))).1
            else []
        | Failed _ => []
        end
    | None => []
    end.
Proof.
  unfold send_message_stream, stream_request, session_request, raise_for_status.
  destruct (_session c) as [sid|]; run; [|reflexivity]. cbn [via stream].
  destruct (send W _ _ _) as [r|x]; [|reflexivity].
  change (status_ok (unread r)) with (status_ok r).
  destruct (status_ok r); [|reflexivity].
  change (lines (unread r)) with (lines r).
  by destruct (decode_lines W (lines r) (stream_end_of (unread r))).
Qed.

(** A line the loop skips leaves no mark: the lines around it decode as if
    it were not there. *)
Lemma skipped_line_is_transparent (before after : list string) (l : string)
    (e : stream_end) :
  decode_line W l = Skip →
  decode_lines W (before ++ l :: after) e = decode_lines W (before ++ after) e.
Proof.
  intros Hl. induction before as [|b rest IH]; cbn [app decode_lines].
  - by rewrite Hl.
  - by rewrite IH.
Qed.

(** The lines the loop skips: no [data:] prefix, a blank payload, a payload
    [json.loads] rejects with [JSONDecodeError], a dict whose [event] is
    none of the three known ones. *)
Lemma decode_line_not_data (l decoded : string) :
  Py.decode_utf8 l = Some decoded →
  Py.startswith (Py.strip decoded) "data:" = false →
  decode_line W l = Skip.
Proof. intros Hd Hp. unfold decode_line. by rewrite Hd, Hp. Qed.

Lemma decode_line_blank (l decoded : string) :
  Py.decode_utf8 l = Some decoded →
  Py.strip (Py.slice_from 5 (Py.strip decoded)) = "" →
  decode_line W l = Skip.
Proof.
  intros Hd Hb. unfold decode_line. rewrite Hd, Hb.
  by destruct (negb _).
Qed.

Lemma decode_line_malformed (l decoded : string) (x : exn) :
  Py.decode_utf8 l = Some decoded →
  json_loads W (Py.strip (Py.slice_from 5 (Py.strip decoded))) = inl x →
  is_JSONDecodeError x = true →
  decode_line W l = Skip.
Proof.
  intros Hd Hj Hx. unfold decode_line. rewrite Hd, Hj, Hx.
  destruct (negb _); [done|]. by destruct (String.eqb _ _).
Qed.

Lemma decode_line_unknown_event (l decoded : string) (ms : list (string * json)) :
  Py.decode_utf8 l = Some decoded →
  json_loads W (Py.strip (Py.slice_from 5 (Py.strip decoded))) = inr (JObj ms) →
  (∀ k, k ∈ ["cmpl"; "search_info"; "status"] →
        lookup_member "event" ms ≠ Some (JStr k)) →
  decode_line W l = Skip.
Proof.
  intros Hd Hj Hk. unfold decode_line. rewrite Hd, Hj.
  destruct (negb _); [done|]. destruct (String.eqb _ _); [done|].
  unfold dispatch. cbn [Value.get].
  assert (∀ v k, k ∈ ["cmpl"; "search_info"; "status"] →
                 lookup_member "event" ms = Some v → eq_str v k = false) as Hne.
  { intros v k Hin Hv. destruct v; try reflexivity. cbn.
    destruct (String.eqb_spec s k) as [->|]; [|done]. by destruct (Hk k Hin). }
  destruct (lookup_member "event" ms) as [v|] eqn:Hv; [|reflexivity].
  rewrite !(Hne v) by (done || set_solver). reflexivity.
Qed.

(** A payload that [json.loads] accepts but that is not a dict has no [get]:
    the loop dies on the line, whatever the environment. *)
Lemma decode_line_not_a_dict (l decoded : string) (v : json) :
  Py.decode_utf8 l = Some decoded →
  Py.startswith (Py.strip decoded) "data:" = true →
  Py.strip (Py.slice_from 5 (Py.strip decoded)) ≠ "" →
  json_loads W (Py.strip (Py.slice_from 5 (Py.strip decoded))) = inr v →
  (∀ ms, v ≠ JObj ms) →
  ∃ x, decode_line W l = Throw x.
Proof.
  intros Hd Hp Hb Hj Hv. unfold decode_line. rewrite Hd, Hp, Hj. cbn [negb].
  destruct (String.eqb_spec (Py.strip (Py.slice_from 5 (Py.strip decoded))) "");
    [done|].
  unfold dispatch. destruct v; try (by eexists). by destruct (Hv members).
Qed.

End DecoderFacts.

(** C1.  The stream decoder emits events in exactly the order of the lines
    that produced them.  For every environment and every sequence of lines,
    the events the loop yields are the events of the lines it gets through,
    line by line and in line order: nothing is reordered, merged or dropped
    as a duplicate (a line repeated n times gives its event n times); the
    events of a prefix of the lines come first whatever follows (nothing is
    held back); [send_message_stream] yields exactly the events of that loop
    over the lines of the response.  On the three lines cmpl A, cmpl B,
    status the chat yields CompletionChunk A, CompletionChunk B, StatusUpdate
    and ends normally. *)
Theorem stream_decoding_preserves_order :
  (∀ W ls e,
     (decode_lines W ls e).1 = flat_map (line_events W) (consumed W ls))
  ∧ (∀ W l ev n,
       decode_line W l = Yield ev →
       decode_lines W (replicate n l) EndOfStream = (replicate n ev, None))
  ∧ (∀ W l1 l2 e, ∃ later,
       (decode_lines W (l1 ++ l2) e).1
       = (decode_lines W l1 EndOfStream).1 ++ later)
  ∧ (∀ W c prompt history use_search file_ids st,
       (send_message_stream W c prompt history use_search file_ids st).1.1 =
         match _session c with
         | Some sid =>
             match send W (session_at st sid) (trace st)
                     (stream_request W c prompt history use_search file_ids sid)
             with
             | Replied r =>
                 if status_ok r
                 then flat_map (line_events W) (consumed W (lines r))
                 else []
             | Failed _ => []
             end
         | None => []
         end)
  ∧ (send_message_stream Demo.happy Demo.chat "Hello" [] true [] Demo.started).1
    = ([ CompletionChunk "cmpl" (JStr "A");
         CompletionChunk "cmpl" (JStr "B");
         StatusUpdate "status" ], None).
Proof.
  split; [exact decode_lines_events|].
  split; [exact decode_lines_repeated|].
  split; [exact decode_lines_prefix|].
  split; [|by vm_compute].
  intros. rewrite send_message_stream_events.
  destruct (_session c); [|done]. destruct (send W _ _ _) as [r|]; [|done].
  destruct (status_ok r); [|done]. apply decode_lines_events.
Qed.

Lemma stream_decoding_preserves_order_witness :
  decode_lines Demo.happy
    (replicate 3 (Py.dq "data:{'event':'cmpl','text':'A'}")) EndOfStream
  = (replicate 3 (CompletionChunk "cmpl" (JStr "A")), None).
Proof.
  apply (proj1 (proj2 stream_decoding_preserves_order)). by vm_compute.
Defined.

(** C2.  A single bad line must never abort the stream.  It does when the
    payload of a [data:] line is valid JSON but not an object: between two
    text chunks the line [data:null] makes the loop raise [AttributeError],
    the stream ends with [KimiException] after the first chunk, and the
    second chunk is never yielded.  A line that is not valid UTF-8 (and so
    has no [data:] prefix) ends the stream in the same way, in every
    environment. *)
Theorem non_object_payload_aborts_the_stream :
  decode_line Demo.interrupted "data:null"
  = Throw (Builtin "AttributeError" "'NoneType' object has no attribute 'get'")
  ∧ (send_message_stream Demo.interrupted Demo.chat "Hello" [] true []
       Demo.started).1
    = ([ CompletionChunk "cmpl" (JStr "A") ],
       Some (KimiException
               "Stream processing failed: 'NoneType' object has no attribute 'get'"
               (Some (Builtin "AttributeError"
                        "'NoneType' object has no attribute 'get'"))))
  ∧ (∀ W after e,
       decode_lines W (Py.bytes_of [255; 254]%N :: after) e
       = ([], Some (Builtin "UnicodeDecodeError"
                      "'utf-8' codec can't decode bytes"))).
Proof. split; [by vm_compute|]. split; [by vm_compute|]. reflexivity. Qed.

(** ** Requests *)

Section Requests.
Context (W : World).

Lemma make_request_unprepared (method url : string) (kwargs : body)
    (st st0 : State) (e : exn) :
  prepared W st = (Raise e, st0) →
  _make_request W method url kwargs st = (Raise e, st0).
Proof.
  unfold prepared, _make_request. run. intros H.
  destruct (session (engine st)); [done|]. by rewrite H.
Qed.

Lemma make_request_spec (method url : string) (kwargs : body)
    (st st0 : State) (sid : nat) :
  prepared W st = (Ok tt, st0) →
  session (engine st0) = Some sid →
  _make_request W method url kwargs st =
    let rq := plain_request method url kwargs sid in
    match send W (session_at st0 sid) (trace st0) rq with
    | Replied r =>
        if status_ok r then (Ok r, sent W st0 rq)
        else (Raise (request_error (http_error r)), sent W st0 rq)
    | Failed e => (Raise (request_error e), sent W st0 rq)
    end.
Proof.
  unfold prepared, _make_request. intros H Hs. run.
  destruct (session (engine st)) as [sid0|] eqn:Hs0.
  - injection H as <-. run. rewrite Hs0 in Hs |- *. injection Hs as ->.
    unfold session_request, raise_for_status, plain_request, http_error.
    run. cbn [via stream]. destruct (send W _ _ _) as [r|e].
    + by destruct (status_ok r).
    + by destruct e.
  - rewrite H. run. rewrite Hs.
    unfold session_request, raise_for_status, plain_request, http_error.
    run. cbn [via stream]. destruct (send W _ _ _) as [r|e].
    + by destruct (status_ok r).
    + by destruct e.
Qed.

(** The statuses [raise_for_status] raises for. *)
Lemma status_ok_false (r : Response) :
  (status_code r < 200 ∨ 400 ≤ status_code r)%Z → status_ok r = false.
Proof.
  intros H. unfold status_ok. apply andb_false_iff.
  rewrite Z.leb_gt, Z.ltb_ge. lia.
Qed.

Lemma status_ok_true (r : Response) :
  (200 ≤ status_code r < 400)%Z → status_ok r = true.
Proof.
  intros H. unfold status_ok. apply andb_true_iff.
  rewrite Z.leb_le, Z.ltb_lt. lia.
Qed.

(** A closed session refuses every call, whatever the network would do. *)
Lemma send_on_closed (s : AsyncSession) (tr : list Request) (rq : Request) :
  closed s = true → send W s tr rq = Failed session_closed.
Proof. intros H. unfold send. by rewrite H. Qed.

Lemma send_replied_open (s : AsyncSession) (tr : list Request) (rq : Request)
    (r : Response) :
  send W s tr rq = Replied r → closed s = false.
Proof. unfold send. by destruct (closed s). Qed.

Lemma with_cookies_same (s : AsyncSession) : with_cookies (cookies s) s = s.
Proof. by destruct s. Qed.

(** A call changes nothing of a session object but, at most, its cookie
    store. *)
Lemma session_at_sent (st : State) (rq : Request) (sid : nat) :
  ∃ jar, session_at (sent W st rq) sid = with_cookies jar (session_at st sid).
Proof.
  unfold session_at, sent. cbn [heap].
  destruct (decide (sid = via rq)) as [->|Hne].
  - rewrite list_lookup_alter_eq. destruct (heap st !! via rq) as [s|]; cbn.
    + by eexists.
    + exists []. reflexivity.
  - rewrite list_lookup_alter_ne by done.
    exists (cookies (default blank_session (heap st !! sid))).
    by rewrite with_cookies_same.
Qed.

Lemma closed_sent (st : State) (rq : Request) (sid : nat) :
  closed (session_at (sent W st rq) sid) = closed (session_at st sid).
Proof. by destruct (session_at_sent st rq sid) as [jar ->]. Qed.

Lemma headers_sent (st : State) (rq : Request) (sid : nat) :
  headers (session_at (sent W st rq) sid) = headers (session_at st sid).
Proof. by destruct (session_at_sent st rq sid) as [jar ->]. Qed.

(** A chat whose session object is closed yields nothing: the stream ends at
    once with the transport's refusal, translated. *)
Lemma send_message_stream_closed (c : KimiChat) (sid : nat) (prompt : string)
    (history : list KimiMessage) (use_search : bool) (file_ids : list string)
    (st : State) :
  _session c = Some sid →
  closed (session_at st sid) = true →
  send_message_stream W c prompt history use_search file_ids st
  = (([], Some (translate session_closed)),
     sent W st (stream_request W c prompt history use_search file_ids sid)).
Proof.
  intros Hs Hc. unfold send_message_stream, stream_request, session_request.
  rewrite Hs. run. cbn [via]. by rewrite send_on_closed.
Qed.

End Requests.

(** ** Cookies and initialization *)

Section Jar.
Import Cookiejar.

Lemma elem_of_deepvalues (jar : CookieJar) (c : Cookie) :
  c ∈ deepvalues jar ↔ ∃ k, stored_as jar k c.
Proof.
  unfold deepvalues, stored_as. split.
  - intros H. apply list_elem_of_bind in H as ([d bp] & H & Hbp).
    apply list_elem_of_bind in H as ([p bn] & H & Hbn).
    apply list_elem_of_fmap in H as ([k c'] & -> & Hc). cbn in *.
    by exists k, d, bp, p, bn.
  - intros (k & d & bp & p & bn & Hbp & Hbn & Hc).
    apply list_elem_of_bind. exists (d, bp). split; [|done].
    apply list_elem_of_bind. exists (p, bn). split; [|done].
    apply list_elem_of_fmap. by exists (k, c).
Qed.

Lemma elem_of_upsert {A : Type} (k : string) (f : option A → A) (d : dict A)
    (k0 : string) (v : A) :
  (k0, v) ∈ upsert k f d →
  (k0, v) ∈ d
  ∨ (k0 = k ∧ (v = f None ∨ ∃ v0, v = f (Some v0) ∧ (k, v0) ∈ d)).
Proof.
  induction d as [|[k' v'] rest IH]; cbn.
  - intros [= -> ->]%list_elem_of_singleton. right. split; [done|by left].
  - destruct (String.eqb_spec k' k) as [->|Hne].
    + intros [[= -> ->]|Hin]%elem_of_cons.
      * right. split; [done|]. right. exists v'. split; [done|]. by left.
      * left. by right.
    + intros [[= -> ->]|Hin]%elem_of_cons; [left; by left|].
      destruct (IH Hin) as [H|(-> & [->|(v0 & -> & H)])].
      * left. by right.
      * right. split; [done|by left].
      * right. split; [done|]. right. exists v0. split; [done|by right].
Qed.

Lemma upsert_holds {A : Type} (k : string) (f : option A → A) (d : dict A) :
  ∃ o, (k, f o) ∈ upsert k f d.
Proof.
  induction d as [|[k' v'] rest [o IH]]; cbn.
  - exists None. by left.
  - destruct (String.eqb_spec k' k) as [->|Hne].
    + exists (Some v'). by left.
    + exists o. by right.
Qed.

Lemma upsert_keeps {A : Type} (k : string) (f : option A → A) (d : dict A)
    (k0 : string) (v : A) :
  (k0, v) ∈ d →
  (k0, v) ∈ upsert k f d ∨ (k0 = k ∧ (k, f (Some v)) ∈ upsert k f d).
Proof.
  induction d as [|[k' v'] rest IH]; cbn; [by intros ?%elem_of_nil|].
  destruct (String.eqb_spec k' k) as [->|Hne].
  - intros [[= -> ->]|Hin]%elem_of_cons.
    + right. split; [done|by left].
    + left. by right.
  - intros [[= -> ->]|Hin]%elem_of_cons; [left; by left|].
    destruct (IH Hin) as [H|[-> H]]; [left|right; split; [done|]]; by right.
Qed.

(** What [set_cookie] stores: the new cookie under its name, and what was
    stored before. *)
Lemma stored_as_set_cookie (jar : CookieJar) (c' : Cookie) (k : string)
    (c : Cookie) :
  stored_as (set_cookie jar c') k c →
  (k = name c' ∧ c = c') ∨ stored_as jar k c.
Proof.
  intros (d & bp & p & bn & Hbp & Hbn & Hc). unfold set_cookie in Hbp.
  apply elem_of_upsert in Hbp as [Hbp|(-> & Hbp)].
  { right. by exists d, bp, p, bn. }
  assert (∃ bp0, (bp0 = [] ∨ (domain c', bp0) ∈ jar)
                 ∧ (p, bn) ∈ upsert (path c')
                     (λ by_name, upsert (name c') (λ _, c') (default [] by_name))
                     bp0) as (bp0 & Hbp0 & Hbn').
  { destruct Hbp as [->|(bp0 & -> & Hin)].
    - exists []. split; [by left|done].
    - exists bp0. split; [by right|done]. }
  apply elem_of_upsert in Hbn' as [Hbn'|(-> & Hbn')].
  { destruct Hbp0 as [->|Hbp0]; [by apply elem_of_nil in Hbn'|].
    right. by exists (domain c'), bp0, p, bn. }
  assert (∃ bn0, (bn0 = [] ∨ ∃ bp1 p1, (domain c', bp1) ∈ jar ∧ (p1, bn0) ∈ bp1)
                 ∧ (k, c) ∈ upsert (name c') (λ _, c') bn0) as (bn0 & Hbn0 & Hc').
  { destruct Hbn' as [->|(bn0 & -> & Hin)].
    - exists []. split; [by left|done].
    - exists bn0. split; [|done]. right.
      destruct Hbp0 as [->|Hbp0]; [by apply elem_of_nil in Hin|].
      by exists bp0, (path c'). }
  apply elem_of_upsert in Hc' as [Hc'|(-> & Hc')].
  { destruct Hbn0 as [->|(bp1 & p1 & Hbp1 & Hbn1)]; [by apply elem_of_nil in Hc'|].
    right. by exists (domain c'), bp1, p1, bn0. }
  left. split; [done|]. by destruct Hc' as [->|(? & -> & _)].
Qed.

Lemma set_cookie_holds (jar : CookieJar) (c : Cookie) :
  stored_as (set_cookie jar c) (name c) c.
Proof.
  unfold set_cookie.
  destruct (upsert_holds (domain c)
              (λ by_path,
                 upsert (path c)
                   (λ by_name, upsert (name c) (λ _, c) (default [] by_name))
                   (default [] by_path)) jar) as [o Ho].
  destruct (upsert_holds (path c)
              (λ by_name, upsert (name c) (λ _, c) (default [] by_name))
              (default [] o)) as [o' Ho'].
  destruct (upsert_holds (name c) (λ _, c) (default [] o')) as [o'' Ho''].
  by eexists _, _, _, _.
Qed.

Lemma set_cookie_keeps (jar : CookieJar) (c' : Cookie) (k : string) (c : Cookie) :
  stored_as jar k c → k ≠ name c' → stored_as (set_cookie jar c') k c.
Proof.
  intros (d & bp & p & bn & Hbp & Hbn & Hc) Hk. unfold set_cookie.
  set (N := λ _ : option Cookie, c').
  set (G := λ by_name, upsert (name c') N (default [] by_name)).
  set (F := λ by_path, upsert (path c') G (default [] by_path)).
  assert (∃ bn', (p, bn') ∈ upsert (path c') G bp ∧ (k, c) ∈ bn')
    as (bn' & Hbn' & Hc').
  { destruct (upsert_keeps (path c') G bp p bn Hbn) as [H|[-> H]].
    - by exists bn.
    - exists (G (Some bn)). split; [done|]. unfold G. cbn [default].
      by destruct (upsert_keeps (name c') N bn k c Hc) as [H'|[-> H']]. }
  destruct (upsert_keeps (domain c') F jar d bp Hbp) as [H|[-> H]].
  - by exists d, bp, p, bn.
  - by exists (domain c'), (F (Some bp)), p, bn'.
Qed.

Lemma filed_by_name_set_cookie (jar : CookieJar) (c : Cookie) :
  filed_by_name jar → filed_by_name (set_cookie jar c).
Proof.
  intros Hjar k c0 [[-> ->]|H]%stored_as_set_cookie; [done|by apply Hjar].
Qed.

(** Setting the cookies of [l] one after the other, when [c0] is the only
    cookie named [n] around. *)
Lemma foldl_set_cookie_only (n : string) (c0 : Cookie) (l : list Cookie)
    (jar : CookieJar) :
  name c0 = n →
  filed_by_name jar →
  (∀ c, c ∈ deepvalues jar → name c = n → c = c0) →
  (∀ c, c ∈ l → name c = n → c = c0) →
  filed_by_name (foldl set_cookie jar l)
  ∧ (∀ c, c ∈ deepvalues (foldl set_cookie jar l) → name c = n → c = c0)
  ∧ (c0 ∈ l ∨ c0 ∈ deepvalues jar → c0 ∈ deepvalues (foldl set_cookie jar l)).
Proof.
  intros Hn. revert jar. induction l as [|c' l IH]; intros jar Hwf Hjar Hl; cbn.
  - split; [done|]. split; [done|]. by intros [?%elem_of_nil|?].
  - destruct (IH (set_cookie jar c')) as (IH1 & IH2 & IH3).
    + by apply filed_by_name_set_cookie.
    + intros c [k [[-> ->]|H]%stored_as_set_cookie]%elem_of_deepvalues Hc.
      * apply Hl; [by left|done].
      * apply Hjar; [|done]. apply elem_of_deepvalues. by exists k.
    + intros c Hc. apply Hl. by right.
    + split; [done|]. split; [done|]. intros H. apply IH3.
      destruct (decide (name c' = n)) as [Hc'|Hne].
      { right. rewrite <- (Hl c') by (done || by left).
        apply elem_of_deepvalues. eexists. apply set_cookie_holds. }
      destruct H as [[->|H]%elem_of_cons|H]; [done|by left|]. right.
      apply elem_of_deepvalues in H as [k H]. apply elem_of_deepvalues.
      exists k. apply set_cookie_keeps; [done|].
      rewrite <- (Hwf k c0 H). congruence.
Qed.

Lemma foldl_set_cookie_from (l : list Cookie) (jar : CookieJar) (c : Cookie) :
  c ∈ deepvalues (foldl set_cookie jar l) → c ∈ l ∨ c ∈ deepvalues jar.
Proof.
  revert jar. induction l as [|c' l IH]; intros jar; cbn; [by right|].
  intros [H|H]%IH; [left; by right|].
  apply elem_of_deepvalues in H as [k [[_ ->]|H]%stored_as_set_cookie].
  - left. by left.
  - right. apply elem_of_deepvalues. by exists k.
Qed.

(** The loop of [Cookies.get] when every cookie of the name is [c0]: there
    is nothing to conflict with. *)
Lemma scan_only (n : string) (c0 : Cookie) (cs : list Cookie)
    (v : option string) (md : string) :
  (∀ c, c ∈ cs → name c = n → c = c0) →
  v = None ∨ (md = domain c0 ∧ v = value c0) →
  Cookies.scan n cs v md
  = Ok (if existsb (λ c, String.eqb (name c) n) cs then value c0 else v).
Proof.
  revert v md. induction cs as [|c cs IH]; intros v md Hcs Hv; [done|].
  cbn [Cookies.scan existsb].
  destruct (String.eqb_spec (name c) n) as [Hn|Hn]; cbn [orb].
  - rewrite (Hcs c) by (done || by left).
    assert (bool_decide (v ≠ None) && negb (Py.endswith md (domain c0))
            && negb (Py.endswith (domain c0) md)
            && bool_decide (v ≠ value c0) = false) as ->.
    { destruct Hv as [->|[_ ->]].
      - by rewrite bool_decide_eq_false_2 by (by intros []).
      - rewrite (bool_decide_eq_false_2 (value c0 ≠ value c0)) by (by intros []).
        by rewrite andb_false_r. }
    rewrite IH; [by destruct (existsb _ cs)| |by right].
    intros c1 H1. apply Hcs. by right.
  - apply IH; [|done]. intros c1 H1. apply Hcs. by right.
Qed.

(** A cookie file in which exactly one line sets the cookie [n]: the store
    of the new session returns the value of that line. *)
Lemma get_loaded_only (entries : list Cookie) (c0 : Cookie) (n : string) :
  name c0 = n →
  c0 ∈ entries →
  (∀ c, c ∈ entries → name c = n → c = c0) →
  Cookies.get (loaded entries) n = Ok (value c0).
Proof.
  intros Hn Hin Hall. unfold loaded, Cookies.update, load, Cookies.get.
  assert (filed_by_name empty) as He.
  { intros k c (d & bp & p & bn & H & _). by apply elem_of_nil in H. }
  assert (∀ c, c ∈ deepvalues empty → name c = n → c = c0) as He'.
  { intros c H. by apply elem_of_nil in H. }
  destruct (foldl_set_cookie_only n c0 entries empty Hn He He' Hall)
    as (_ & H2 & H3).
  destruct (foldl_set_cookie_only n c0 (deepvalues (foldl set_cookie empty entries))
              empty Hn He He' H2) as (_ & H5 & H6).
  rewrite (scan_only n c0) by (done || by left).
  assert (existsb (λ c, String.eqb (name c) n)
            (deepvalues
               (foldl set_cookie empty
                  (deepvalues (foldl set_cookie empty entries)))) = true) as ->;
    [|done].
  apply existsb_exists. exists c0. split; [|by apply String.eqb_eq].
  apply list_elem_of_In. apply H6. left. apply H3. by left.
Qed.

(** A cookie file in which no line sets the cookie [n]: the store of the new
    session has none. *)
Lemma get_loaded_absent (entries : list Cookie) (n : string) :
  (∀ c, c ∈ entries → name c ≠ n) →
  Cookies.get (loaded entries) n = Ok None.
Proof.
  intros Hall. unfold loaded, Cookies.update, load, Cookies.get.
  rewrite (scan_only n (mkCookie n None "" "")); [|intros c Hc Hn|by left].
  - by destruct (existsb _ _).
  - apply foldl_set_cookie_from in Hc as [Hc|Hc]; [|by apply elem_of_nil in Hc].
    apply foldl_set_cookie_from in Hc as [Hc|Hc]; [|by apply elem_of_nil in Hc].
    by destruct (Hall c Hc).
Qed.

End Jar.

Section Cookies.
Context (W : World).

Lemma alter_last {A} (f : A → A) (h : list A) (s : A) :
  alter f (List.length h) (h ++ [s]) = h ++ [f s].
Proof. by rewrite alter_app_r_alt, Nat.sub_diag by done. Qed.

Lemma session_at_last (e : KimiAIEngine) (h : list AsyncSession) (s : AsyncSession)
    (tr : list Request) :
  session_at (mkState e (h ++ [s]) tr) (List.length h) = s.
Proof. unfold session_at. cbn [heap]. by rewrite list_lookup_middle. Qed.

Lemma falsy_token (tok : string) : tok ≠ "" → falsy (Some tok) = false.
Proof. intros H. cbn. by destruct (String.eqb_spec tok ""). Qed.

Lemma initialize_ok (st : State) (entries : list Cookiejar.Cookie) (tok : string) :
  _is_initialized (engine st) = false →
  path_exists W (cookies_path (engine st)) = true →
  cookie_file W (cookies_path (engine st)) = inr entries →
  Cookies.get (loaded entries) "kimi-auth" = Ok (Some tok) →
  tok ≠ "" →
  ∃ s, _initialize_session W st =
         (Ok tt, mkState (with_initialized true
                            (with_session (Some (List.length (heap st))) (engine st)))
                         (heap st ++ [s]) (trace st))
       ∧ headers s !! "Authorization" = Some ("Bearer " +:+ tok)
       ∧ closed s = false.
Proof.
  intros Hi He Hj Ht Hne.
  unfold _initialize_session, _load_cookies. run. rewrite Hi.
  destruct (random_ids W _) as [[d s] t]. run. rewrite He, Hj. cbn [negb]. run.
  rewrite !alter_last, session_at_last. cbn [cookies with_cookies].
  fold (loaded entries). rewrite Ht. rewrite falsy_token by done.
  cbn [heap]. rewrite alter_last. eexists. split; [reflexivity|].
  cbn [headers with_headers closed default]. by rewrite lookup_insert_eq.
Qed.

Lemma initialize_no_token (st : State) (entries : list Cookiejar.Cookie)
    (v : option string) :
  _is_initialized (engine st) = false →
  path_exists W (cookies_path (engine st)) = true →
  cookie_file W (cookies_path (engine st)) = inr entries →
  Cookies.get (loaded entries) "kimi-auth" = Ok v →
  falsy v = true →
  ∃ st', _initialize_session W st = (Raise token_missing, st')
         ∧ trace st' = trace st.
Proof.
  intros Hi He Hj Ht Hv.
  unfold _initialize_session, _load_cookies. run. rewrite Hi.
  destruct (random_ids W _) as [[d s] t]. run. rewrite He, Hj. cbn [negb]. run.
  rewrite !alter_last, session_at_last. cbn [cookies with_cookies].
  fold (loaded entries). rewrite Ht, Hv.
  eexists. split; reflexivity.
Qed.

Lemma initialize_conflict (st : State) (entries : list Cookiejar.Cookie)
    (x : exn) :
  _is_initialized (engine st) = false →
  path_exists W (cookies_path (engine st)) = true →
  cookie_file W (cookies_path (engine st)) = inr entries →
  Cookies.get (loaded entries) "kimi-auth" = Raise x →
  ∃ st', _initialize_session W st
         = (Raise (AuthenticationError
                     ("Failed to load or process cookies: " +:+ str x) (Some x)),
            st')
         ∧ trace st' = trace st.
Proof.
  intros Hi He Hj Ht.
  unfold _initialize_session, _load_cookies. run. rewrite Hi.
  destruct (random_ids W _) as [[d s] t]. run. rewrite He, Hj. cbn [negb]. run.
  rewrite !alter_last, session_at_last. cbn [cookies with_cookies].
  fold (loaded entries). rewrite Ht.
  eexists. split; reflexivity.
Qed.

Lemma initialize_no_file (st : State) :
  _is_initialized (engine st) = false →
  path_exists W (cookies_path (engine st)) = false →
  ∃ st', _initialize_session W st =
           (Raise (AuthenticationError
                     ("Cookie file not found at: " +:+ cookies_path (engine st))
                     None), st')
         ∧ trace st' = trace st.
Proof.
  intros Hi He.
  unfold _initialize_session, _load_cookies. run. rewrite Hi.
  destruct (random_ids W _) as [[d s] t]. run. rewrite He. cbn [negb].
  eexists. split; reflexivity.
Qed.

End Cookies.

(** C4, as the code has it.  The token is what the cookie store of the new
    session returns for [kimi-auth] once the cookie file is loaded into it.
    When that is a non-empty value, and in particular when exactly one line
    of the file sets [kimi-auth], to a non-empty value, session
    initialization succeeds with the header [Authorization] equal to
    [Bearer] followed by the value.  A cookie file without the cookie, a
    cookie file for which the lookup raises, and a missing cookie file make
    it raise [AuthenticationError].  In no case is a request attempted, also
    when the initialization is the lazy one of [_make_request], which then
    raises the same error before it sends anything. *)
Theorem cookie_file_decides_authentication (W : World) (st : State) :
  _is_initialized (engine st) = false →
  let path := cookies_path (engine st) in
  let out := _initialize_session W st in
  let authenticated (tok : string) :=
    out.1 = Ok tt
    ∧ session (engine out.2) = Some (List.length (heap st))
    ∧ headers (session_at out.2 (List.length (heap st))) !! "Authorization"
      = Some ("Bearer " +:+ tok)
    ∧ trace out.2 = trace st in
  (∀ entries tok,
     path_exists W path = true → cookie_file W path = inr entries →
     Cookies.get (loaded entries) "kimi-auth" = Ok (Some tok) → tok ≠ "" →
     authenticated tok)
  ∧ (∀ entries c tok,
       path_exists W path = true → cookie_file W path = inr entries →
       c ∈ entries → Cookiejar.name c = "kimi-auth" →
       (∀ c', c' ∈ entries → Cookiejar.name c' = "kimi-auth" → c' = c) →
       Cookiejar.value c = Some tok → tok ≠ "" →
       authenticated tok)
  ∧ (∀ entries,
       path_exists W path = true → cookie_file W path = inr entries →
       (∀ c, c ∈ entries → Cookiejar.name c ≠ "kimi-auth") →
       out.1 = Raise token_missing ∧ trace out.2 = trace st)
  ∧ (∀ entries x,
       path_exists W path = true → cookie_file W path = inr entries →
       Cookies.get (loaded entries) "kimi-auth" = Raise x →
       out.1 = Raise (AuthenticationError
                        ("Failed to load or process cookies: " +:+ str x) (Some x))
       ∧ trace out.2 = trace st)
  ∧ (path_exists W path = false →
       out.1 = Raise (AuthenticationError ("Cookie file not found at: " +:+ path) None)
       ∧ trace out.2 = trace st)
  ∧ (∀ e method url kwargs,
       session (engine st) = None → out.1 = Raise e →
       _make_request W method url kwargs st = (Raise e, out.2)
       ∧ trace out.2 = trace st).
Proof.
  intros Hi path out authenticated.
  assert (∀ entries tok,
     path_exists W path = true → cookie_file W path = inr entries →
     Cookies.get (loaded entries) "kimi-auth" = Ok (Some tok) → tok ≠ "" →
     authenticated tok) as Hok.
  { intros entries tok He Hj Ht Hne. subst authenticated out path.
    destruct (initialize_ok W st entries tok) as (s & -> & Hh & _); try done.
    cbn [fst snd trace engine session with_initialized with_session].
    by rewrite session_at_last. }
  split; [exact Hok|]. subst path out. split; [|split; [|split; [|split]]].
  - intros entries c tok He Hj Hin Hn Hall Hv Hne. apply (Hok entries); try done.
    rewrite <- Hv. by apply get_loaded_only.
  - intros entries He Hj Hno.
    destruct (initialize_no_token W st entries None) as (st' & -> & ?);
      try done.
    by apply get_loaded_absent.
  - intros entries x He Hj Hx.
    by destruct (initialize_conflict W st entries x) as (st' & -> & ?).
  - intros He. by destruct (initialize_no_file W st) as (st' & -> & ?).
  - intros e method url kwargs Hs Hr. split.
    + apply make_request_unprepared. unfold prepared. rewrite Hs.
      destruct (_initialize_session W st) as [r st']. cbn in *. by subst.
    + clear. unfold _initialize_session, _load_cookies. run.
      destruct (_is_initialized (engine st)); [done|].
      destruct (random_ids W _) as [[d s] t]. run.
      destruct (path_exists W _); cbn; [|done].
      destruct (cookie_file W _); cbn; [done|].
      destruct (Cookies.get _ _) as [v|x]; cbn; [|done].
      destruct (falsy _); cbn; done.
Qed.

(** The claim as stated fails: a cookie file that holds a non-empty
    [kimi-auth] cookie for each of two unrelated sites, with different
    values, makes the lookup raise; the initialization raises
    [AuthenticationError] and sets no [Authorization] header. *)
Lemma ambiguous_cookie_fails_authentication :
  cookie_file Demo.two_sites "cookies.txt"
  = inr [ Cookiejar.mkCookie "kimi-auth" (Some "tok123") ".kimi.com" "/";
          Cookiejar.mkCookie "kimi-auth" (Some "old456") ".moonshot.cn" "/" ]
  ∧ (_initialize_session Demo.two_sites Demo.fresh).1
    = Raise (AuthenticationError
               ("Failed to load or process cookies: "
                +:+ str (Cookies.CookieConflict "kimi-auth" ".kimi.com"
                           ".moonshot.cn"))
               (Some (Cookies.CookieConflict "kimi-auth" ".kimi.com"
                        ".moonshot.cn")))
  ∧ (_initialize_session Demo.two_sites Demo.fresh).1 ≠ Ok tt
  ∧ headers (session_at (_initialize_session Demo.two_sites Demo.fresh).2 0)
      !! "Authorization" = None.
Proof.
  split; [reflexivity|].
  assert ((_initialize_session Demo.two_sites Demo.fresh).1
          = Raise (AuthenticationError
                     ("Failed to load or process cookies: "
                      +:+ str (Cookies.CookieConflict "kimi-auth" ".kimi.com"
                                 ".moonshot.cn"))
                     (Some (Cookies.CookieConflict "kimi-auth" ".kimi.com"
                              ".moonshot.cn")))) as H by (by vm_compute).
  split; [exact H|]. split; [by rewrite H|]. by vm_compute.
Qed.

Lemma cookie_file_decides_authentication_witness :
  ((_initialize_session Demo.happy Demo.fresh).1 = Ok tt
   ∧ headers (session_at (_initialize_session Demo.happy Demo.fresh).2 0)
       !! "Authorization" = Some "Bearer tok123")
  ∧ (_initialize_session Demo.no_token Demo.fresh).1 = Raise token_missing
  ∧ (_initialize_session Demo.no_cookie_file Demo.fresh).1
    = Raise (AuthenticationError "Cookie file not found at: cookies.txt" None)
  ∧ (_make_request Demo.no_cookie_file "POST" "https://www.kimi.com/api/chat"
       NoBody Demo.fresh).1
    = Raise (AuthenticationError "Cookie file not found at: cookies.txt" None).
Proof.
  pose proof (cookie_file_decides_authentication Demo.happy Demo.fresh eq_refl)
    as (_ & Hok & _).
  pose proof (cookie_file_decides_authentication Demo.no_token Demo.fresh eq_refl)
    as (_ & _ & Hno & _).
  pose proof (cookie_file_decides_authentication Demo.no_cookie_file Demo.fresh
                eq_refl) as (_ & _ & _ & _ & Hnf & Hmr).
  destruct (Hok Demo.jar
              (Cookiejar.mkCookie "kimi-auth" (Some "tok123") ".kimi.com" "/")
              "tok123" eq_refl eq_refl) as (H1 & _ & H2 & _).
  { by left. }
  { reflexivity. }
  { intros c' [->|[->|[]%elem_of_nil]%elem_of_cons]%elem_of_cons; [done|].
    discriminate. }
  { reflexivity. }
  { discriminate. }
  destruct (Hno Demo.jar_without_token eq_refl eq_refl) as (H3 & _).
  { intros c [->|[]%elem_of_nil]%elem_of_cons. discriminate. }
  destruct (Hnf eq_refl) as (H4 & _).
  destruct (Hmr _ "POST" "https://www.kimi.com/api/chat" NoBody eq_refl H4)
    as (H5 & _).
  split; [split; [exact H1|exact H2]|].
  split; [exact H3|]. split; [exact H4|]. by rewrite H5.
Defined.

(** ** Closing *)

Section Closing.
Context (W : World).

Lemma close_spec (st : State) (sid : nat) :
  session (engine st) = Some sid →
  close st =
    (Ok tt, mkState (with_initialized false (with_session None (engine st)))
                    (alter (with_closed true) sid (heap st)) (trace st)).
Proof. intros Hs. unfold close. run. by rewrite Hs. Qed.

Lemma session_at_alter (e : KimiAIEngine) (h : list AsyncSession)
    (tr : list Request) (f : AsyncSession → AsyncSession) (sid : nat) :
  sid < List.length h →
  session_at (mkState e (alter f sid h) tr) sid
  = f (default blank_session (h !! sid)).
Proof.
  intros Hlt. unfold session_at. cbn [heap]. rewrite list_lookup_alter_eq.
  destruct (lookup_lt_is_Some_2 h sid Hlt) as [s ->]. reflexivity.
Qed.

End Closing.

(** C3, as the code has it.  Closing clears the engine's session reference
    and its initialized flag and closes the session object, which stays
    closed for whoever still holds it: a send on a chat that holds it fails
    at once, in every environment, with [APIError] (status 0, [No response])
    around the transport's closed-session error, and goes on failing so
    after the engine has been used again.  The engine itself has no closed
    state: the next [_make_request] creates a new session object, loads the
    cookies again, sets [Authorization] on it and sends the request on it,
    and its outcome is the transport's answer. *)
Theorem request_after_close_reinitializes (W : World) (st : State) (sid : nat)
    (entries : list Cookiejar.Cookie) (tok method url : string) (kwargs : body)
    (c : KimiChat) :
  session (engine st) = Some sid →
  sid < List.length (heap st) →
  path_exists W (cookies_path (engine st)) = true →
  cookie_file W (cookies_path (engine st)) = inr entries →
  Cookies.get (loaded entries) "kimi-auth" = Ok (Some tok) →
  tok ≠ "" →
  _session c = Some sid →
  let closed_st := (close st).2 in
  let ready := ((close;; _initialize_session W) st).2 in
  let out := (close;; _make_request W method url kwargs) st in
  let new := List.length (heap st) in
  let rq := plain_request method url kwargs new in
  let refused (outcome : list StreamEvent * option exn) :=
    ∃ msg, outcome = ([], Some (APIError msg 0 "No response" (Some session_closed))) in
  (session (engine closed_st) = None
   ∧ _is_initialized (engine closed_st) = false
   ∧ closed (session_at closed_st sid) = true)
  ∧ (∀ prompt history use_search file_ids,
       refused
         (send_message_stream W c prompt history use_search file_ids closed_st).1
       ∧ refused
           (send_message_stream W c prompt history use_search file_ids out.2).1)
  ∧ session (engine out.2) = Some new
  ∧ _is_initialized (engine out.2) = true
  ∧ closed (session_at out.2 new) = false
  ∧ headers (session_at out.2 new) !! "Authorization" = Some ("Bearer " +:+ tok)
  ∧ closed (session_at out.2 sid) = true
  ∧ trace out.2 = trace st ++ [rq]
  ∧ out.1 = match send W (session_at ready new) (trace st) rq with
            | Replied r =>
                if status_ok r then Ok r else Raise (request_error (http_error r))
            | Failed e => Raise (request_error e)
            end.
Proof.
  intros Hs Hlt He Hj Ht Hne Hc0 closed_st ready out new rq refused.
  subst closed_st ready out new rq refused.
  pose proof (close_spec st sid Hs) as Hc.
  set (st1 := mkState (with_initialized false (with_session None (engine st)))
                (alter (with_closed true) sid (heap st)) (trace st)) in Hc.
  destruct (initialize_ok W st1 entries tok) as (s & Hinit & Hh & Hcl); try done.
  cbn [st1 heap engine trace] in Hinit. rewrite length_alter in Hinit.
  set (st2 := mkState _ _ _) in Hinit.
  assert (prepared W st1 = (Ok tt, st2)) as Hp by exact Hinit.
  pose proof (make_request_spec W method url kwargs st1 st2
                (List.length (heap st)) Hp eq_refl) as Hm.
  cbv zeta in Hm.
  assert (session_at st2 (List.length (heap st)) = s) as Hnew.
  { unfold st2, session_at. cbn [heap].
    by rewrite list_lookup_middle by (by rewrite length_alter). }
  assert (closed (session_at st1 sid) = true) as Hold1.
  { unfold st1. rewrite session_at_alter by done. reflexivity. }
  assert (closed (session_at st2 sid) = true) as Hold.
  { unfold st2, session_at. cbn [heap].
    rewrite lookup_app_l by (by rewrite length_alter).
    rewrite list_lookup_alter_eq.
    by destruct (lookup_lt_is_Some_2 (heap st) sid Hlt) as [s0 ->]. }
  set (rq := plain_request method url kwargs (List.length (heap st))) in *.
  assert ((close;; _make_request W method url kwargs) st
          = (match send W s (trace st) rq with
             | Replied r =>
                 if status_ok r then Ok r else Raise (request_error (http_error r))
             | Failed e => Raise (request_error e)
             end, sent W st2 rq)) as Hout.
  { unfold mbind, M_bind. rewrite Hc, Hm, Hnew.
    change (trace st2) with (trace st).
    destruct (send W s (trace st) rq) as [r|e]; [|done].
    by destruct (status_ok r). }
  assert (((close;; _initialize_session W) st).2 = st2) as Hready.
  { unfold mbind, M_bind. by rewrite Hc, Hinit. }
  rewrite Hout, Hready, Hc, Hnew. cbn [fst snd].
  split.
  { cbn [st1 engine session _is_initialized with_initialized with_session].
    done. }
  split.
  { intros prompt history use_search file_ids.
    rewrite !(send_message_stream_closed W c sid) by (done || by rewrite closed_sent).
    split; by eexists. }
  rewrite !closed_sent, headers_sent, Hnew, Hold, Hcl, Hh.
  done.
Qed.

(** The claim as stated fails: an engine that was opened and closed answers
    the next request with the backend's response, not with an error. *)
Lemma request_after_close_succeeds :
  ((_initialize_session Demo.happy;; close;;
    _make_request Demo.happy "POST" "https://www.kimi.com/api/chat"
      (JsonBody (chat_payload "New Chat"))) Demo.fresh).1
  = Ok (Demo.ok_response (Py.dq "{'id':'abc123'}") [])
  ∧ ¬ ∃ e, ((_initialize_session Demo.happy;; close;;
             _make_request Demo.happy "POST" "https://www.kimi.com/api/chat"
               (JsonBody (chat_payload "New Chat"))) Demo.fresh).1
           = Raise e.
Proof.
  assert (((_initialize_session Demo.happy;; close;;
            _make_request Demo.happy "POST" "https://www.kimi.com/api/chat"
              (JsonBody (chat_payload "New Chat"))) Demo.fresh).1
          = Ok (Demo.ok_response (Py.dq "{'id':'abc123'}") [])) as H
    by (by vm_compute).
  split; [exact H|]. intros [e He]. rewrite H in He. discriminate.
Qed.

Lemma request_after_close_reinitializes_witness :
  session (engine ((close;; _make_request Demo.happy "POST"
                              "https://www.kimi.com/api/chat" NoBody)
                     Demo.started).2) = Some 1
  ∧ closed (session_at ((close;; _make_request Demo.happy "POST"
                                   "https://www.kimi.com/api/chat" NoBody)
                          Demo.started).2 0) = true
  ∧ ∃ msg,
      (send_message_stream Demo.happy Demo.chat "Hello" [] true []
         (close Demo.started).2).1
      = ([], Some (APIError msg 0 "No response" (Some session_closed))).
Proof.
  pose proof (request_after_close_reinitializes Demo.happy Demo.started 0
                Demo.jar "tok123" "POST" "https://www.kimi.com/api/chat" NoBody
                Demo.chat
                eq_refl ltac:(vm_compute; lia) eq_refl eq_refl
                ltac:(by vm_compute) ltac:(discriminate) eq_refl)
    as (_ & H0 & H1 & _ & _ & _ & H2 & _).
  split; [exact H1|]. split; [exact H2|].
  exact (proj1 (H0 "Hello" [] true [])).
Defined.

(** ** Error translation and chat creation *)

Section Translation.
Context (W : World).

Lemma initialize_base_url (st : State) :
  base_url (engine (_initialize_session W st).2) = base_url (engine st).
Proof.
  unfold _initialize_session, _load_cookies. run.
  destruct (_is_initialized (engine st)); [done|].
  destruct (random_ids W _) as [[d s] t]. run.
  destruct (path_exists W _); cbn; [|done].
  destruct (cookie_file W _); cbn; [done|].
  destruct (Cookies.get _ _) as [v|x]; cbn; [|done].
  destruct (falsy v); cbn; done.
Qed.

Lemma prepared_base_url (st st0 : State) (r : result unit) :
  prepared W st = (r, st0) → base_url (engine st0) = base_url (engine st).
Proof.
  unfold prepared. destruct (session (engine st)).
  - by intros [= _ <-].
  - intros H. pose proof (initialize_base_url st) as Hb. by rewrite H in Hb.
Qed.

Lemma create_chat_spec (name : string) (st st0 : State) (sid : nat)
    (r : Response) (data : json) :
  prepared W st = (Ok tt, st0) →
  session (engine st0) = Some sid →
  let rq := plain_request "POST" (base_url (engine st) +:+ "/chat")
              (JsonBody (chat_payload name)) sid in
  send W (session_at st0 sid) (trace st0) rq = Replied r →
  status_ok r = true →
  json_loads W (text r) = inr data →
  create_chat W name st =
    match Value.get data "id" JNull with
    | Ok v => (Ok (mkKimiChat v (Some sid) (base_url (engine st))), sent W st0 rq)
    | Raise e => (Raise e, sent W st0 rq)
    end.
Proof.
  intros Hp Hs rq Hsend Hok Hj. subst rq. unfold create_chat.
  unfold mbind at 1, M_bind at 1, get_engine at 1.
  unfold mbind at 1, M_bind at 1.
  rewrite (make_request_spec W _ _ _ st st0 sid Hp Hs). cbv zeta.
  rewrite Hsend, Hok. unfold response_json. rewrite Hj. run.
  destruct (Value.get data "id" JNull); [|done].
  cbn [sent engine]. by rewrite Hs, (prepared_base_url st st0 _ Hp).
Qed.

Lemma create_chat_error (name : string) (st st0 : State) (sid : nat) :
  prepared W st = (Ok tt, st0) →
  session (engine st0) = Some sid →
  let rq := plain_request "POST" (base_url (engine st) +:+ "/chat")
              (JsonBody (chat_payload name)) sid in
  (create_chat W name st).1 =
    match send W (session_at st0 sid) (trace st0) rq with
    | Replied r =>
        if status_ok r then (create_chat W name st).1
        else Raise (request_error (http_error r))
    | Failed e => Raise (request_error e)
    end.
Proof.
  intros Hp Hs rq. subst rq.
  destruct (send W _ _ _) as [r|e] eqn:Hsend.
  - destruct (status_ok r) eqn:Hok; [done|]. unfold create_chat.
    unfold mbind at 1, M_bind at 1, get_engine at 1.
    unfold mbind at 1, M_bind at 1.
    rewrite (make_request_spec W _ _ _ st st0 sid Hp Hs). cbv zeta.
    by rewrite Hsend, Hok.
  - unfold create_chat.
    unfold mbind at 1, M_bind at 1, get_engine at 1.
    unfold mbind at 1, M_bind at 1.
    rewrite (make_request_spec W _ _ _ st st0 sid Hp Hs). cbv zeta.
    by rewrite Hsend.
Qed.

Lemma send_message_stream_trace (c : KimiChat) (sid : nat) (prompt : string)
    (history : list KimiMessage) (use_search : bool) (file_ids : list string)
    (st : State) :
  _session c = Some sid →
  trace (send_message_stream W c prompt history use_search file_ids st).2
  = trace st ++ [stream_request W c prompt history use_search file_ids sid].
Proof.
  intros Hs.
  unfold send_message_stream, stream_request, session_request, raise_for_status.
  rewrite Hs. run. cbn [via stream].
  destruct (send W _ _ _) as [r|x]; [|reflexivity].
  change (status_ok (unread r)) with (status_ok r).
  destruct (status_ok r); [|reflexivity].
  by destruct (decode_lines W (lines (unread r)) (stream_end_of (unread r))).
Qed.

End Translation.

(** C7, as the code has it.  A call made through [_make_request] that gets a
    response with a status the transport counts as an error (below 200, or
    400 and above) raises [APIError] whose [status_code] is the status of
    the response, whose [response_text] is the body of the response,
    unchanged, and whose cause is the transport's error; when the transport
    raises without a response the [status_code] is 0 and the
    [response_text] is [No response]; [create_chat] lets the error through
    unchanged. *)
Theorem make_request_reports_the_status (W : World) (st st0 : State) (sid : nat)
    (method url : string) (kwargs : body) :
  prepared W st = (Ok tt, st0) →
  session (engine st0) = Some sid →
  let answer := send W (session_at st0 sid) (trace st0)
                  (plain_request method url kwargs sid) in
  (∀ r, answer = Replied r → (status_code r < 200 ∨ 400 ≤ status_code r)%Z →
     ∃ msg, (_make_request W method url kwargs st).1
            = Raise (APIError msg (status_code r) (text r) (Some (http_error r))))
  ∧ (∀ m, answer = Failed (RequestsError m None) →
       ∃ msg, (_make_request W method url kwargs st).1
              = Raise (APIError msg 0 "No response"
                         (Some (RequestsError m None))))
  ∧ (∀ name r,
       method = "POST" → url = base_url (engine st) +:+ "/chat" →
       kwargs = JsonBody (chat_payload name) →
       answer = Replied r → (status_code r < 200 ∨ 400 ≤ status_code r)%Z →
       ∃ msg, (create_chat W name st).1
              = Raise (APIError msg (status_code r) (text r)
                         (Some (http_error r)))).
Proof.
  intros Hp Hs answer. subst answer.
  rewrite (make_request_spec W method url kwargs st st0 sid Hp Hs). cbv zeta.
  split; [|split].
  - intros r -> Hst. rewrite (status_ok_false r Hst). by eexists.
  - intros m ->. by eexists.
  - intros name r -> -> -> Hsend Hst.
    rewrite (create_chat_error W name st st0 sid Hp Hs). cbv zeta.
    rewrite Hsend, (status_ok_false r Hst). by eexists.
Qed.

Lemma make_request_reports_the_status_witness :
  (∃ msg, (_make_request Demo.unauthorized "POST" "https://www.kimi.com/api/chat"
             (JsonBody (chat_payload "New Chat")) Demo.started).1
          = Raise (APIError msg 401 (Py.dq "{'error':'invalid token'}")
                     (Some (http_error Demo.refused))))
  ∧ (∃ msg, (_make_request Demo.unreachable "POST" "https://www.kimi.com/api/chat"
               (JsonBody (chat_payload "New Chat")) Demo.started).1
            = Raise (APIError msg 0 "No response"
                       (Some (RequestsError "Connection refused" None))))
  ∧ (∃ msg, (create_chat Demo.unauthorized "New Chat" Demo.started).1
            = Raise (APIError msg 401 (Py.dq "{'error':'invalid token'}")
                       (Some (http_error Demo.refused)))).
Proof.
  pose proof (make_request_reports_the_status Demo.unauthorized Demo.started
                Demo.started 0 "POST" "https://www.kimi.com/api/chat"
                (JsonBody (chat_payload "New Chat")) eq_refl eq_refl)
    as (H1 & _ & H3).
  pose proof (make_request_reports_the_status Demo.unreachable Demo.started
                Demo.started 0 "POST" "https://www.kimi.com/api/chat"
                (JsonBody (chat_payload "New Chat")) eq_refl eq_refl)
    as (_ & H2 & _).
  split; [exact (H1 Demo.refused eq_refl ltac:(right; by vm_compute))|].
  split; [exact (H2 "Connection refused" eq_refl)|].
  exact (H3 "New Chat" Demo.refused eq_refl eq_refl eq_refl eq_refl
           ltac:(right; by vm_compute)).
Defined.

(** The claim as stated fails, in two ways.  The raw upload is a call of the
    engine, it gets a 401, and what the engine raises is [FileUploadError]
    around the transport's error, not [APIError].  And a call made through
    [_make_request] that gets a 304, which is not a 2xx status, raises
    nothing: the response is returned. *)
Lemma not_every_refused_call_raises_APIError :
  ((∃ rq, rq ∈ trace (upload_file Demo.rejecting "/tmp/photo.JPG" Demo.started).2
          ∧ method rq = "PUT"
          ∧ send Demo.rejecting (session_at Demo.started 0) [] rq
            = Replied Demo.denied
          ∧ status_code Demo.denied = 401%Z)
   ∧ (upload_file Demo.rejecting "/tmp/photo.JPG" Demo.started).1
     = Raise (upload_error "/tmp/photo.JPG" (http_error Demo.denied))
   ∧ ∀ msg status text cause,
       (upload_file Demo.rejecting "/tmp/photo.JPG" Demo.started).1
       ≠ Raise (APIError msg status text cause))
  ∧ (send Cases.unmoved (session_at Demo.started 0) []
       (plain_request "POST" "https://www.kimi.com/api/chat" NoBody 0)
     = Replied (mkResponse 304 "Not Modified" "" [] Complete)
     ∧ (_make_request Cases.unmoved "POST" "https://www.kimi.com/api/chat"
          NoBody Demo.started).1
       = Ok (mkResponse 304 "Not Modified" "" [] Complete)).
Proof.
  assert ((upload_file Demo.rejecting "/tmp/photo.JPG" Demo.started).1
          = Raise (upload_error "/tmp/photo.JPG" (http_error Demo.denied))) as H
    by (by vm_compute).
  split; [|split; by vm_compute].
  split; [|split; [exact H|]].
  - exists (mkRequest "PUT" "https://store.example/put"
              (DataBody "bytes of the file") false 0).
    split; [|done]. vm_compute. set_solver.
  - intros msg status text cause He. rewrite H in He. discriminate.
Qed.

(** C9.  When the backend answers chat creation with a 2xx response whose
    body is a JSON object with an [id] member, [create_chat] returns a chat
    whose [chat_id] is the value of that member (and which holds the
    engine's session object and base URL). *)
Theorem chat_id_is_the_id_of_the_response (W : World) (st st0 : State)
    (sid : nat) (name : string) (r : Response) (ms : list (string * json))
    (v : json) :
  prepared W st = (Ok tt, st0) →
  session (engine st0) = Some sid →
  send W (session_at st0 sid) (trace st0)
    (plain_request "POST" (base_url (engine st) +:+ "/chat")
       (JsonBody (chat_payload name)) sid) = Replied r →
  status_ok r = true →
  json_loads W (text r) = inr (JObj ms) →
  lookup_member "id" ms = Some v →
  (create_chat W name st).1
  = Ok (mkKimiChat v (Some sid) (base_url (engine st))).
Proof.
  intros Hp Hs Hsend Hok Hj Hid.
  rewrite (create_chat_spec W name st st0 sid r (JObj ms) Hp Hs Hsend Hok Hj).
  cbn [Value.get]. by rewrite Hid.
Qed.

Lemma chat_id_is_the_id_of_the_response_witness :
  Demo.loads (Py.dq "{'id':'abc123'}") = inr (JObj [("id", JStr "abc123")])
  ∧ (create_chat Demo.happy "New Chat" Demo.fresh).1
    = Ok (mkKimiChat (JStr "abc123") (Some 0) "https://www.kimi.com/api").
Proof.
  split; [by vm_compute|].
  exact (chat_id_is_the_id_of_the_response Demo.happy Demo.fresh Demo.started 0
           "New Chat" (Demo.ok_response (Py.dq "{'id':'abc123'}") [])
           [("id", JStr "abc123")] (JStr "abc123")
           eq_refl eq_refl eq_refl eq_refl eq_refl eq_refl).
Defined.

(** C10.  When the backend answers chat creation with a 2xx response whose
    body is a JSON object without an [id] member, [create_chat] does not
    raise: it returns a chat whose [chat_id] is [None], and every
    [send_message_stream] on that chat posts to the URL built from [None],
    [{base}/chat/None/completion/stream]. *)
Theorem chat_without_id_targets_None (W : World) (st st0 : State) (sid : nat)
    (name : string) (r : Response) (ms : list (string * json)) :
  prepared W st = (Ok tt, st0) →
  session (engine st0) = Some sid →
  send W (session_at st0 sid) (trace st0)
    (plain_request "POST" (base_url (engine st) +:+ "/chat")
       (JsonBody (chat_payload name)) sid) = Replied r →
  status_ok r = true →
  json_loads W (text r) = inr (JObj ms) →
  lookup_member "id" ms = None →
  let c := mkKimiChat JNull (Some sid) (base_url (engine st)) in
  (create_chat W name st).1 = Ok c
  ∧ ∀ prompt history use_search file_ids st', ∃ rq,
      trace (send_message_stream W c prompt history use_search file_ids st').2
      = trace st' ++ [rq]
      ∧ method rq = "POST"
      ∧ url rq = base_url (engine st) +:+ "/chat/None/completion/stream".
Proof.
  intros Hp Hs Hsend Hok Hj Hid c. split.
  - rewrite (create_chat_spec W name st st0 sid r (JObj ms) Hp Hs Hsend Hok Hj).
    cbn [Value.get]. by rewrite Hid.
  - intros. eexists. split; [by apply send_message_stream_trace|].
    split; reflexivity.
Qed.

Lemma chat_without_id_targets_None_witness :
  (create_chat Demo.no_id "New Chat" Demo.fresh).1
  = Ok (mkKimiChat JNull (Some 0) "https://www.kimi.com/api")
  ∧ ∃ rq, trace (send_message_stream Demo.no_id
                   (mkKimiChat JNull (Some 0) "https://www.kimi.com/api")
                   "Hello" [] true [] Demo.started).2 = [] ++ [rq]
          ∧ method rq = "POST"
          ∧ url rq = "https://www.kimi.com/api" +:+ "/chat/None/completion/stream".
Proof.
  pose proof (chat_without_id_targets_None Demo.no_id Demo.fresh Demo.started 0
                "New Chat" (Demo.ok_response (Py.dq "{'name':'x'}") [])
                [("name", JStr "x")]
                eq_refl eq_refl eq_refl eq_refl eq_refl eq_refl) as (H1 & H2).
  split; [exact H1|]. exact (H2 "Hello" [] true [] Demo.started).
Defined.

(** ** File classification *)

Section Classification.





End Classification.



(** ** The upload pipeline *)

Section Upload.
Context (W : World).

Lemma initialize_trace (st : State) :
  trace (_initialize_session W st).2 = trace st.
Proof.
  unfold _initialize_session, _load_cookies. run.
  destruct (_is_initialized (engine st)); [done|].
  destruct (random_ids W _) as [[d s] t]. run.
  destruct (path_exists W _); cbn; [|done].
  destruct (cookie_file W _); cbn; [done|].
  destruct (Cookies.get _ _) as [v|x]; cbn; [|done].
  destruct (falsy v); cbn; done.
Qed.

Lemma prepared_trace (st st0 : State) (r : result unit) :
  prepared W st = (r, st0) → trace st0 = trace st.
Proof.
  unfold prepared. destruct (session (engine st)).
  - by intros [= _ <-].
  - intros H. pose proof (initialize_trace st) as Hb. by rewrite H in Hb.
Qed.


Lemma upload_file_present (file_path : string) (st : State) :
  path_exists W file_path = true →
  upload_file W file_path st =
    match upload_steps W file_path (Py.basename file_path)
            (file_type_of (Py.basename file_path)) st with
    | (Ok f, st') => (Ok f, st')
    | (Raise cause, st') => (Raise (upload_error file_path cause), st')
    end.
Proof.
  intros H. unfold upload_file. rewrite H. cbn [negb]. unfold try_except.
  by destruct (upload_steps W _ _ _ st) as [[f|cause] st'].
Qed.

End Upload.



(** C6, as the code has it.  When the storage answers the raw PUT with a
    status the transport counts as an error (below 200, or 400 and above),
    [upload_file] raises [FileUploadError] (around the transport's error for
    that response), and the calls it has made are the pre-sign request and
    the PUT, in that order, and nothing else: the registration
    [POST {base}/file] is never sent. *)
Theorem failed_put_stops_the_pipeline (W : World) (st st0 : State) (sid : nat)
    (file_path : string) (r1 r2 : Response) (pre_sign_data : json)
    (u content : string) :
  path_exists W file_path = true →
  prepared W st = (Ok tt, st0) →
  session (engine st0) = Some sid →
  let file_name := Py.basename file_path in
  let presign :=
    plain_request "POST" (base_url (engine st) +:+ "/pre-sign-url")
      (JsonBody (JObj [("name", JStr file_name);
                       ("action", JStr (file_type_of file_name))])) sid in
  let put := plain_request "PUT" u (DataBody content) sid in
  let st1 := sent W st0 presign in
  send W (session_at st0 sid) (trace st0) presign = Replied r1 →
  status_ok r1 = true →
  json_loads W (text r1) = inr pre_sign_data →
  Value.getitem pre_sign_data "url" = Ok (JStr u) →
  open_rb W file_path = inr (inr content) →
  send W (session_at st1 sid) (trace st1) put = Replied r2 →
  (status_code r2 < 200 ∨ 400 ≤ status_code r2)%Z →
  let out := upload_file W file_path st in
  out.1 = Raise (FileUploadError
                   ("Failed to upload file '" +:+ file_path +:+ "': "
                    +:+ str (http_error r2)) (Some (http_error r2)))
  ∧ trace out.2 = trace st ++ [presign; put]
  ∧ ∀ rq, rq ∈ [presign; put] → ¬ is_registration (base_url (engine st)) rq.
Proof.
  intros He Hp Hs file_name presign put st1 Hsend1 Hok1 Hj Hu Ho Hsend2 Hst out.
  pose proof (status_ok_false r2 Hst) as Hok2.
  assert (out = (Raise (upload_error file_path (http_error r2)),
                 sent W st1 put)) as ->.
  { subst out. rewrite (upload_file_present W file_path st He).
    fold file_name. unfold upload_steps.
    unfold mbind at 1, M_bind at 1, get_engine at 1.
    unfold mbind at 1, M_bind at 1.
    rewrite (make_request_spec W _ _ _ st st0 sid Hp Hs). cbv zeta.
    fold presign. rewrite Hsend1, Hok1. fold st1.
    unfold response_json. rewrite Hj. run. rewrite Ho. run.
    change (engine st1) with (engine st0). rewrite Hs. run. rewrite Hu. run.
    unfold session_put, session_request. cbn [via stream].
    change (mkRequest "PUT" u (DataBody content) false sid) with put.
    rewrite Hsend2. unfold raise_for_status. rewrite Hok2. run.
    reflexivity. }
  split; [reflexivity|]. split.
  - cbn [snd sent trace st1]. rewrite (prepared_trace W st st0 _ Hp).
    by rewrite <- app_assoc.
  - intros rq Hin [Hm Hurl].
    apply elem_of_cons in Hin as [->|Hin].
    + cbn in Hurl. by apply (inj (String.app _)) in Hurl.
    + apply elem_of_cons in Hin as [->|Hin]; [done|].
      by apply elem_of_nil in Hin.
Qed.

(** The claim as stated fails: the storage answers the raw PUT with 300,
    which is not a 2xx status; the transport does not count it as an error,
    so the registration is sent and [upload_file] returns the uploaded
    file. *)
Lemma put_answered_300_is_followed_by_registration :
  map (λ rq, (method rq, url rq))
    (trace (upload_file Demo.undecided "/tmp/photo.JPG" Demo.started).2)
  = [ ("POST", "https://www.kimi.com/api/pre-sign-url");
      ("PUT", "https://store.example/put");
      ("POST", "https://www.kimi.com/api/file") ]
  ∧ (∀ s tr rq, method rq = "PUT" → closed s = false →
       send Demo.undecided s tr rq
       = Replied (mkResponse 300 "" "denied" [] Complete))
  ∧ (∃ rq, rq ∈ trace (upload_file Demo.undecided "/tmp/photo.JPG"
                         Demo.started).2
           ∧ is_registration "https://www.kimi.com/api" rq)
  ∧ (upload_file Demo.undecided "/tmp/photo.JPG" Demo.started).1
    = Ok (mkUploadedFile (JStr "f1") (JStr "photo.JPG") (JStr "obj/1")
            (JStr "image") (JObj []))
  ∧ ∀ msg cause,
      (upload_file Demo.undecided "/tmp/photo.JPG" Demo.started).1
      ≠ Raise (FileUploadError msg cause).
Proof.
  assert ((upload_file Demo.undecided "/tmp/photo.JPG" Demo.started).1
          = Ok (mkUploadedFile (JStr "f1") (JStr "photo.JPG") (JStr "obj/1")
                  (JStr "image") (JObj []))) as H by (by vm_compute).
  rewrite H. split; [by vm_compute|]. split; [|split; [|done]].
  - intros s tr rq Hm Hs. unfold send. rewrite Hs.
    unfold Demo.undecided, Demo.world, Demo.backend. cbn [network fst].
    by rewrite Hm.
  - exists (plain_request "POST" "https://www.kimi.com/api/file"
              (JsonBody (JObj [ ("name", JStr "photo.JPG");
                                ("object_name", JStr "obj/1");
                                ("type", JStr "image");
                                ("file_id", JStr "f0") ])) 0).
    split; [|done]. vm_compute. set_solver.
Qed.

Lemma failed_put_stops_the_pipeline_witness :
  (upload_file Demo.rejecting "/tmp/photo.JPG" Demo.started).1
  = Raise (FileUploadError
             "Failed to upload file '/tmp/photo.JPG': HTTP Error 401: "
             (Some (http_error Demo.denied)))
  ∧ map url (trace (upload_file Demo.rejecting "/tmp/photo.JPG" Demo.started).2)
    = ["https://www.kimi.com/api/pre-sign-url"; "https://store.example/put"].
Proof.
  pose proof (failed_put_stops_the_pipeline Demo.rejecting Demo.started
                Demo.started 0 "/tmp/photo.JPG"
                (Demo.ok_response
                   (Py.dq "{'url':'https://store.example/put','object_name':'obj/1','file_id':'f0'}") [])
                Demo.denied
                (JObj [("url", JStr "https://store.example/put");
                       ("object_name", JStr "obj/1"); ("file_id", JStr "f0")])
                "https://store.example/put" "bytes of the file"
                eq_refl eq_refl eq_refl eq_refl eq_refl eq_refl eq_refl eq_refl
                eq_refl ltac:(right; by vm_compute)) as (H1 & H2 & _).
  split; [exact H1|]. rewrite H2. reflexivity.
Defined.

(* ===================================================================== *)
(** * Further properties *)
(* ===================================================================== *)

Import Laws.

(** ** Initialization and closing *)

Section Lifecycle.
Context (W : World).

(** [_initialize_session] on an engine that is not initialized, in full. *)
Lemma initialize_run (st : State) :
  _is_initialized (engine st) = false →
  let self := engine st in
  let n := List.length (heap st) in
  let s0 := built_session W self n in
  _initialize_session W st =
    if negb (path_exists W (cookies_path self)) then
      (Raise (AuthenticationError
                ("Cookie file not found at: " +:+ cookies_path self) None),
       mkState (with_session (Some n) self) (heap st ++ [s0]) (trace st))
    else
      match cookie_file W (cookies_path self) with
      | inl e =>
          (Raise (AuthenticationError
                    ("Failed to load or process cookies: " +:+ str e) (Some e)),
           mkState (with_session (Some n) self) (heap st ++ [s0]) (trace st))
      | inr entries =>
          let s1 := with_cookies (loaded entries) s0 in
          match Cookies.get (loaded entries) "kimi-auth" with
          | Raise x =>
              (Raise (AuthenticationError
                        ("Failed to load or process cookies: " +:+ str x)
                        (Some x)),
               mkState (with_session (Some n) self) (heap st ++ [s1]) (trace st))
          | Ok auth_token =>
              if falsy auth_token then
                (Raise token_missing,
                 mkState (with_session (Some n) self) (heap st ++ [s1])
                         (trace st))
              else
                (Ok tt,
                 mkState (with_initialized true (with_session (Some n) self))
                         (heap st ++
                            [with_headers
                               (<["Authorization" :=
                                    "Bearer " +:+ default "" auth_token]>
                                  (headers s0)) s1])
                         (trace st))
          end
      end.
Proof.
  intros Hi self n s0. subst self n s0.
  unfold _initialize_session, _load_cookies, built_session. run. rewrite Hi.
  destruct (random_ids W _) as [[d s] t]. run.
  destruct (path_exists W _); cbn [negb]; [|reflexivity].
  destruct (cookie_file W _) as [e|entries]; run; [reflexivity|].
  rewrite !alter_last, session_at_last. cbn [cookies with_cookies].
  fold (loaded entries).
  destruct (Cookies.get (loaded entries) "kimi-auth") as [v|x]; [|reflexivity].
  destruct (falsy v); [reflexivity|].
  cbn [heap]. by rewrite alter_last.
Qed.

(** X1.  An initialization that succeeded leaves the engine marked initialized,
    and initializing it again does nothing: same result, same state, no second
    session object. *)
Theorem initialization_happens_once (st st1 : State) :
  _initialize_session W st = (Ok tt, st1) →
  _is_initialized (engine st1) = true
  ∧ _initialize_session W st1 = (Ok tt, st1).
Proof.
  intros H.
  assert (_is_initialized (engine st1) = true) as Hi1.
  { destruct (_is_initialized (engine st)) eqn:Hi.
    - unfold _initialize_session in H. revert H. run. rewrite Hi.
      by intros [= <-].
    - rewrite (initialize_run st Hi) in H. cbv zeta in H.
      destruct (negb _); [done|]. destruct (cookie_file W _); [done|].
      destruct (Cookies.get _ _) as [v|x]; [|done].
      destruct (falsy v); [done|]. by injection H as <-. }
  split; [exact Hi1|]. unfold _initialize_session. run. by rewrite Hi1.
Qed.

Lemma default_headers_no_authorization (d s t : string) :
  default_headers d s t !! "Authorization" = None.
Proof. reflexivity. Qed.

Lemma initialize_failure (st st1 : State) (e : exn) :
  _initialize_session W st = (Raise e, st1) →
  (∃ msg cause, e = AuthenticationError msg cause)
  ∧ trace st1 = trace st
  ∧ _is_initialized (engine st1) = false.
Proof.
  intros H. destruct (_is_initialized (engine st)) eqn:Hi.
  { unfold _initialize_session in H. revert H. run. by rewrite Hi. }
  rewrite (initialize_run st Hi) in H. cbv zeta in H.
  destruct (negb _).
  { injection H as <- <-. split; [by eexists _, _|]. by split. }
  destruct (cookie_file W _) as [x|entries].
  { injection H as <- <-. split; [by eexists _, _|]. by split. }
  destruct (Cookies.get _ _) as [v|x].
  - destruct (falsy v); [|done].
    injection H as <- <-. split; [by eexists _, _|]. by split.
  - injection H as <- <-. split; [by eexists _, _|]. by split.
Qed.

(** X2.  Whatever makes [_initialize_session] fail, what it raises is an
    [AuthenticationError]; no call has been made on a session object and the
    engine is still not marked initialized. *)
Theorem initialization_fails_only_with_AuthenticationError
    (st st1 : State) (e : exn) :
  _initialize_session W st = (Raise e, st1) →
  (∃ msg cause, e = AuthenticationError msg cause)
  ∧ trace st1 = trace st
  ∧ _is_initialized (engine st1) = false.
Proof. apply initialize_failure. Qed.

(** X3.  Every initialization attempt on an engine that is not initialized
    creates one new session object, leaves it open and makes it the engine's
    session, also when the attempt fails; the session objects that existed
    before are all still there, none of them closed by the attempt. *)
Theorem every_attempt_builds_a_session (st : State) :
  _is_initialized (engine st) = false →
  ∃ s, heap (_initialize_session W st).2 = heap st ++ [s]
       ∧ closed s = false
       ∧ session (engine (_initialize_session W st).2)
         = Some (List.length (heap st)).
Proof.
  intros Hi. rewrite (initialize_run st Hi). cbv zeta.
  assert (closed (built_session W (engine st) (List.length (heap st))) = false)
    as Hc.
  { unfold built_session. by destruct (random_ids W _) as [[d s] t]. }
  destruct (negb _); [by eexists|].
  destruct (cookie_file W _) as [x|entries]; [by eexists|].
  destruct (Cookies.get _ _) as [v|x]; [|by eexists].
  destruct (falsy v); by eexists.
Qed.

(** X4.  After an initialization that failed for want of a token, the engine
    holds the session object the attempt built, without [Authorization]: the
    first [_make_request] raises the authentication error and sends nothing,
    and the next one skips the initialization and sends its request on that
    session object, with the transport's answer as outcome. *)
Theorem request_after_failed_initialization (st : State)
    (entries : list Cookiejar.Cookie) (auth_token : option string)
    (method url : string) (kwargs : body) :
  session (engine st) = None →
  _is_initialized (engine st) = false →
  path_exists W (cookies_path (engine st)) = true →
  cookie_file W (cookies_path (engine st)) = inr entries →
  Cookies.get (loaded entries) "kimi-auth" = Ok auth_token →
  falsy auth_token = true →
  let first := _make_request W method url kwargs st in
  let new := List.length (heap st) in
  let rq := plain_request method url kwargs new in
  let second := _make_request W method url kwargs first.2 in
  first.1 = Raise token_missing
  ∧ trace first.2 = trace st
  ∧ session (engine first.2) = Some new
  ∧ headers (session_at first.2 new) !! "Authorization" = None
  ∧ trace second.2 = trace st ++ [rq]
  ∧ second.1 = match send W (session_at first.2 new) (trace st) rq with
               | Replied r =>
                   if status_ok r then Ok r
                   else Raise (request_error (http_error r))
               | Failed e => Raise (request_error e)
               end.
Proof.
  intros Hs Hi He Hj Hg Hf first new rq second.
  pose proof (initialize_run st Hi) as Hrun. cbv zeta in Hrun.
  rewrite He, Hj, Hg, Hf in Hrun. cbn [negb] in Hrun.
  set (st1 := mkState _ _ _) in Hrun.
  assert (first = (Raise token_missing, st1)) as Hfirst.
  { apply make_request_unprepared. unfold prepared. by rewrite Hs. }
  assert (session_at st1 new = with_cookies (loaded entries)
            (built_session W (engine st) (List.length (heap st)))) as Hat
    by apply session_at_last.
  assert (second = match send W (session_at st1 new) (trace st) rq with
                   | Replied r =>
                       if status_ok r then (Ok r, sent W st1 rq)
                       else (Raise (request_error (http_error r)), sent W st1 rq)
                   | Failed e => (Raise (request_error e), sent W st1 rq)
                   end) as Hsecond.
  { subst second. rewrite Hfirst. cbn [snd].
    by rewrite (make_request_spec W method url kwargs st1 st1 new). }
  rewrite Hfirst. cbn [fst snd]. split; [done|]. split; [done|].
  split; [done|]. split.
  { rewrite Hat. unfold built_session.
    by destruct (random_ids W _) as [[d s] t]. }
  rewrite Hsecond.
  destruct (send W _ _ _) as [r|e]; [destruct (status_ok r)|]; by split.
Qed.

(** X5.  A [kimi-auth] cookie whose value is empty counts as no token: when
    the cookie store returns the empty string for it, and in particular when
    the only line of the cookie file that sets [kimi-auth] gives it an empty
    value, or none, the initialization raises the same
    [AuthenticationError] as for a missing cookie, and sends nothing. *)
Theorem empty_token_is_no_token (st : State) (entries : list Cookiejar.Cookie) :
  _is_initialized (engine st) = false →
  path_exists W (cookies_path (engine st)) = true →
  cookie_file W (cookies_path (engine st)) = inr entries →
  let out := _initialize_session W st in
  (Cookies.get (loaded entries) "kimi-auth" = Ok (Some "") →
     out.1 = Raise token_missing ∧ trace out.2 = trace st)
  ∧ (∀ c, c ∈ entries →
          Cookiejar.name c = "kimi-auth" →
          (∀ c', c' ∈ entries → Cookiejar.name c' = "kimi-auth" → c' = c) →
          Cookiejar.value c = Some "" ∨ Cookiejar.value c = None →
          out.1 = Raise token_missing ∧ trace out.2 = trace st).
Proof.
  intros Hi He Hj out. subst out. rewrite (initialize_run st Hi). cbv zeta.
  rewrite He, Hj. cbn [negb]. split.
  - by intros ->.
  - intros c Hin Hn Hall Hv.
    rewrite (get_loaded_only entries c "kimi-auth" Hn Hin Hall).
    by destruct Hv as [-> | ->].
Qed.

(** X6.  When the cookie file exists but the cookie-jar loader raises, the
    initialization raises [AuthenticationError] with the loader's exception as
    cause and its text in the message; nothing is sent and the new session
    object has no cookie. *)
Theorem unreadable_cookie_file_is_an_authentication_failure (st : State)
    (x : exn) :
  _is_initialized (engine st) = false →
  path_exists W (cookies_path (engine st)) = true →
  cookie_file W (cookies_path (engine st)) = inl x →
  (_initialize_session W st).1
  = Raise (AuthenticationError
             ("Failed to load or process cookies: " +:+ str x) (Some x))
  ∧ trace (_initialize_session W st).2 = trace st
  ∧ cookies (session_at (_initialize_session W st).2 (List.length (heap st)))
    = Cookiejar.empty.
Proof.
  intros Hi He Hj. rewrite (initialize_run st Hi). cbv zeta.
  rewrite He, Hj. cbn [negb fst snd]. split; [done|]. split; [done|].
  rewrite session_at_last. unfold built_session.
  by destruct (random_ids W _) as [[d s] t].
Qed.

(** X7.  After an initialization for which the cookie store returns a
    non-empty [kimi-auth] value, the engine's session object has the
    engine's impersonation profile, timeout and proxies and is open; its
    cookie store is the one the cookie file was loaded into, which holds
    only cookies of the file; its headers are the eleven fixed ones, with
    the three identifiers drawn for it, and [Authorization], twelve in
    all. *)
Theorem initialized_session_is_configured (st : State)
    (entries : list Cookiejar.Cookie) (tok : string) :
  _is_initialized (engine st) = false →
  path_exists W (cookies_path (engine st)) = true →
  cookie_file W (cookies_path (engine st)) = inr entries →
  Cookies.get (loaded entries) "kimi-auth" = Ok (Some tok) →
  tok ≠ "" →
  let n := List.length (heap st) in
  let s := session_at (_initialize_session W st).2 n in
  let device_id := (random_ids W n).1.1 in
  let session_id := (random_ids W n).1.2 in
  let traffic_id := (random_ids W n).2 in
  impersonate s = _impersonate (engine st)
  ∧ timeout s = _timeout (engine st)
  ∧ proxies s = _proxies (engine st)
  ∧ closed s = false
  ∧ cookies s = loaded entries
  ∧ (∀ c, c ∈ Cookiejar.deepvalues (cookies s) → c ∈ entries)
  ∧ ∀ k v,
      headers s !! k = Some v ↔
      (k, v) ∈
        [ ("Accept", "application/json, text/plain, */*");
          ("Accept-Language", "ru-RU,ru;q=0.9,en-US;q=0.8");
          ("Content-Type", "application/json");
          ("Origin", "https://www.kimi.com");
          ("Referer", "https://www.kimi.com/");
          ("User-Agent", "Mozilla/5.0 (Windows NT 10.0; Win64; x64) AppleWebKit/537.36 (KHTML, like Gecko) Chrome/124.0.0.0 Safari/537.36");
          ("X-Language", "en-US");
          ("X-Msh-Platform", "web");
          ("x-msh-device-id", device_id);
          ("x-msh-session-id", session_id);
          ("x-traffic-id", traffic_id);
          ("Authorization", "Bearer " +:+ tok) ].
Proof.
  intros Hi He Hj Ht Hne n s device_id session_id traffic_id.
  subst n s device_id session_id traffic_id.
  rewrite (initialize_run st Hi). cbv zeta.
  rewrite He, Hj, Ht, (falsy_token tok Hne). cbn [negb snd].
  rewrite session_at_last. unfold built_session.
  destruct (random_ids W _) as [[d s] t].
  cbn [impersonate timeout proxies closed cookies headers with_headers
       with_cookies fst snd default].
  split; [done|]. split; [done|]. split; [done|]. split; [done|].
  split; [done|]. split.
  { intros c Hc. unfold loaded, Cookies.update in Hc.
    apply foldl_set_cookie_from in Hc as [Hc|Hc]; [|by apply elem_of_nil in Hc].
    by apply foldl_set_cookie_from in Hc as [Hc|Hc]; [|by apply elem_of_nil in Hc]. }
  intros k v. unfold default_headers.
  rewrite <- list_to_map_cons, <- elem_of_list_to_map.
  - rewrite !elem_of_cons, elem_of_nil. tauto.
  - cbn [fmap list_fmap fst].
    match goal with
    | |- NoDup ?l => apply (bool_decide_unpack (NoDup l)); by vm_compute
    end.
Qed.

(** X8.  [close] never raises and sends nothing; closing twice is closing once,
    and closing an engine that holds no session changes nothing. *)
Theorem closing_twice_is_closing_once (st : State) :
  (close;; close) st = close st
  ∧ trace (close st).2 = trace st
  ∧ (close st).1 = Ok tt
  ∧ (session (engine st) = None → close st = (Ok tt, st)).
Proof.
  unfold close. run. destruct (session (engine st)) as [sid|] eqn:Hs; run.
  - done.
  - rewrite Hs. done.
Qed.

(** X9.  Entering and leaving the context manager on a fresh engine restores
    the engine object to what it was (no session, not initialized, same
    configuration); nothing was sent, and the one session object created is
    closed. *)
Theorem open_then_close_restores_the_engine (st st1 : State) :
  session (engine st) = None →
  _is_initialized (engine st) = false →
  __aenter__ W st = (Ok tt, st1) →
  ∃ st2, __aexit__ st1 = (Ok tt, st2)
         ∧ engine st2 = engine st
         ∧ trace st2 = trace st
         ∧ List.length (heap st2) = S (List.length (heap st))
         ∧ closed (session_at st2 (List.length (heap st))) = true.
Proof.
  intros Hs Hi H. unfold __aenter__ in H.
  rewrite (initialize_run st Hi) in H. cbv zeta in H.
  destruct (negb _); [done|]. destruct (cookie_file W _) as [x|jar]; [done|].
  destruct (Cookies.get _ _) as [v|x]; [|done].
  destruct (falsy v); [done|]. injection H as <-.
  unfold __aexit__, close. run. eexists. split; [reflexivity|].
  split.
  { destruct (engine st); cbn in *. by subst. }
  split; [done|]. split.
  { cbn [heap]. by rewrite length_alter, length_app, Nat.add_comm. }
  unfold session_at. cbn [heap]. by rewrite alter_last, list_lookup_middle.
Qed.

End Lifecycle.

(** ** What the operations leave as it is *)

Section Respect.
Context (R : State → State → Prop) `{!PreOrder R}.

Lemma respects_still {A} (m : M A) :
  (∀ st, (m st).2 = st) → respects R m.
Proof. intros H st. by rewrite H. Qed.

Lemma respects_bind {A B} (m : M A) (f : A → M B) :
  respects R m → (∀ a, respects R (f a)) → respects R (m ≫= f).
Proof.
  intros Hm Hf st. unfold mbind, M_bind. specialize (Hm st).
  destruct (m st) as [[a|e] st1]; [|exact Hm].
  etrans; [exact Hm|]. apply Hf.
Qed.

Lemma respects_try {A} (body : M A) (handler : exn → M A) :
  respects R body → (∀ e, respects R (handler e)) →
  respects R (try_except body handler).
Proof.
  intros Hm Hf st. unfold try_except. specialize (Hm st).
  destruct (body st) as [[a|e] st1]; [exact Hm|].
  etrans; [exact Hm|]. apply Hf.
Qed.

End Respect.

Lemma respects_ret_bind {A B} (R : State → State → Prop) (a : A) (f : A → M B) :
  respects R (f a) → respects R (mret a ≫= f).
Proof. intros H st. apply H. Qed.

Global Instance unchanged_for_preorder (sid0 : nat) : PreOrder (unchanged_for sid0).
Proof.
  split.
  - intros st _. split; [done|]. split; [done|]. intros sid s Hs.
    exists (cookies s). by rewrite with_cookies_same.
  - intros st1 st2 st3 H12 H23 Hs. destruct (H12 Hs) as (He & Hl & Hh).
    destruct H23 as (He' & Hl' & Hh'); [by rewrite He|].
    split; [congruence|]. split; [congruence|].
    intros sid s Hsid. destruct (Hh sid s Hsid) as (jar & H2 & Hj).
    destruct (Hh' sid _ H2) as (jar' & H3 & Hj'). exists jar'. split.
    + rewrite H3. by destruct s.
    + intros Hne. rewrite (Hj' Hne). cbn. by apply Hj.
Qed.

Global Instance keeps_closed_preorder : PreOrder keeps_closed.
Proof.
  split.
  - intros st sid s Hs. by exists s.
  - intros st1 st2 st3 H12 H23 sid s Hs.
    destruct (H12 sid s Hs) as (s2 & Hs2 & Hc2).
    destruct (H23 sid s2 Hs2) as (s3 & Hs3 & Hc3).
    exists s3. split; [done|]. auto.
Qed.

(** A computation that starts by reading the engine object may take the
    session it holds for the one named. *)
Lemma unchanged_get_engine {A} (sid0 : nat) (k : KimiAIEngine → M A) :
  (∀ self, session self = Some sid0 → respects (unchanged_for sid0) (k self)) →
  respects (unchanged_for sid0) (get_engine ≫= k).
Proof. intros H st Hs. exact (H (engine st) Hs st Hs). Qed.

(** Follows the binds of a computation down to its primitive steps. *)
Ltac descend :=
  repeat match goal with
         | |- respects (unchanged_for _) (@mbind _ _ _ _ _ get_engine) =>
             refine (unchanged_get_engine _ _ _); intros ? ?
         | H : session ?self = Some _
           |- respects _ (@mbind _ _ _ _ _ (deref (session ?self) _)) =>
             rewrite H; refine (respects_ret_bind _ _ _ _)
         | |- respects _ (@mbind _ _ _ _ _ _) => refine (respects_bind _ _ _ _ _); [|intros ?]
         | |- respects _ (try_except _ _) => refine (respects_try _ _ _ _ _); [|intros ?]
         | |- respects _ (@mret _ _ _ _) => refine (respects_still _ _ _); intros ?; reflexivity
         | |- respects _ (raise _) => refine (respects_still _ _ _); intros ?; reflexivity
         | |- respects _ get_engine => refine (respects_still _ _ _); intros ?; reflexivity
         | |- respects _ session_count =>
             refine (respects_still _ _ _); intros ?; reflexivity
         | |- respects _ (read_session _) =>
             refine (respects_still _ _ _); intros ?; reflexivity
         | |- respects _ (of_result _) =>
             refine (respects_still _ _ _); intros ?; reflexivity
         | |- respects _ (of_sum ?x) =>
             refine (respects_still _ _ _); intros ?; by destruct x
         | |- respects _ (deref ?o _) =>
             refine (respects_still _ _ _); intros ?; by destruct o
         | |- respects _ (raise_for_status ?r) =>
             refine (respects_still _ _ _); intros ?; unfold raise_for_status;
             by destruct (status_ok r)
         end.

Section Unchanged.
Context (W : World).

Lemma session_request_state (rq : Request) (st : State) :
  (session_request W rq st).2 = sent W st rq.
Proof. unfold session_request. by destruct (send W _ _ _). Qed.

(** A call touches the cookie store of the session object it is made on,
    and nothing else. *)
Lemma sent_only_cookies (st : State) (rq : Request) :
  only_cookies_of (via rq) st (sent W st rq).
Proof.
  split; [apply length_alter|]. intros sid s Hs. cbn [sent heap].
  destruct (decide (sid = via rq)) as [->|Hne].
  - rewrite list_lookup_alter_eq, Hs. by eexists.
  - rewrite list_lookup_alter_ne, Hs by done. exists (cookies s).
    by rewrite with_cookies_same.
Qed.

Lemma unchanged_session_request (rq : Request) :
  respects (unchanged_for (via rq)) (session_request W rq).
Proof.
  intros st _. rewrite session_request_state. split; [done|].
  apply sent_only_cookies.
Qed.

Lemma unchanged_session_put (sid : nat) (target : json) (data : string) :
  respects (unchanged_for sid) (session_put W sid target data).
Proof.
  unfold session_put. destruct target; descend;
    try (destruct (closed _); descend).
  apply (unchanged_session_request (mkRequest "PUT" s (DataBody data) false sid)).
Qed.

Lemma unchanged_make_request (sid0 : nat) (method url : string) (kwargs : body) :
  respects (unchanged_for sid0) (_make_request W method url kwargs).
Proof.
  intros st Hs.
  rewrite (make_request_spec W method url kwargs st st sid0); cbv zeta.
  - assert (engine (sent W st (plain_request method url kwargs sid0)) = engine st
            ∧ only_cookies_of sid0 st
                (sent W st (plain_request method url kwargs sid0))) as H.
    { split; [done|]. apply (sent_only_cookies st (plain_request _ _ _ sid0)). }
    destruct (send W _ _ _) as [r|e]; [destruct (status_ok r)|]; exact H.
  - unfold prepared. by rewrite Hs.
  - done.
Qed.

Lemma unchanged_create_chat (sid0 : nat) (name : string) :
  respects (unchanged_for sid0) (create_chat W name).
Proof.
  unfold create_chat, response_json. descend. apply unchanged_make_request.
Qed.

Lemma unchanged_upload_file (sid0 : nat) (file_path : string) :
  respects (unchanged_for sid0) (upload_file W file_path).
Proof.
  unfold upload_file. destruct (negb _); descend.
  unfold upload_steps, response_json. descend.
  all: try apply unchanged_make_request.
  - apply unchanged_session_put.
  - destruct (String.eqb _ _); descend.
    apply (unchanged_session_request
             (mkRequest "POST" _ (JsonBody _) false sid0)).
Qed.

End Unchanged.

Section StaysClosed.
Context (W : World).

Lemma keeps_closed_same_heap {A} (m : M A) :
  (∀ st, heap (m st).2 = heap st) → respects keeps_closed m.
Proof. intros H st sid s Hs. exists s. by rewrite H. Qed.

Lemma keeps_closed_new_session (s : AsyncSession) :
  respects keeps_closed (new_session s).
Proof.
  intros st sid s0 Hs. exists s0. split; [|done]. cbn.
  rewrite lookup_app_l; [done|]. by eapply lookup_lt_Some.
Qed.

Lemma keeps_closed_update_session (sid : nat) (f : AsyncSession → AsyncSession) :
  (∀ s, closed s = true → closed (f s) = true) →
  respects keeps_closed (update_session sid f).
Proof.
  intros Hf st i s Hs. cbn. destruct (decide (sid = i)) as [->|Hne].
  - exists (f s). rewrite list_lookup_alter_eq, Hs. split; [done|]. apply Hf.
  - exists s. by rewrite list_lookup_alter_ne.
Qed.

Lemma keeps_closed_set_engine (f : KimiAIEngine → KimiAIEngine) :
  respects keeps_closed (set_engine f).
Proof. by apply keeps_closed_same_heap. Qed.

Lemma keeps_closed_session_request (rq : Request) :
  respects keeps_closed (session_request W rq).
Proof.
  intros st sid s Hs. rewrite session_request_state.
  destruct (sent_only_cookies W st rq) as [_ H].
  destruct (H sid s Hs) as (jar & -> & _). by eexists.
Qed.

Lemma keeps_closed_session_put (sid : nat) (target : json) (data : string) :
  respects keeps_closed (session_put W sid target data).
Proof.
  unfold session_put. destruct target; descend;
    try (destruct (closed _); descend).
  apply keeps_closed_session_request.
Qed.

Lemma keeps_closed_load_cookies : respects keeps_closed (_load_cookies W).
Proof.
  unfold _load_cookies. descend. destruct (negb _); descend.
  - by apply keeps_closed_update_session.
  - destruct (falsy _); descend. by apply keeps_closed_update_session.
Qed.

Lemma keeps_closed_initialize : respects keeps_closed (_initialize_session W).
Proof.
  unfold _initialize_session. descend. destruct (_is_initialized _); descend.
  destruct (random_ids W _) as [[d s] t]. descend.
  - apply keeps_closed_new_session.
  - apply keeps_closed_set_engine.
  - apply keeps_closed_load_cookies.
  - apply keeps_closed_set_engine.
Qed.

Lemma keeps_closed_make_request (method url : string) (kwargs : body) :
  respects keeps_closed (_make_request W method url kwargs).
Proof.
  unfold _make_request. descend.
  - destruct (session _); descend. apply keeps_closed_initialize.
  - apply keeps_closed_session_request.
  - destruct e; descend.
Qed.

Lemma keeps_closed_close : respects keeps_closed close.
Proof.
  unfold close. descend. destruct (session _); descend.
  - by apply keeps_closed_update_session.
  - apply keeps_closed_set_engine.
  - apply keeps_closed_set_engine.
Qed.

Lemma keeps_closed_create_chat (name : string) :
  respects keeps_closed (create_chat W name).
Proof.
  unfold create_chat, response_json. descend. apply keeps_closed_make_request.
Qed.

Lemma keeps_closed_upload_file (file_path : string) :
  respects keeps_closed (upload_file W file_path).
Proof.
  unfold upload_file. destruct (negb _); descend.
  unfold upload_steps, response_json. descend.
  all: try apply keeps_closed_make_request.
  - apply keeps_closed_session_put.
  - destruct (String.eqb _ _); descend. apply keeps_closed_session_request.
Qed.

End StaysClosed.

(** X10.  Once the engine holds a session, [_make_request], [create_chat] and
    [upload_file] leave the engine object as it is and create, lose, close or
    reopen no session object, whatever the transport answers: of every
    session object the profile, the timeout, the proxies, the headers and the
    closed flag stay as initialization left them, and the only thing that may
    differ afterwards is the cookie store of the engine's session, which the
    transport updates from the responses. *)
Theorem requests_leave_engine_and_sessions_as_they_are (W : World) :
  (∀ method url kwargs, respects unchanged (_make_request W method url kwargs))
  ∧ (∀ name, respects unchanged (create_chat W name))
  ∧ (∀ file_path, respects unchanged (upload_file W file_path)).
Proof.
  split; [|split]; intros; intros st sid0.
  - apply unchanged_make_request.
  - apply unchanged_create_chat.
  - apply unchanged_upload_file.
Qed.

(** X11.  No operation of the engine removes a session object or reopens one
    that is closed: from before to after [_initialize_session],
    [_make_request], [create_chat], [upload_file] and [close], every session
    object is still there, and closed if it was closed. *)
Theorem closed_sessions_stay_closed (W : World) :
  respects keeps_closed (_initialize_session W)
  ∧ (∀ method url kwargs, respects keeps_closed (_make_request W method url kwargs))
  ∧ (∀ name, respects keeps_closed (create_chat W name))
  ∧ (∀ file_path, respects keeps_closed (upload_file W file_path))
  ∧ respects keeps_closed close.
Proof.
  split; [apply keeps_closed_initialize|].
  split; [apply keeps_closed_make_request|].
  split; [apply keeps_closed_create_chat|].
  split; [apply keeps_closed_upload_file|apply keeps_closed_close].
Qed.

(** ** How many calls an operation makes *)

Section Calls.
Context (W : World).

Lemma calls_still {A} (n : nat) (m : M A) :
  (∀ st, trace (m st).2 = trace st) → calls_at_most n m.
Proof.
  intros H st. exists []. rewrite H, app_nil_r. split; [done|]. cbn. lia.
Qed.

Lemma calls_bind {A B} (a b n : nat) (m : M A) (f : A → M B) :
  a + b ≤ n →
  calls_at_most a m → (∀ x, calls_at_most b (f x)) →
  calls_at_most n (m ≫= f).
Proof.
  intros Hn Hm Hf st. unfold mbind, M_bind.
  destruct (Hm st) as (e1 & H1 & L1).
  destruct (m st) as [[x|e] st1]; cbn [snd] in *.
  - destruct (Hf x st1) as (e2 & H2 & L2). exists (e1 ++ e2).
    rewrite H2, H1, app_assoc, length_app. split; [done|]. lia.
  - exists e1. split; [done|]. lia.
Qed.

Lemma calls_try {A} (a b n : nat) (body : M A) (handler : exn → M A) :
  a + b ≤ n →
  calls_at_most a body → (∀ e, calls_at_most b (handler e)) →
  calls_at_most n (try_except body handler).
Proof.
  intros Hn Hm Hf st. unfold try_except.
  destruct (Hm st) as (e1 & H1 & L1).
  destruct (body st) as [[x|e] st1]; cbn [snd] in *.
  - exists e1. split; [done|]. lia.
  - destruct (Hf e st1) as (e2 & H2 & L2). exists (e1 ++ e2).
    rewrite H2, H1, app_assoc, length_app. split; [done|]. lia.
Qed.

Lemma calls_session_request (rq : Request) :
  calls_at_most 1 (session_request W rq).
Proof.
  intros st. exists [rq]. unfold session_request.
  by destruct (send W _ _ _).
Qed.

End Calls.

(** A step that sends nothing. *)
Ltac silent :=
  refine (calls_still _ _ _); intros ?;
  solve [ reflexivity
        | match goal with
          | |- context [of_sum ?x] => by destruct x
          | |- context [deref ?o _] => by destruct o
          | |- context [raise_for_status ?r] =>
              unfold raise_for_status; by destruct (status_ok r)
          end ].

(** Follows the binds, giving each step none of the calls when it is silent
    and one of them otherwise. *)
Ltac count :=
  repeat match goal with
         | |- calls_at_most ?n (@mbind _ _ _ _ _ _) =>
             first [ refine (calls_bind 0 n n _ _ _ _ _); [lia|silent|intros ?]
                   | match n with
                     | S ?k => refine (calls_bind 1 k n _ _ _ _ _);
                               [lia| |intros ?]
                     end ]
         | |- calls_at_most _ (@mret _ _ _ _) => silent
         | |- calls_at_most _ (raise _) => silent
         | |- calls_at_most _ (of_result _) => silent
         | |- calls_at_most _ (raise_for_status _) => silent
         end.

Section Bounds.
Context (W : World).

Lemma initialize_is_silent : calls_at_most 0 (_initialize_session W).
Proof. apply calls_still. apply initialize_trace. Qed.

Lemma calls_make_request (method url : string) (kwargs : body) :
  calls_at_most 1 (_make_request W method url kwargs).
Proof.
  unfold _make_request.
  refine (calls_bind 0 1 1 _ _ _ _ _); [lia|silent|intros self].
  refine (calls_bind 0 1 1 _ _ _ _ _); [lia| |intros _].
  { destruct (session self); [silent|apply initialize_is_silent]. }
  refine (calls_try 1 0 1 _ _ _ _ _); [lia| |intros e].
  - count. apply calls_session_request.
  - destruct e; silent.
Qed.

Lemma calls_session_put (sid : nat) (target : json) (data : string) :
  calls_at_most 1 (session_put W sid target data).
Proof.
  unfold session_put.
  destruct target; try apply calls_session_request;
    (refine (calls_bind 0 1 1 _ _ _ _ _); [lia|silent|intros s0];
     destruct (closed s0); silent).
Qed.

Lemma calls_create_chat (name : string) :
  calls_at_most 1 (create_chat W name).
Proof.
  unfold create_chat, response_json. count. apply calls_make_request.
Qed.

Lemma calls_upload_file (file_path : string) :
  calls_at_most 4 (upload_file W file_path).
Proof.
  unfold upload_file. destruct (negb _); [silent|].
  refine (calls_try 4 0 4 _ _ _ _ _); [lia| |intros e; silent].
  unfold upload_steps, response_json. count.
  - apply calls_make_request.
  - apply calls_session_put.
  - apply calls_make_request.
  - destruct (String.eqb _ _); [|silent]. count. apply calls_session_request.
Qed.

Lemma close_is_silent : calls_at_most 0 close.
Proof. apply calls_still. intros st. unfold close. run. by destruct (session _). Qed.

End Bounds.

(** X12.  No operation retries: [_make_request] and [create_chat] make at most
    one call on a session object, [upload_file] at most four, and
    [_initialize_session] and [close] none, whatever the outcome; calls already
    made are never taken back. *)
Theorem no_operation_sends_twice (W : World) :
  calls_at_most 0 (_initialize_session W)
  ∧ (∀ method url kwargs, calls_at_most 1 (_make_request W method url kwargs))
  ∧ (∀ name, calls_at_most 1 (create_chat W name))
  ∧ (∀ file_path, calls_at_most 4 (upload_file W file_path))
  ∧ calls_at_most 0 close.
Proof.
  split; [apply initialize_is_silent|].
  split; [apply calls_make_request|].
  split; [apply calls_create_chat|].
  split; [apply calls_upload_file|apply close_is_silent].
Qed.

(** ** What a request may raise *)

Section Failures.
Context (W : World).





(** X27.  [_make_request] returns every response whose status is from 200 to
    399 as it is: a 3xx response that the transport hands over is a result,
    not an [APIError]. *)
Theorem response_below_400_is_returned (method url : string) (kwargs : body)
    (st st0 : State) (sid : nat) (r : Response) :
  prepared W st = (Ok tt, st0) →
  session (engine st0) = Some sid →
  send W (session_at st0 sid) (trace st0) (plain_request method url kwargs sid)
  = Replied r →
  (200 ≤ status_code r < 400)%Z →
  _make_request W method url kwargs st
  = (Ok r, sent W st0 (plain_request method url kwargs sid)).
Proof.
  intros Hp Hs Hsend Hst.
  rewrite (make_request_spec W method url kwargs st st0 sid Hp Hs). cbv zeta.
  by rewrite Hsend, (status_ok_true r Hst).
Qed.


(** X15.  [create_chat] does not translate what goes wrong after the response
    has arrived: when the body of the accepted response is not JSON the decoder's
    exception comes out as it is, and when it is JSON but not an object what
    comes out is [AttributeError]; in both cases the request was sent. *)
Theorem create_chat_lets_decoding_errors_through (name : string)
    (st st0 : State) (sid : nat) (r : Response) :
  prepared W st = (Ok tt, st0) →
  session (engine st0) = Some sid →
  let rq := plain_request "POST" (base_url (engine st) +:+ "/chat")
              (JsonBody (chat_payload name)) sid in
  send W (session_at st0 sid) (trace st0) rq = Replied r →
  status_ok r = true →
  (∀ x, json_loads W (text r) = inl x →
        create_chat W name st = (Raise x, sent W st0 rq))
  ∧ (∀ v, json_loads W (text r) = inr v → (∀ ms, v ≠ JObj ms) →
          create_chat W name st
          = (Raise (Builtin "AttributeError"
                      ("'" +:+ Value.type_name v
                       +:+ "' object has no attribute 'get'")),
             sent W st0 rq)).
Proof.
  intros Hp Hs rq Hsend Hok. split.
  - intros x Hj. unfold create_chat.
    unfold mbind at 1, M_bind at 1, get_engine at 1.
    unfold mbind at 1, M_bind at 1.
    rewrite (make_request_spec W _ _ _ st st0 sid Hp Hs). cbv zeta.
    fold rq. rewrite Hsend, Hok. unfold response_json. rewrite Hj. by run.
  - intros v Hj Hv.
    rewrite (create_chat_spec W name st st0 sid r v Hp Hs Hsend Hok Hj).
    destruct v; try reflexivity. by destruct (Hv members).
Qed.

(** X16.  A chat created on an engine that holds a session refers to that very
    session object and has the engine's base URL, and the engine still holds
    the same session afterwards: chats created one after the other share one
    session object. *)
Theorem chats_share_the_session_of_the_engine (name : string) (st st' : State)
    (sid : nat) (c : KimiChat) :
  session (engine st) = Some sid →
  create_chat W name st = (Ok c, st') →
  _session c = Some sid
  ∧ _base_url c = base_url (engine st)
  ∧ session (engine st') = Some sid.
Proof.
  intros Hs H.
  assert (prepared W st = (Ok tt, st)) as Hp by (unfold prepared; by rewrite Hs).
  pose proof (create_chat_error W name st st sid Hp Hs) as He.
  cbv zeta in He.
  destruct (send W _ _ _) as [r|x] eqn:Hsend;
    [|by rewrite H in He].
  destruct (status_ok r) eqn:Hok; [|by rewrite H in He]. clear He.
  revert H. unfold create_chat.
  unfold mbind at 1, M_bind at 1, get_engine at 1.
  unfold mbind at 1, M_bind at 1.
  rewrite (make_request_spec W _ _ _ st st sid Hp Hs). cbv zeta.
  rewrite Hsend, Hok. unfold response_json.
  destruct (json_loads W (text r)) as [x|data]; run; [done|].
  destruct (Value.get data "id" JNull); [|done].
  cbn [sent engine]. rewrite Hs. by intros [= <- <-].
Qed.

End Failures.

(** ** How a stream ends *)

Section Streams.
Context (W : World).



Lemma decode_lines_dies (before after : list string) (l : string) (x : exn)
    (e : stream_end) :
  Forall (λ l, line_aborts W l = false) before →
  decode_line W l = Throw x →
  decode_lines W (before ++ l :: after) e
  = (flat_map (line_events W) before, Some x).
Proof.
  intros Hb Hl. induction Hb as [|b rest Hb' _ IH]; cbn [app decode_lines flat_map].
  - by rewrite Hl.
  - unfold line_aborts in Hb'. unfold line_events at 1.
    destruct (decode_line W b); [exact IH| |done]. by rewrite IH.
Qed.

(** The stream of a chat that holds a session, in full. *)
Lemma send_message_stream_run (c : KimiChat) (sid : nat) (prompt : string)
    (history : list KimiMessage) (use_search : bool) (file_ids : list string)
    (st : State) :
  _session c = Some sid →
  let rq := stream_request W c prompt history use_search file_ids sid in
  send_message_stream W c prompt history use_search file_ids st =
    (match send W (session_at st sid) (trace st) rq with
     | Replied r =>
         if status_ok r
         then ((decode_lines W (lines r) (stream_end_of (unread r))).1,
               translate <$> (decode_lines W (lines r) (stream_end_of (unread r))).2)
         else ([], Some (translate (http_error (unread r))))
     | Failed x => ([], Some (translate x))
     end, sent W st rq).
Proof.
  intros Hs rq. subst rq.
  unfold send_message_stream, stream_request, session_request, raise_for_status.
  rewrite Hs. run. cbn [via stream].
  destruct (send W _ _ _) as [r|x]; [|reflexivity].
  change (status_ok (unread r)) with (status_ok r).
  destruct (status_ok r); [|reflexivity].
  change (lines (unread r)) with (lines r).
  by destruct (decode_lines W (lines r) (stream_end_of (unread r))).
Qed.

(** A call on a closed session leaves the session objects as they are. *)
Lemma sent_on_closed (st : State) (rq : Request) :
  closed (session_at st (via rq)) = true →
  sent W st rq = mkState (engine st) (heap st) (trace st ++ [rq]).
Proof.
  intros Hc. unfold sent. f_equal. unfold stored. rewrite Hc.
  apply list_eq. intros i. destruct (decide (i = via rq)) as [->|Hne].
  - rewrite list_lookup_alter_eq. unfold session_at.
    destruct (heap st !! via rq) as [s|]; [|done]. cbn.
    by rewrite with_cookies_same.
  - by rewrite list_lookup_alter_ne.
Qed.




(** X20.  The first line the loop dies on ends the stream: the events of the
    lines before it have been yielded, the exception is translated by the
    handlers around the loop, and the lines after it are never decoded,
    whatever they are. *)
Theorem stream_stops_at_the_line_it_dies_on (c : KimiChat) (sid : nat)
    (prompt : string) (history : list KimiMessage) (use_search : bool)
    (file_ids : list string) (st : State) (r : Response)
    (before after : list string) (l : string) (x : exn) :
  _session c = Some sid →
  send W (session_at st sid) (trace st)
    (stream_request W c prompt history use_search file_ids sid) = Replied r →
  status_ok r = true →
  lines r = before ++ l :: after →
  Forall (λ l, line_aborts W l = false) before →
  decode_line W l = Throw x →
  (send_message_stream W c prompt history use_search file_ids st).1
  = (flat_map (line_events W) before, Some (translate x)).
Proof.
  intros Hs Hsend Hok Hl Hclean Hx.
  rewrite (send_message_stream_run c sid _ _ _ _ st Hs). cbv zeta. cbn [fst].
  by rewrite Hsend, Hok, Hl, (decode_lines_dies _ _ _ _ _ Hclean Hx).
Qed.

(** X21.  The payload fields pass through as they are, of whatever type, and
    missing ones get their defaults: a [cmpl] object without [text] gives a
    chunk with the empty string, a [search_info] object without
    [hallucination] or [search_type] gives the empty dict and the empty
    string, a [status] object gives [StatusUpdate], and an object without
    [event] gives nothing. *)
Theorem missing_fields_get_their_defaults (l decoded : string)
    (ms : list (string * json)) :
  Py.decode_utf8 l = Some decoded →
  Py.startswith (Py.strip decoded) "data:" = true →
  Py.strip (Py.slice_from 5 (Py.strip decoded)) ≠ "" →
  json_loads W (Py.strip (Py.slice_from 5 (Py.strip decoded))) = inr (JObj ms) →
  (lookup_member "event" ms = Some (JStr "cmpl") →
     decode_line W l
     = Yield (CompletionChunk "cmpl"
                (default (JStr "") (lookup_member "text" ms))))
  ∧ (lookup_member "event" ms = Some (JStr "search_info") →
       decode_line W l
       = Yield (SearchInfo "search_info"
                  (default (JObj []) (lookup_member "hallucination" ms))
                  (default (JStr "") (lookup_member "search_type" ms))))
  ∧ (lookup_member "event" ms = Some (JStr "status") →
       decode_line W l = Yield (StatusUpdate "status"))
  ∧ (lookup_member "event" ms = None → decode_line W l = Skip).
Proof.
  intros Hd Hp Hb Hj. unfold decode_line. rewrite Hd, Hp, Hj. cbn [negb].
  destruct (String.eqb_spec (Py.strip (Py.slice_from 5 (Py.strip decoded))) "");
    [done|].
  unfold dispatch. cbn [Value.get].
  split; [|split; [|split]]; intros ->; cbn.
  - by destruct (lookup_member "text" ms).
  - by destruct (lookup_member "hallucination" ms),
                (lookup_member "search_type" ms).
  - done.
  - done.
Qed.

(** X22.  [send_message_stream] never initializes anything and leaves the
    engine object as it is.  When the chat holds a session object it makes
    exactly one call, on that object, and of the session objects nothing
    differs afterwards but, at most, the cookie store of that one; when
    that object is closed nothing at all differs and the stream ends at once
    with [APIError] around the transport's refusal.  When the chat holds no
    session object it yields nothing, sends nothing and ends with
    [KimiException]. *)
Theorem a_chat_posts_on_its_own_session (c : KimiChat) (prompt : string)
    (history : list KimiMessage) (use_search : bool) (file_ids : list string)
    (st : State) :
  let out := send_message_stream W c prompt history use_search file_ids st in
  engine out.2 = engine st
  ∧ match _session c with
    | Some sid =>
        only_cookies_of sid st out.2
        ∧ trace out.2
          = trace st ++ [stream_request W c prompt history use_search file_ids sid]
        ∧ (closed (session_at st sid) = true →
             heap out.2 = heap st
             ∧ ∃ msg, out.1 = ([], Some (APIError msg 0 "No response"
                                           (Some session_closed))))
    | None =>
        heap out.2 = heap st
        ∧ trace out.2 = trace st
        ∧ out.1 = ([], Some (KimiException
                               "Stream processing failed: 'NoneType' object has no attribute 'post'"
                               (Some (Builtin "AttributeError"
                                        "'NoneType' object has no attribute 'post'"))))
    end.
Proof.
  intros out. subst out. destruct (_session c) as [sid|] eqn:Hs.
  - rewrite (send_message_stream_run c sid _ _ _ _ st Hs). cbv zeta.
    cbn [fst snd]. split; [done|]. split.
    { apply (sent_only_cookies W st
               (stream_request W c prompt history use_search file_ids sid)). }
    split; [done|]. intros Hc.
    rewrite sent_on_closed by done. split; [done|].
    rewrite send_on_closed by done. by eexists.
  - unfold send_message_stream. rewrite Hs. by run.
Qed.

End Streams.

(** ** The upload, step by step *)

Section Registered.
Context (W : World) (st st0 : State) (sid : nat) (file_path : string).
Context (r1 r2 r3 : Response) (ps fs : list (string * json)).
Context (u content : string) (object_name : json).

Let file_name := Py.basename file_path.
Let base := base_url (engine st).
Let presign := presign_request base file_name sid.
Let put := put_request u content sid.
Let register :=
  register_request base file_name object_name
    (default (JStr "") (lookup_member "file_id" ps)) sid.
Let st1 := sent W st0 presign.
Let st2 := sent W st1 put.
Let st3 := sent W st2 register.

Hypothesis file_exists : path_exists W file_path = true.
Hypothesis engine_prepared : prepared W st = (Ok tt, st0).
Hypothesis engine_session : session (engine st0) = Some sid.
Hypothesis presign_reply :
  send W (session_at st0 sid) (trace st0) presign = Replied r1.
Hypothesis presign_ok : status_ok r1 = true.
Hypothesis presign_body : json_loads W (text r1) = inr (JObj ps).
Hypothesis presign_url : lookup_member "url" ps = Some (JStr u).
Hypothesis file_opens : open_rb W file_path = inr (inr content).
Hypothesis put_reply :
  send W (session_at st1 sid) (trace st1) put = Replied r2.
Hypothesis put_ok : status_ok r2 = true.
Hypothesis presign_object : lookup_member "object_name" ps = Some object_name.
Hypothesis register_reply :
  send W (session_at st2 sid) (trace st2) register = Replied r3.
Hypothesis register_ok : status_ok r3 = true.
Hypothesis register_body : json_loads W (text r3) = inr (JObj fs).

(** Up to the answer of the registration the upload has made three calls,
    and what is left is [after_registration]. *)
Lemma upload_steps_registered :
  upload_steps W file_path file_name (file_type_of file_name) st
  = after_registration W (file_type_of file_name) (JObj fs) st3.
Proof.
  assert (prepared W st2 = (Ok tt, st2)) as Hp2.
  { unfold prepared. change (engine st2) with (engine st0).
    by rewrite engine_session. }
  assert (plain_request "POST" (base +:+ "/file")
            (JsonBody
               (JObj
                  [("name", JStr file_name); ("object_name", object_name);
                   ("type", JStr (file_type_of file_name));
                   ("file_id",
                    match lookup_member "file_id" ps with
                    | Some x => x
                    | None => JStr ""
                    end)])) sid = register) as Hreg.
  { unfold register, register_request. by destruct (lookup_member "file_id" ps). }
  unfold upload_steps, after_registration.
  unfold mbind at 1, M_bind at 1, get_engine at 1.
  unfold mbind at 1, M_bind at 1.
  rewrite (make_request_spec W _ _ _ st st0 sid engine_prepared engine_session).
  cbv zeta. fold base.
  change (plain_request "POST" (base +:+ "/pre-sign-url") _ sid) with presign.
  rewrite presign_reply, presign_ok. fold st1.
  unfold response_json. rewrite presign_body. run. rewrite file_opens. run.
  change (engine st1) with (engine st0). rewrite engine_session. run.
  cbn [Value.getitem Value.get]. rewrite presign_url, presign_object. run.
  unfold session_put, session_request at 1. cbn [via stream].
  change (mkRequest "PUT" u (DataBody content) false sid) with put.
  rewrite put_reply. fold st2.
  unfold raise_for_status at 1. rewrite put_ok. run.
  destruct (lookup_member "file_id" ps) as [fid|] eqn:Hfid;
    cbn [default] in Hreg;
    change (base_url (engine st2)) with (base_url (engine st0));
    rewrite (prepared_base_url W st st0 _ engine_prepared); fold base;
    rewrite (make_request_spec W _ _ _ _ _ sid Hp2 engine_session); cbv zeta;
    rewrite Hreg, register_reply, register_ok, register_body; reflexivity.
Qed.

Lemma upload_file_registered :
  upload_file W file_path st =
    match after_registration W (file_type_of file_name) (JObj fs) st3 with
    | (Ok f, st') => (Ok f, st')
    | (Raise cause, st') => (Raise (upload_error file_path cause), st')
    end.
Proof.
  rewrite (upload_file_present W file_path st file_exists).
  fold file_name. by rewrite upload_steps_registered.
Qed.

Lemma registered_trace : trace st3 = trace st ++ [presign; put; register].
Proof.
  unfold st3, st2, st1. cbn [sent trace].
  rewrite (prepared_trace W st st0 _ engine_prepared).
  by rewrite <- !app_assoc.
Qed.

(** X23.  When the file is an image and the three steps succeed, [upload_file]
    returns the [UploadedFile] built from the registration's answer ([meta]
    defaults to the empty dict, the [file_id] sent defaults to the empty
    string) and has made exactly the pre-sign, PUT and registration calls:
    the parse trigger is not called. *)
Theorem image_upload_makes_three_calls (id name object_name' type : json) :
  file_type_of file_name = "image" →
  lookup_member "id" fs = Some id →
  lookup_member "name" fs = Some name →
  lookup_member "object_name" fs = Some object_name' →
  lookup_member "type" fs = Some type →
  upload_file W file_path st
  = (Ok (mkUploadedFile id name object_name' type
           (default (JObj []) (lookup_member "meta" fs))),
     st3)
  ∧ trace st3 = trace st ++ [presign; put; register].
Proof.
  intros Hty Hid Hname Hobj Htype. split; [|apply registered_trace].
  rewrite upload_file_registered. unfold after_registration. rewrite Hty.
  change (String.eqb "image" "file") with false. run.
  cbn [Value.getitem Value.get]. rewrite Hid, Hname, Hobj, Htype. run.
  by destruct (lookup_member "meta" fs).
Qed.

(** X24.  For a document the parse trigger is the fourth call, made with the
    registered id, and only its status matters: when the transport does not
    count the status as an error (200 to 399), whatever the body,
    [upload_file] returns the [UploadedFile] built from the registration's
    answer; on any other status it raises [FileUploadError] although the
    file has been registered. *)
Theorem document_upload_depends_on_the_parse_status (r4 : Response)
    (id name object_name' type : json) :
  file_type_of file_name = "file" →
  lookup_member "id" fs = Some id →
  lookup_member "name" fs = Some name →
  lookup_member "object_name" fs = Some object_name' →
  lookup_member "type" fs = Some type →
  let parse := parse_request base id sid in
  send W (session_at st3 sid) (trace st3) parse = Replied r4 →
  upload_file W file_path st
  = (if bool_decide (200 ≤ status_code r4 < 400)%Z
     then Ok (mkUploadedFile id name object_name' type
                (default (JObj []) (lookup_member "meta" fs)))
     else Raise (upload_error file_path (http_error r4)),
     sent W st3 parse)
  ∧ trace (sent W st3 parse) = trace st ++ [presign; put; register; parse].
Proof.
  intros Hty Hid Hname Hobj Htype parse Hsend. split.
  - assert (bool_decide (200 ≤ status_code r4 < 400)%Z = status_ok r4) as ->.
    { unfold status_ok. destruct (200 <=? status_code r4)%Z eqn:H1;
        destruct (status_code r4 <? 400)%Z eqn:H2; cbn [andb];
        [apply bool_decide_eq_true_2|apply bool_decide_eq_false_2..]; lia. }
    rewrite upload_file_registered. unfold after_registration. rewrite Hty.
    change (String.eqb "file" "file") with true. run.
    cbn [Value.getitem Value.get]. rewrite Hid. run.
    change (session (engine st3)) with (session (engine st0)).
    rewrite engine_session. run.
    unfold session_request. cbn [via stream].
    change (base_url (engine st3)) with (base_url (engine st0)).
    rewrite (prepared_base_url W st st0 _ engine_prepared). fold base.
    change (mkRequest "POST" (base +:+ "/file/parse_process")
              (JsonBody (JObj [("ids", JArr [id])])) false sid) with parse.
    rewrite Hsend. unfold raise_for_status.
    destruct (status_ok r4); run; [|reflexivity].
    rewrite Hname, Hobj, Htype. run.
    by destruct (lookup_member "meta" fs).
  - cbn [sent trace]. rewrite registered_trace. by rewrite <- !app_assoc.
Qed.

(** X25.  When the registration's answer has no [id], [upload_file] raises
    [FileUploadError] around [KeyError] right after the registration: three
    calls have been made and the parse trigger is not among them, also for a
    document. *)
Theorem registration_without_id_fails_before_the_parse_trigger :
  lookup_member "id" fs = None →
  upload_file W file_path st
  = (Raise (upload_error file_path (Builtin "KeyError" "'id'")), st3)
  ∧ trace st3 = trace st ++ [presign; put; register].
Proof.
  intros Hid. split; [|apply registered_trace].
  rewrite upload_file_registered. unfold after_registration. run.
  cbn [Value.getitem]. by rewrite Hid.
Qed.

End Registered.

Section Presigned.
Context (W : World).

(** X26.  When the pre-sign answer has no [url], [upload_file] raises
    [FileUploadError] around [KeyError] and the pre-sign request is the only
    call made: the file has been opened, but it is not read and nothing is
    uploaded. *)
Theorem presign_answer_without_url_stops_the_upload (st st0 : State)
    (sid : nat) (file_path : string) (r1 : Response)
    (ps : list (string * json)) (f : exn + string) :
  path_exists W file_path = true →
  prepared W st = (Ok tt, st0) →
  session (engine st0) = Some sid →
  let presign :=
    presign_request (base_url (engine st)) (Py.basename file_path) sid in
  send W (session_at st0 sid) (trace st0) presign = Replied r1 →
  status_ok r1 = true →
  json_loads W (text r1) = inr (JObj ps) →
  lookup_member "url" ps = None →
  open_rb W file_path = inr f →
  upload_file W file_path st
  = (Raise (upload_error file_path (Builtin "KeyError" "'url'")),
     sent W st0 presign)
  ∧ trace (sent W st0 presign) = trace st ++ [presign].
Proof.
  intros He Hp Hs presign Hsend Hok Hj Hu Ho. split.
  - rewrite (upload_file_present W file_path st He). unfold upload_steps.
    unfold mbind at 1, M_bind at 1, get_engine at 1.
    unfold mbind at 1, M_bind at 1.
    rewrite (make_request_spec W _ _ _ st st0 sid Hp Hs). cbv zeta.
    change (plain_request "POST" _ _ sid) with presign.
    rewrite Hsend, Hok. unfold response_json. rewrite Hj. run. rewrite Ho. run.
    cbn [sent engine]. rewrite Hs. run. cbn [Value.getitem]. by rewrite Hu.
  - cbn [sent trace]. by rewrite (prepared_trace W st st0 _ Hp).
Qed.

End Presigned.

(** ** The properties at work on the concrete environments *)

Lemma initialization_happens_once_witness :
  _is_initialized (engine Demo.started) = true
  ∧ _initialize_session Demo.happy Demo.started = (Ok tt, Demo.started).
Proof.
  apply (initialization_happens_once Demo.happy Demo.fresh Demo.started).
  by vm_compute.
Defined.

Lemma initialization_fails_only_with_AuthenticationError_witness :
  (∃ msg cause, token_missing = AuthenticationError msg cause)
  ∧ trace (_initialize_session Demo.no_token Demo.fresh).2 = trace Demo.fresh
  ∧ _is_initialized (engine (_initialize_session Demo.no_token Demo.fresh).2)
    = false.
Proof.
  apply (initialization_fails_only_with_AuthenticationError Demo.no_token
           Demo.fresh).
  by vm_compute.
Defined.

Lemma every_attempt_builds_a_session_witness :
  ∃ s, heap (_initialize_session Demo.no_token Demo.fresh).2 = [] ++ [s]
       ∧ closed s = false
       ∧ session (engine (_initialize_session Demo.no_token Demo.fresh).2)
         = Some 0.
Proof.
  exact (every_attempt_builds_a_session Demo.no_token Demo.fresh eq_refl).
Defined.

Lemma request_after_failed_initialization_witness :
  (_make_request Demo.no_token "POST" "https://www.kimi.com/api/chat" NoBody
     Demo.fresh).1 = Raise token_missing
  ∧ (_make_request Demo.no_token "POST" "https://www.kimi.com/api/chat" NoBody
       (_make_request Demo.no_token "POST" "https://www.kimi.com/api/chat"
          NoBody Demo.fresh).2).1
    = Ok (Demo.ok_response (Py.dq "{'id':'abc123'}") []).
Proof.
  pose proof (request_after_failed_initialization Demo.no_token Demo.fresh
                Demo.jar_without_token None "POST"
                "https://www.kimi.com/api/chat" NoBody
                eq_refl eq_refl eq_refl eq_refl ltac:(by vm_compute) eq_refl)
    as (H1 & _ & _ & _ & _ & H2).
  split; [exact H1|]. rewrite H2. by vm_compute.
Defined.

Lemma empty_token_is_no_token_witness :
  (_initialize_session Cases.empty_token Demo.fresh).1 = Raise token_missing
  ∧ trace (_initialize_session Cases.empty_token Demo.fresh).2 = [].
Proof.
  apply (proj2 (empty_token_is_no_token Cases.empty_token Demo.fresh
                  [Cookiejar.mkCookie "kimi-auth" (Some "") ".kimi.com" "/"]
                  eq_refl eq_refl eq_refl)
           (Cookiejar.mkCookie "kimi-auth" (Some "") ".kimi.com" "/")).
  - by left.
  - reflexivity.
  - by intros c' [->|[]%elem_of_nil]%elem_of_cons.
  - by left.
Defined.

Lemma unreadable_cookie_file_is_an_authentication_failure_witness :
  (_initialize_session Cases.unreadable_cookies Demo.fresh).1
  = Raise (AuthenticationError
             ("Failed to load or process cookies: " +:+ str Cases.not_a_jar)
             (Some Cases.not_a_jar)).
Proof.
  exact (proj1 (unreadable_cookie_file_is_an_authentication_failure
                  Cases.unreadable_cookies Demo.fresh Cases.not_a_jar
                  eq_refl eq_refl eq_refl)).
Defined.

Lemma initialized_session_is_configured_witness :
  impersonate (session_at (_initialize_session Demo.happy Demo.fresh).2 0)
  = "chrome110"
  ∧ cookies (session_at (_initialize_session Demo.happy Demo.fresh).2 0)
    = [ (".kimi.com",
         [ ("/",
            [ ("kimi-auth",
               Cookiejar.mkCookie "kimi-auth" (Some "tok123") ".kimi.com" "/");
              ("lang",
               Cookiejar.mkCookie "lang" (Some "en") ".kimi.com" "/") ]) ]) ]
  ∧ (headers (session_at (_initialize_session Demo.happy Demo.fresh).2 0)
       !! "Authorization" = Some "Bearer tok123"
     ↔ ("Authorization", "Bearer tok123")
       ∈ [ ("Accept", "application/json, text/plain, */*");
           ("Accept-Language", "ru-RU,ru;q=0.9,en-US;q=0.8");
           ("Content-Type", "application/json");
           ("Origin", "https://www.kimi.com");
           ("Referer", "https://www.kimi.com/");
           ("User-Agent", "Mozilla/5.0 (Windows NT 10.0; Win64; x64) AppleWebKit/537.36 (KHTML, like Gecko) Chrome/124.0.0.0 Safari/537.36");
           ("X-Language", "en-US");
           ("X-Msh-Platform", "web");
           ("x-msh-device-id", "1000000000000000000");
           ("x-msh-session-id", "1000000000000000001");
           ("x-traffic-id", "abcdefghij0123456789");
           ("Authorization", "Bearer " +:+ "tok123") ]).
Proof.
  pose proof (initialized_session_is_configured Demo.happy Demo.fresh Demo.jar
                "tok123" eq_refl eq_refl eq_refl ltac:(by vm_compute)
                ltac:(discriminate)) as (H1 & _ & _ & _ & H2 & _ & H3).
  split; [exact H1|]. split; [exact H2|].
  exact (H3 "Authorization" "Bearer tok123").
Defined.

Lemma open_then_close_restores_the_engine_witness :
  ∃ st2, __aexit__ Demo.started = (Ok tt, st2)
         ∧ engine st2 = engine Demo.fresh
         ∧ trace st2 = []
         ∧ List.length (heap st2) = 1
         ∧ closed (session_at st2 0) = true.
Proof.
  apply (open_then_close_restores_the_engine Demo.happy Demo.fresh Demo.started
           eq_refl eq_refl).
  by vm_compute.
Defined.

Lemma requests_leave_engine_and_sessions_as_they_are_witness :
  engine (_make_request Cases.tracking "POST" "https://www.kimi.com/api/chat"
            NoBody Demo.started).2 = engine Demo.started
  ∧ only_cookies_of 0 Demo.started
      (_make_request Cases.tracking "POST" "https://www.kimi.com/api/chat"
         NoBody Demo.started).2
  ∧ Cookies.get (cookies (session_at Demo.started 0)) "visit" = Ok None
  ∧ Cookies.get
      (cookies
         (session_at
            (_make_request Cases.tracking "POST" "https://www.kimi.com/api/chat"
               NoBody Demo.started).2 0)) "visit" = Ok (Some "1").
Proof.
  destruct (proj1 (requests_leave_engine_and_sessions_as_they_are Cases.tracking)
              "POST" "https://www.kimi.com/api/chat" NoBody Demo.started 0
              eq_refl) as [H1 H2].
  split; [exact H1|]. split; [exact H2|]. split; by vm_compute.
Defined.

Lemma response_below_400_is_returned_witness :
  (_make_request Cases.unmoved "POST" "https://www.kimi.com/api/chat" NoBody
     Demo.started).1 = Ok Cases.not_modified.
Proof.
  by rewrite (response_below_400_is_returned Cases.unmoved "POST"
                "https://www.kimi.com/api/chat" NoBody Demo.started Demo.started
                0 Cases.not_modified eq_refl eq_refl eq_refl
                ltac:(by vm_compute)).
Defined.



Lemma create_chat_lets_decoding_errors_through_witness :
  (create_chat
     (Cases.answering "https://www.kimi.com/api/chat"
        (Demo.ok_response "<html>Bad Gateway</html>" []))
     "New Chat" Demo.started).1
  = Raise (Builtin "JSONDecodeError" "Expecting value")
  ∧ (create_chat
       (Cases.answering "https://www.kimi.com/api/chat"
          (Demo.ok_response "[1]" []))
       "New Chat" Demo.started).1
    = Raise (Builtin "AttributeError" "'list' object has no attribute 'get'").
Proof.
  pose proof (create_chat_lets_decoding_errors_through
                (Cases.answering "https://www.kimi.com/api/chat"
                   (Demo.ok_response "<html>Bad Gateway</html>" []))
                "New Chat" Demo.started Demo.started 0
                (Demo.ok_response "<html>Bad Gateway</html>" [])
                eq_refl eq_refl eq_refl eq_refl) as (H1 & _).
  pose proof (create_chat_lets_decoding_errors_through
                (Cases.answering "https://www.kimi.com/api/chat"
                   (Demo.ok_response "[1]" []))
                "New Chat" Demo.started Demo.started 0
                (Demo.ok_response "[1]" [])
                eq_refl eq_refl eq_refl eq_refl) as (_ & H2).
  split.
  - by rewrite (H1 (Builtin "JSONDecodeError" "Expecting value") eq_refl).
  - by rewrite (H2 (JArr [JNum "1"]) eq_refl ltac:(discriminate)).
Defined.

Lemma chats_share_the_session_of_the_engine_witness :
  _session Demo.chat = Some 0
  ∧ _base_url Demo.chat = base_url (engine Demo.started)
  ∧ session (engine (create_chat Demo.happy "New Chat" Demo.started).2) = Some 0.
Proof.
  apply (chats_share_the_session_of_the_engine Demo.happy "New Chat"
           Demo.started _ 0 Demo.chat eq_refl).
  by vm_compute.
Defined.




Lemma stream_stops_at_the_line_it_dies_on_witness :
  (send_message_stream Demo.interrupted Demo.chat "Hello" [] true []
     Demo.started).1.1
  = [ CompletionChunk "cmpl" (JStr "A") ].
Proof.
  rewrite (stream_stops_at_the_line_it_dies_on Demo.interrupted Demo.chat 0
             "Hello" [] true [] Demo.started
             (Demo.ok_response "" Demo.interrupted_lines)
             [ Py.dq "data:{'event':'cmpl','text':'A'}" ]
             [ Py.dq "data:{'event':'cmpl','text':'B'}" ]
             "data:null"
             (Builtin "AttributeError" "'NoneType' object has no attribute 'get'")
             eq_refl eq_refl eq_refl eq_refl).
  - by vm_compute.
  - repeat (constructor; [by vm_compute|]). constructor.
  - by vm_compute.
Defined.

Lemma missing_fields_get_their_defaults_witness :
  decode_line Demo.happy (Py.dq "data: {'event':'cmpl'}")
  = Yield (CompletionChunk "cmpl" (JStr ""))
  ∧ decode_line Demo.happy (Py.dq "data: {'event':'cmpl','text':5}")
    = Yield (CompletionChunk "cmpl" (JNum "5")).
Proof.
  split.
  - apply (missing_fields_get_their_defaults Demo.happy
             (Py.dq "data: {'event':'cmpl'}") (Py.dq "data: {'event':'cmpl'}")
             [("event", JStr "cmpl")]);
      [by vm_compute | by vm_compute | vm_compute; discriminate
      | by vm_compute | reflexivity].
  - apply (missing_fields_get_their_defaults Demo.happy
             (Py.dq "data: {'event':'cmpl','text':5}")
             (Py.dq "data: {'event':'cmpl','text':5}")
             [("event", JStr "cmpl"); ("text", JNum "5")]);
      [by vm_compute | by vm_compute | vm_compute; discriminate
      | by vm_compute | reflexivity].
Defined.

Lemma image_upload_makes_three_calls_witness :
  (upload_file Demo.happy "/tmp/photo.JPG" Demo.started).1
  = Ok (mkUploadedFile (JStr "f1") (JStr "photo.JPG") (JStr "obj/1")
          (JStr "image") (JObj []))
  ∧ map url (trace (upload_file Demo.happy "/tmp/photo.JPG" Demo.started).2)
    = [ "https://www.kimi.com/api/pre-sign-url"; "https://store.example/put";
        "https://www.kimi.com/api/file" ].
Proof.
  pose proof (image_upload_makes_three_calls Demo.happy Demo.started
                Demo.started 0 "/tmp/photo.JPG"
                (Demo.ok_response
                   (Py.dq "{'url':'https://store.example/put','object_name':'obj/1','file_id':'f0'}") [])
                (mkResponse 200 "" "denied" [] Complete)
                (Demo.ok_response
                   (Py.dq "{'id':'f1','name':'photo.JPG','object_name':'obj/1','type':'image'}") [])
                [("url", JStr "https://store.example/put");
                 ("object_name", JStr "obj/1"); ("file_id", JStr "f0")]
                [("id", JStr "f1"); ("name", JStr "photo.JPG");
                 ("object_name", JStr "obj/1"); ("type", JStr "image")]
                "https://store.example/put" "bytes of the file" (JStr "obj/1")
                eq_refl eq_refl eq_refl eq_refl eq_refl eq_refl eq_refl eq_refl
                eq_refl eq_refl eq_refl eq_refl eq_refl eq_refl
                (JStr "f1") (JStr "photo.JPG") (JStr "obj/1") (JStr "image")
                eq_refl eq_refl eq_refl eq_refl eq_refl) as (H1 & H2).
  rewrite H1. cbn [fst snd]. rewrite H2. split; reflexivity.
Defined.

Lemma document_upload_depends_on_the_parse_status_witness :
  (upload_file Demo.happy "/tmp/report.pdf" Demo.started).1
  = Ok (mkUploadedFile (JStr "f1") (JStr "photo.JPG") (JStr "obj/1")
          (JStr "image") (JObj []))
  ∧ (upload_file (Demo.failing_at "https://www.kimi.com/api/file/parse_process")
       "/tmp/report.pdf" Demo.started).1
    = Raise (upload_error "/tmp/report.pdf" (http_error Demo.broken)).
Proof.
  pose proof (λ W, document_upload_depends_on_the_parse_status W Demo.started
                Demo.started 0 "/tmp/report.pdf"
                (Demo.ok_response
                   (Py.dq "{'url':'https://store.example/put','object_name':'obj/1','file_id':'f0'}") [])
                (mkResponse 200 "" "denied" [] Complete)
                (Demo.ok_response
                   (Py.dq "{'id':'f1','name':'photo.JPG','object_name':'obj/1','type':'image'}") [])
                [("url", JStr "https://store.example/put");
                 ("object_name", JStr "obj/1"); ("file_id", JStr "f0")]
                [("id", JStr "f1"); ("name", JStr "photo.JPG");
                 ("object_name", JStr "obj/1"); ("type", JStr "image")]
                "https://store.example/put" "bytes of the file" (JStr "obj/1")) as H.
  split.
  - by rewrite (proj1 (H Demo.happy
                  eq_refl eq_refl eq_refl eq_refl eq_refl eq_refl eq_refl eq_refl
                  eq_refl eq_refl eq_refl eq_refl eq_refl eq_refl
                  (Demo.ok_response (Py.dq "{'status':'parsed'}") [])
                  (JStr "f1") (JStr "photo.JPG") (JStr "obj/1") (JStr "image")
                  eq_refl eq_refl eq_refl eq_refl eq_refl eq_refl)).
  - by rewrite (proj1 (H (Demo.failing_at "https://www.kimi.com/api/file/parse_process")
                  eq_refl eq_refl eq_refl eq_refl eq_refl eq_refl eq_refl eq_refl
                  eq_refl eq_refl eq_refl eq_refl eq_refl eq_refl
                  Demo.broken
                  (JStr "f1") (JStr "photo.JPG") (JStr "obj/1") (JStr "image")
                  eq_refl eq_refl eq_refl eq_refl eq_refl eq_refl)).
Defined.

Lemma registration_without_id_fails_before_the_parse_trigger_witness :
  (upload_file
     (Cases.answering "https://www.kimi.com/api/file"
        (Demo.ok_response (Py.dq "{'name':'report.pdf'}") []))
     "/tmp/report.pdf" Demo.started).1
  = Raise (upload_error "/tmp/report.pdf" (Builtin "KeyError" "'id'")).
Proof.
  by rewrite (proj1 (registration_without_id_fails_before_the_parse_trigger
                (Cases.answering "https://www.kimi.com/api/file"
                   (Demo.ok_response (Py.dq "{'name':'report.pdf'}") []))
                Demo.started Demo.started 0 "/tmp/report.pdf"
                (Demo.ok_response
                   (Py.dq "{'url':'https://store.example/put','object_name':'obj/1','file_id':'f0'}") [])
                (mkResponse 200 "" "denied" [] Complete)
                (Demo.ok_response (Py.dq "{'name':'report.pdf'}") [])
                [("url", JStr "https://store.example/put");
                 ("object_name", JStr "obj/1"); ("file_id", JStr "f0")]
                [("name", JStr "report.pdf")]
                "https://store.example/put" "bytes of the file" (JStr "obj/1")
                eq_refl eq_refl eq_refl eq_refl eq_refl eq_refl eq_refl eq_refl
                eq_refl eq_refl eq_refl eq_refl eq_refl eq_refl eq_refl)).
Defined.

Lemma presign_answer_without_url_stops_the_upload_witness :
  upload_file
    (Cases.answering "https://www.kimi.com/api/pre-sign-url"
       (Demo.ok_response (Py.dq "{'object_name':'obj/1'}") []))
    "/tmp/photo.JPG" Demo.started
  = (Raise (upload_error "/tmp/photo.JPG" (Builtin "KeyError" "'url'")),
     sent
       (Cases.answering "https://www.kimi.com/api/pre-sign-url"
          (Demo.ok_response (Py.dq "{'object_name':'obj/1'}") []))
       Demo.started
       (presign_request "https://www.kimi.com/api" "photo.JPG" 0)).
Proof.
  exact (proj1 (presign_answer_without_url_stops_the_upload
                  (Cases.answering "https://www.kimi.com/api/pre-sign-url"
                     (Demo.ok_response (Py.dq "{'object_name':'obj/1'}") []))
                  Demo.started Demo.started 0 "/tmp/photo.JPG"
                  (Demo.ok_response (Py.dq "{'object_name':'obj/1'}") [])
                  [("object_name", JStr "obj/1")] (inr "bytes of the file")
                  eq_refl eq_refl eq_refl eq_refl eq_refl eq_refl eq_refl
                  eq_refl)).
Defined.
